(** * Sequential generation pipelines: the conference-planning and the
      travel-planning demo scripts

    A shallow embedding of [autogen_conference_demo.py] (module [Conference])
    and of [crewai_demo.py] (module [Travel]), followed by the properties of
    the two scripts.

    Python text ([str]) is a [string]; a dictionary whose insertion order is
    observable is an association list; the file system and the process
    environment are finite maps.  Effects (console, clock, generation calls,
    files, exceptions) are threaded through an exception-and-state monad; the
    state survives a raised exception, as it does in Python. *)

From Stdlib Require Import Ascii ZArith Floats.
From stdpp Require Import gmap strings list pretty.

(** ** Text *)

(** The line feed, written [\n] in the sources. *)
Definition nl : string := String (ascii_of_nat 10) EmptyString.

(** [s * n] on a Python string. *)
Fixpoint rep (s : string) (n : nat) : string :=
  match n with
  | O => EmptyString
  | S n' => s +:+ rep s n'
  end.

(** [str.upper] and [str.lower] on the ASCII letters; every other byte of the
    UTF-8 text is left as it is.  Python's methods also convert the letters
    outside ASCII: the travel script, which names a file by the lower-cased
    destination, takes the two methods from its world ([Travel.lower_],
    [Travel.upper_]). *)
Definition upper_ascii (c : ascii) : ascii :=
  let n := nat_of_ascii c in
  if (97 <=? n) && (n <=? 122) then ascii_of_nat (n - 32) else c.

Definition lower_ascii (c : ascii) : ascii :=
  let n := nat_of_ascii c in
  if (65 <=? n) && (n <=? 90) then ascii_of_nat (n + 32) else c.

Fixpoint upper (s : string) : string :=
  match s with
  | EmptyString => EmptyString
  | String c s' => String (upper_ascii c) (upper s')
  end.

Fixpoint lower (s : string) : string :=
  match s with
  | EmptyString => EmptyString
  | String c s' => String (lower_ascii c) (lower s')
  end.

(** [t in s]: [t] occurs in [s] verbatim. *)
Definition contains (s t : string) : Prop :=
  exists pre post, s = pre +:+ t +:+ post.

Fixpoint starts_with (t s : string) : bool :=
  match t, s with
  | EmptyString, _ => true
  | String a t', String b s' => if Ascii.eqb a b then starts_with t' s' else false
  | String _ _, EmptyString => false
  end.

Fixpoint containsb (s t : string) : bool :=
  starts_with t s ||
  match s with
  | EmptyString => false
  | String _ s' => containsb s' t
  end.

(** The number a decimal numeral stands for. *)
Fixpoint decimal_from (acc : N) (s : string) : N :=
  match s with
  | EmptyString => acc
  | String c s' => decimal_from (10 * acc + (N.of_nat (nat_of_ascii c) - 48))%N s'
  end.

Definition decimal (s : string) : N := decimal_from 0 s.

(** ** Clock readings *)

Record datetime := {
  year : nat; month : nat; day : nat;
  hour : nat; minute : nat; second : nat;
  microsecond : nat
}.

(** The values a [datetime] of Python can hold, down to the second; the
    years run from 1 to 9999. *)
Definition datetime_ok (t : datetime) : Prop :=
  1 <= year t < 100 * 100 /\ 1 <= month t <= 12 /\ 1 <= day t <= 31 /\
  hour t < 24 /\ minute t < 60 /\ second t < 60.

(** [str(n).zfill(width)] for a natural number. *)
Definition zfill (width : nat) (n : nat) : string :=
  let d := pretty n in rep "0" (width - String.length d) +:+ d.

(** [strftime('%Y-%m-%d %H:%M:%S')] *)
Definition strftime_dashed (t : datetime) : string :=
  zfill 4 (year t) +:+ "-" +:+ zfill 2 (month t) +:+ "-" +:+ zfill 2 (day t) +:+ " " +:+
  zfill 2 (hour t) +:+ ":" +:+ zfill 2 (minute t) +:+ ":" +:+ zfill 2 (second t).

(** [strftime('%Y%m%d_%H%M%S')] *)
Definition strftime_compact (t : datetime) : string :=
  zfill 4 (year t) +:+ zfill 2 (month t) +:+ zfill 2 (day t) +:+ "_" +:+
  zfill 2 (hour t) +:+ zfill 2 (minute t) +:+ zfill 2 (second t).

(** [str(t)] of a [datetime]: the fraction is printed only when it is not zero. *)
Definition str_datetime (t : datetime) : string :=
  strftime_dashed t +:+
  (if microsecond t =? 0 then EmptyString else "." +:+ zfill 6 (microsecond t)).

(** ** Exceptions and the effect monad *)

(** [Exception msg] stands for any instance of a subclass of Python's
    [Exception], [msg] being its [str]; [SystemExit] is what [exit(code)]
    raises, and it is no [Exception]. *)
Inductive exn : Type :=
| Exception (msg : string)
| SystemExit (code : Z).

Inductive result (A : Type) : Type :=
| Ok (a : A)
| Raise (e : exn).
Arguments Ok {A} a.
Arguments Raise {A} e.

Definition M (S A : Type) : Type := S -> result A * S.

Definition ret {S A} (a : A) : M S A := fun s => (Ok a, s).

Definition raise {S A} (e : exn) : M S A := fun s => (Raise e, s).

Definition bind {S A B} (m : M S A) (k : A -> M S B) : M S B :=
  fun s =>
    match m s with
    | (Ok a, s') => k a s'
    | (Raise e, s') => (Raise e, s')
    end.

(** [try: body / except Exception as e: handler]; [str(e)] is handed to the
    handler.  A [SystemExit] passes through. *)
Definition try_except {S A} (body : M S A) (handler : string -> M S A) : M S A :=
  fun s =>
    match body s with
    | (Raise (Exception msg), s') => handler msg s'
    | r => r
    end.

Definition gets {S A} (f : S -> A) : M S A := fun s => (Ok (f s), s).

Definition modify {S} (f : S -> S) : M S unit := fun s => (Ok tt, f s).

Declare Scope py_scope.
Delimit Scope py_scope with py.
Notation "x <- m ;; k" := (bind m (fun x => k))
  (at level 100, m at next level, right associativity) : py_scope.
Notation "m ;; k" := (bind m (fun _ => k))
  (at level 100, right associativity) : py_scope.

(** [for x in l: body x] *)
Fixpoint for_each {S A} (l : list A) (body : A -> M S unit) : M S unit :=
  match l with
  | [] => ret tt
  | x :: l' => bind (body x) (fun _ => for_each l' body)
  end.

(** The exit status of the interpreter for the outcome of a script. *)
Definition exit_status {A} (r : result A) : Z :=
  match r with
  | Ok _ => 0
  | Raise (SystemExit code) => code
  | Raise (Exception _) => 1
  end.

(** A computation that never raises [SystemExit]. *)
Definition no_exit {S A} (m : M S A) : Prop :=
  forall s code, fst (m s) <> Raise (SystemExit code).

(** A computation that leaves a reading [f] of the state as it was. *)
Definition keeps {S A B} (f : S -> B) (m : M S A) : Prop :=
  forall s, f (snd (m s)) = f s.

(** ** Dictionaries that keep insertion order *)

Definition dict : Type := list (string * string).

Fixpoint dict_get (k : string) (d : dict) : option string :=
  match d with
  | [] => None
  | (k', v) :: d' => if String.eqb k k' then Some v else dict_get k d'
  end.

(** [d[k] = v]: a key already present keeps its place. *)
Fixpoint dict_set (k v : string) (d : dict) : dict :=
  match d with
  | [] => [(k, v)]
  | (k', v') :: d' =>
      if String.eqb k k' then (k, v) :: d' else (k', v') :: dict_set k v d'
  end.

(** [str(KeyError(k))] *)
Definition key_error (k : string) : exn := Exception ("'" +:+ k +:+ "'").

(** * The conference-planning workflow ([autogen_conference_demo.py]) *)

Module Conference.

(** The settings of the [config] module, which the script imports: the values
    it reads from [Config], and the outcome of [Config.validate_setup()]. *)
Record Config := {
  API_KEY : string;
  API_BASE : string;
  OPENAI_MODEL : string;
  AGENT_TEMPERATURE : float;
  AGENT_MAX_TOKENS : Z;
  validate_setup : bool
}.

Record message := { role : string; content : string }.

(** The keyword arguments of [client.chat.completions.create]. *)
Record request := {
  req_model : string;
  req_temperature : float;
  req_max_tokens : Z;
  req_messages : list message
}.

(** What a generation call does: [response.choices[0].message.content] is
    text, or the call (or reading the response) raises an [Exception]. *)
Inductive outcome : Type :=
| Text (content : string)
| Failure (msg : string).

(** The five phases, in the order [run] calls them. *)
Inductive stage : Type := Theme | Speakers | Schedule | Logistics | Marketing.

Definition pipeline : list stage := [Theme; Speakers; Schedule; Logistics; Marketing].

(** The key of [self.outputs] a phase writes. *)
Definition key (st : stage) : string :=
  match st with
  | Theme => "theme"
  | Speakers => "speakers"
  | Schedule => "schedule"
  | Logistics => "logistics"
  | Marketing => "marketing"
  end.

(** What the process does, in the order it does it.  [EvCreate] records the
    phase that issues the generation call, the request and what came back;
    [EvStore] is an assignment [self.outputs[key] = value]. *)
Inductive event : Type :=
| EvPrint (text : string)
| EvNow (t : datetime)
| EvCreate (st : stage) (req : request) (res : outcome)
| EvStore (k v : string)
| EvOpen (file : string)
| EvWrite (file text : string).

Record state := {
  outputs : dict;
  fs : gmap string string;
  trace : list event;
  (** the number of clock readings taken so far *)
  readings : nat;
  (** the number of generation calls issued so far *)
  requests : nat
}.

(** The world around the process. *)
Record env := {
  config : Config;
  (** [from openai import OpenAI] succeeds *)
  openai_installed : bool;
  (** the generation service: the [n]-th call of the process, from 0 *)
  create : nat -> request -> outcome;
  (** the clock: the [n]-th reading of the process, from 0 *)
  clock : nat -> datetime;
  (** [open(file, 'w')]: [None] when it succeeds, [Some msg] for an [OSError] *)
  open_error : string -> option string
}.

Definition emit (ev : event) (s : state) : state :=
  {| outputs := outputs s; fs := fs s; trace := trace s ++ [ev];
     readings := readings s; requests := requests s |}.

(** [self.outputs[k]] *)
Definition getitem (k : string) : M state string :=
  fun s =>
    match dict_get k (outputs s) with
    | Some v => (Ok v, s)
    | None => (Raise (key_error k), s)
    end.

(** [self.outputs[k] = v] *)
Definition setitem (k v : string) : M state unit :=
  fun s =>
    (Ok tt, {| outputs := dict_set k v (outputs s); fs := fs s;
               trace := trace s ++ [EvStore k v];
               readings := readings s; requests := requests s |}).

Definition print_ (text : string) : M state unit :=
  fun s => (Ok tt, emit (EvPrint text) s).

(** [f.write(text)] on the file opened under the name [file]: the text is
    added at the end of the file. *)
Definition fwrite (file text : string) : M state unit :=
  fun s =>
    (Ok tt, {| outputs := outputs s;
               fs := alter (fun body => body +:+ text) file (fs s);
               trace := trace s ++ [EvWrite file text];
               readings := readings s; requests := requests s |}).

Section Workflow.

Variable E : env.

(** [datetime.now()] *)
Definition datetime_now : M state datetime :=
  fun s =>
    let t := clock E (readings s) in
    (Ok t, {| outputs := outputs s; fs := fs s; trace := trace s ++ [EvNow t];
              readings := S (readings s); requests := requests s |}).

(** [self.client.chat.completions.create(...)] followed by
    [response.choices[0].message.content], in the phase [st] *)
Definition chat_completions_create (st : stage) (req : request) : M state string :=
  fun s =>
    let res := create E (requests s) req in
    let s' := {| outputs := outputs s; fs := fs s;
                 trace := trace s ++ [EvCreate st req res];
                 readings := readings s; requests := S (requests s) |} in
    match res with
    | Text c => (Ok c, s')
    | Failure msg => (Raise (Exception msg), s')
    end.

(** [open(file, 'w')]: the file is created or truncated. *)
Definition open_w (file : string) : M state unit :=
  fun s =>
    match open_error E file with
    | Some msg => (Raise (Exception msg), s)
    | None =>
        (Ok tt, {| outputs := outputs s; fs := <[file := EmptyString]> (fs s);
                   trace := trace s ++ [EvOpen file];
                   readings := readings s; requests := requests s |})
    end.

(** The fields of a [ConferencePlanningWorkflow] that never change;
    [self.outputs] lives in the state, [self.client] is the service of [E]. *)
Record workflow := {
  model : string;
  conference_name : string;
  conference_type : string;
  duration : string
}.

Open Scope py_scope.

(** [ConferencePlanningWorkflow.__init__] *)
Definition init (conference_name conference_type duration : string) : M state workflow :=
  (if validate_setup (config E) then ret tt
   else
     print_ "ERROR: Configuration validation failed!" ;;
     raise (SystemExit 1)) ;;
  modify (fun s => {| outputs := []; fs := fs s; trace := trace s;
                      readings := readings s; requests := requests s |}) ;;
  ret {| model := OPENAI_MODEL (config E);
         conference_name := conference_name;
         conference_type := conference_type;
         duration := duration |}.

(** The second line of a phase's banner. *)
Definition banner (st : stage) : string :=
  match st with
  | Theme => "PHASE 1: CONFERENCE THEME & VISION"
  | Speakers => "PHASE 2: SPEAKER & TOPIC CURATION"
  | Schedule => "PHASE 3: DETAILED SCHEDULE CREATION"
  | Logistics => "PHASE 4: LOGISTICS PLANNING"
  | Marketing => "PHASE 5: MARKETING STRATEGY"
  end.

Definition working (st : stage) : string :=
  match st with
  | Theme => "[ThemeAgent is defining the conference vision...]"
  | Speakers => "[SpeakerAgent is identifying speakers and sessions...]"
  | Schedule => "[ScheduleAgent is creating the conference agenda...]"
  | Logistics => "[LogisticsAgent is planning venue and logistics...]"
  | Marketing => "[MarketingAgent is creating promotional strategy...]"
  end.

Definition output_label (st : stage) : string :=
  match st with
  | Theme => "
[ThemeAgent Output]"
  | Speakers => "
[SpeakerAgent Output]"
  | Schedule => "
[ScheduleAgent Output]"
  | Logistics => "
[LogisticsAgent Output]"
  | Marketing => "
[MarketingAgent Output]"
  end.

Definition system_prompt (self : workflow) (st : stage) : string :=
  match st with
  | Theme => "You are a conference theme strategist specializing in " +:+ conference_type self +:+ " events.
Define a compelling conference theme and vision. Include:
- Conference theme/tagline (creative and memorable)
- Target audience (who should attend?)
- Key topics/tracks (3-4 main themes)
- Conference goals and value proposition
Keep it concise - 200 words."
  | Speakers => "You are a speaker curator for " +:+ conference_type self +:+ " conferences.
Based on the conference theme, identify:
- 6-8 potential speaker profiles (roles/expertise, not specific names)
- Session types (keynotes, workshops, panels, lightning talks)
- Topic suggestions for each track
- Speaking format recommendations
Keep it concise - 200 words."
  | Schedule => "You are a conference schedule planner.
Based on the theme and speaker information, create a detailed " +:+ duration self +:+ " agenda:
- Day-by-day breakdown
- Time slots for each session (use realistic times: 9am-5pm)
- Balance of keynotes, workshops, panels, and networking
- Include breaks, meals, and networking time
- Note parallel tracks if applicable
Keep it structured and clear - 250 words."
  | Logistics => "You are a conference logistics coordinator.
Based on the schedule and expected attendees, plan:
- Venue requirements (room sizes, AV equipment, layout)
- Catering needs (meals, breaks, dietary considerations)
- Registration and check-in process
- Technology requirements (WiFi, streaming, app)
- Contingency plans
Keep it practical and concise - 200 words."
  | Marketing => "You are a conference marketing strategist.
Based on all conference details, create a marketing plan:
- Key marketing messages and positioning
- Target promotion channels (social media, email, partnerships)
- Early bird vs regular pricing strategy
- Promotional timeline (3 months before event)
- Content marketing ideas
Keep it actionable - 200 words."
  end.

(** The user messages, as functions of the outputs they quote. *)
Definition theme_message (self : workflow) : string :=
  "Create a compelling theme and vision for '" +:+ conference_name self +:+ "', a " +:+ duration self +:+ " " +:+ conference_type self +:+ " conference.".

Definition speakers_message (self : workflow) (theme : string) : string :=
  "Conference Theme and Vision:
" +:+ theme +:+ "

Now identify ideal speaker profiles and session topics for this " +:+ duration self +:+ " conference.".

Definition schedule_message (self : workflow) (theme speakers : string) : string :=
  "Conference Theme:
" +:+ theme +:+ "

Speaker & Session Information:
" +:+ speakers +:+ "

Create a detailed " +:+ duration self +:+ " conference schedule.".

Definition logistics_message (schedule theme : string) : string :=
  "Conference Schedule:
" +:+ schedule +:+ "

Conference Theme & Audience:
" +:+ theme +:+ "

Plan the logistics for this conference.".

Definition marketing_message (theme schedule : string) : string :=
  "Conference Details:

Theme & Vision:
" +:+ theme +:+ "

Schedule Overview:
" +:+ schedule +:+ "

Create a comprehensive marketing strategy for this conference.".

(** The f-string [user_message] of a phase: it reads [self.outputs] in the
    order the placeholders stand, and a missing key raises [KeyError]. *)
Definition user_message (self : workflow) (st : stage) : M state string :=
  match st with
  | Theme => ret (theme_message self)
  | Speakers =>
      theme <- getitem "theme" ;;
      ret (speakers_message self theme)
  | Schedule =>
      theme <- getitem "theme" ;;
      speakers <- getitem "speakers" ;;
      ret (schedule_message self theme speakers)
  | Logistics =>
      schedule <- getitem "schedule" ;;
      theme <- getitem "theme" ;;
      ret (logistics_message schedule theme)
  | Marketing =>
      theme <- getitem "theme" ;;
      schedule <- getitem "schedule" ;;
      ret (marketing_message theme schedule)
  end.

Definition request_of (self : workflow) (system_prompt user_message : string) : request :=
  {| req_model := model self;
     req_temperature := AGENT_TEMPERATURE (config E);
     req_max_tokens := AGENT_MAX_TOKENS (config E);
     req_messages := [ {| role := "system"; content := system_prompt |};
                       {| role := "user"; content := user_message |} ] |}.

(** The common body of [phase_theme], [phase_speakers], [phase_schedule],
    [phase_logistics] and [phase_marketing]: the five methods differ in their
    texts and in the key they write, and in nothing else. *)
Definition phase (self : workflow) (st : stage) : M state unit :=
  print_ (nl +:+ rep "=" 80) ;;
  print_ (banner st) ;;
  print_ (rep "=" 80) ;;
  print_ (working st) ;;
  let system_prompt := system_prompt self st in
  user_message <- user_message self st ;;
  try_except
    (content <- chat_completions_create st (request_of self system_prompt user_message) ;;
     setitem (key st) content ;;
     print_ (output_label st) ;;
     out <- getitem (key st) ;;
     print_ out)
    (fun e =>
       print_ ("❌ Error: " +:+ e) ;;
       raise (Exception e)).

Definition phase_theme (self : workflow) : M state unit := phase self Theme.
Definition phase_speakers (self : workflow) : M state unit := phase self Speakers.
Definition phase_schedule (self : workflow) : M state unit := phase self Schedule.
Definition phase_logistics (self : workflow) : M state unit := phase self Logistics.
Definition phase_marketing (self : workflow) : M state unit := phase self Marketing.

Definition sections : list (string * string) :=
  [ ("THEME & VISION", "theme");
    ("SPEAKERS & TOPICS", "speakers");
    ("CONFERENCE SCHEDULE", "schedule");
    ("LOGISTICS PLAN", "logistics");
    ("MARKETING STRATEGY", "marketing") ].

(** [print_summary]: the console summary, then the plan written to a file
    named after the clock reading. *)
Definition print_summary (self : workflow) : M state unit :=
  print_ (nl +:+ rep "=" 80) ;;
  print_ "CONFERENCE PLANNING SUMMARY" ;;
  print_ (rep "=" 80) ;;
  print_ ("
✅ Conference: " +:+ conference_name self +:+ "
✅ Type: " +:+ conference_type self +:+ "
✅ Duration: " +:+ duration self +:+ "

This workflow demonstrated a 5-agent collaboration:
1. ThemeAgent - Defined conference vision and theme
2. SpeakerAgent - Curated speakers and topics
3. ScheduleAgent - Created detailed " +:+ duration self +:+ " agenda
4. LogisticsAgent - Planned venue and logistics
5. MarketingAgent - Developed promotional strategy

Each agent built upon previous outputs to create a comprehensive conference plan.
") ;;
  print_ (nl +:+ rep "=" 80) ;;
  print_ "FULL CONFERENCE PLAN - ALL COMPONENTS" ;;
  print_ (rep "=" 80) ;;
  for_each sections (fun '(title, k) =>
    print_ (nl +:+ rep "-" 80) ;;
    print_ title ;;
    print_ (rep "-" 80) ;;
    out <- getitem k ;;
    print_ out) ;;
  now <- datetime_now ;;
  let timestamp := strftime_compact now in
  let output_file := "conference_plan_" +:+ timestamp +:+ ".txt" in
  open_w output_file ;;
  fwrite output_file (rep "=" 80 +:+ nl) ;;
  fwrite output_file ("CONFERENCE PLANNING - " +:+ upper (conference_name self) +:+ nl) ;;
  fwrite output_file (rep "=" 80 +:+ nl) ;;
  now <- datetime_now ;;
  fwrite output_file ("Generated: " +:+ strftime_dashed now +:+ nl) ;;
  fwrite output_file ("Model: " +:+ model self +:+ nl) ;;
  fwrite output_file ("Type: " +:+ conference_type self +:+ nl) ;;
  fwrite output_file ("Duration: " +:+ duration self +:+ nl +:+ nl) ;;
  for_each sections (fun '(title, k) =>
    fwrite output_file (nl +:+ rep "-" 80 +:+ nl) ;;
    fwrite output_file (title +:+ nl) ;;
    fwrite output_file (rep "-" 80 +:+ nl) ;;
    out <- getitem k ;;
    fwrite output_file (out +:+ nl)) ;;
  print_ ("
💾 Full conference plan saved to: " +:+ output_file) ;;
  now <- datetime_now ;;
  print_ ("
End Time: " +:+ strftime_dashed now) ;;
  print_ (rep "=" 80).

(** [ConferencePlanningWorkflow.run] *)
Definition run (self : workflow) : M state unit :=
  print_ (nl +:+ rep "=" 80) ;;
  print_ ("CONFERENCE PLANNING WORKFLOW - " +:+ upper (conference_name self)) ;;
  print_ (rep "=" 80) ;;
  print_ ("Conference Type: " +:+ conference_type self) ;;
  print_ ("Duration: " +:+ duration self) ;;
  now <- datetime_now ;;
  print_ ("Start Time: " +:+ strftime_dashed now) ;;
  print_ ("Model: " +:+ model self +:+ nl) ;;
  phase_theme self ;;
  phase_speakers self ;;
  phase_schedule self ;;
  phase_logistics self ;;
  phase_marketing self ;;
  print_summary self.

Definition CONFERENCE_NAME : string := "AI Horizons 2026".
Definition CONFERENCE_TYPE : string := "AI/ML technology".
Definition DURATION : string := "3 days".

(** The script from its first line: the guarded import, then the
    [if __name__ == "__main__":] block.  [argv] is [sys.argv], which the
    script never reads. *)
Definition script (argv : list string) : M state unit :=
  (if openai_installed E then ret tt
   else
     print_ "ERROR: OpenAI client is not installed!" ;;
     print_ "Please run: pip install -r ../requirements.txt" ;;
     raise (SystemExit 1)) ;;
  print_ "
🎯 EXERCISE 4: CUSTOM PROBLEM - CONFERENCE PLANNING" ;;
  print_ (rep "=" 80) ;;
  print_ "This demo shows how to adapt AutoGen for different problem domains." ;;
  print_ "We're planning a multi-day tech conference using 5 specialized agents." ;;
  print_ (rep "=" 80) ;;
  try_except
    (workflow <- init CONFERENCE_NAME CONFERENCE_TYPE DURATION ;;
     run workflow ;;
     print_ "
✅ Conference planning workflow completed successfully!" ;;
     print_ "
💡 TIP: Edit the CONFERENCE_NAME, CONFERENCE_TYPE, and DURATION" ;;
     print_ "    variables in this file to plan different types of conferences!")
    (fun e =>
       print_ ("
❌ Error during workflow execution: " +:+ e) ;;
       print_ "
Troubleshooting:" ;;
       print_ "1. Verify your API key is set in .env" ;;
       print_ "2. Check your API key has sufficient credits" ;;
       print_ "3. Verify internet connection").

End Workflow.

(** A process starts with nothing printed, no workflow object, and the files
    that earlier processes left. *)
Definition start (files : gmap string string) : state :=
  {| outputs := []; fs := files; trace := []; readings := 0; requests := 0 |}.

(** What the caller of the workflow sees: the constructor, then [run]. *)
Definition plan (E : env) (conference_name conference_type duration : string)
    (files : gmap string string) : result unit * state :=
  bind (init E conference_name conference_type duration) (run E) (start files).

Definition process (E : env) (argv : list string) (files : gmap string string)
    : result unit * state :=
  script E argv (start files).

(** Readings of a trace. *)
Definition printed (tr : list event) : list string :=
  omap (fun ev => match ev with EvPrint t => Some t | _ => None end) tr.

Definition calls (tr : list event) : list (stage * request * outcome) :=
  omap (fun ev => match ev with EvCreate st r o => Some (st, r, o) | _ => None end) tr.

Definition stores (tr : list event) : list (string * string) :=
  omap (fun ev => match ev with EvStore k v => Some (k, v) | _ => None end) tr.

Definition opened (tr : list event) : list string :=
  omap (fun ev => match ev with EvOpen f => Some f | _ => None end) tr.

(** The text a request carries: its messages, one after the other. *)
Definition request_text (r : request) : string :=
  foldr (fun m acc => content m +:+ acc) EmptyString (req_messages r).

(** A service that answers every request with the text of its last message. *)
Definition echo (n : nat) (r : request) : outcome :=
  Text (default EmptyString (content <$> last (req_messages r))).


(** ** The phases of a run, one after the other *)

(** [self.outputs[k]] read off a dictionary. *)
Definition item (o : dict) (k : string) : result string :=
  match dict_get k o with
  | Some v => Ok v
  | None => Raise (key_error k)
  end.

(** The user message of a phase as a function of the dictionary it reads. *)
Definition message_of (self : workflow) (o : dict) (st : stage) : result string :=
  match st with
  | Theme => Ok (theme_message self)
  | Speakers =>
      match item o "theme" with
      | Ok theme => Ok (speakers_message self theme)
      | Raise e => Raise e
      end
  | Schedule =>
      match item o "theme" with
      | Ok theme =>
          match item o "speakers" with
          | Ok speakers => Ok (schedule_message self theme speakers)
          | Raise e => Raise e
          end
      | Raise e => Raise e
      end
  | Logistics =>
      match item o "schedule" with
      | Ok schedule =>
          match item o "theme" with
          | Ok theme => Ok (logistics_message schedule theme)
          | Raise e => Raise e
          end
      | Raise e => Raise e
      end
  | Marketing =>
      match item o "theme" with
      | Ok theme =>
          match item o "schedule" with
          | Ok schedule => Ok (marketing_message theme schedule)
          | Raise e => Raise e
          end
      | Raise e => Raise e
      end
  end.

(** The place of a phase in the pipeline, from 1. *)
Definition number (st : stage) : nat :=
  match st with
  | Theme => 1
  | Speakers => 2
  | Schedule => 3
  | Logistics => 4
  | Marketing => 5
  end.

(** What a phase prints before it builds its request. *)
Definition banner_events (st : stage) : list event :=
  [ EvPrint (nl +:+ rep "=" 80); EvPrint (banner st); EvPrint (rep "=" 80);
    EvPrint (working st) ].

(** The request of a phase whose user message is [um]. *)
Definition stage_request (E : env) (self : workflow) (st : stage) (um : string) : request :=
  request_of E self (system_prompt self st) um.

(** What a phase does from its generation call on. *)
Definition call_events (E : env) (self : workflow) (st : stage) (um : string)
    (res : outcome) : list event :=
  EvCreate st (stage_request E self st um) res ::
  match res with
  | Text c => [EvStore (key st) c; EvPrint (output_label st); EvPrint c]
  | Failure msg => [EvPrint ("❌ Error: " +:+ msg)]
  end.

(** The state a phase leaves, by what its generation call returned. *)
Definition after_call (E : env) (self : workflow) (st : stage) (um : string)
    (res : outcome) (s : state) : state :=
  {| outputs := match res with
                | Text c => dict_set (key st) c (outputs s)
                | Failure _ => outputs s
                end;
     fs := fs s;
     trace := trace s ++ banner_events st ++ call_events E self st um res;
     readings := readings s;
     requests := S (requests s) |}.

Definition after_banner (st : stage) (s : state) : state :=
  {| outputs := outputs s; fs := fs s; trace := trace s ++ banner_events st;
     readings := readings s; requests := requests s |}.

(** What [run] prints before the first phase; [t] is its clock reading. *)
Definition header_events (self : workflow) (t : datetime) : list event :=
  [ EvPrint (nl +:+ rep "=" 80);
    EvPrint ("CONFERENCE PLANNING WORKFLOW - " +:+ upper (conference_name self));
    EvPrint (rep "=" 80);
    EvPrint ("Conference Type: " +:+ conference_type self);
    EvPrint ("Duration: " +:+ duration self);
    EvNow t;
    EvPrint ("Start Time: " +:+ strftime_dashed t);
    EvPrint ("Model: " +:+ model self +:+ nl) ].

Definition after_header (E : env) (self : workflow) (s : state) : state :=
  {| outputs := outputs s; fs := fs s;
     trace := trace s ++ header_events self (clock E (readings s));
     readings := S (readings s); requests := requests s |}.

(** The workflow object [init] returns. *)
Definition workflow_of (E : env) (conference_name conference_type duration : string)
    : workflow :=
  {| model := OPENAI_MODEL (config E);
     conference_name := conference_name;
     conference_type := conference_type;
     duration := duration |}.

(** The events that are neither a generation call nor an assignment to
    [self.outputs]. *)
Definition quiet (ev : event) : bool :=
  match ev with
  | EvCreate _ _ _ | EvStore _ _ => false
  | _ => true
  end.

(** [phases E self l s r s']: running the phases [l] one after the other from
    [s] ends in [s'] with the outcome [r].  The run of the phases stops at the
    first one that raises. *)
Inductive phases (E : env) (self : workflow) :
    list stage -> state -> result unit -> state -> Prop :=
| phases_nil s :
    phases E self [] s (Ok tt) s
| phases_text st l s um c r s' :
    message_of self (outputs s) st = Ok um ->
    create E (requests s) (stage_request E self st um) = Text c ->
    phases E self l (after_call E self st um (Text c) s) r s' ->
    phases E self (st :: l) s r s'
| phases_failure st l s um msg :
    message_of self (outputs s) st = Ok um ->
    create E (requests s) (stage_request E self st um) = Failure msg ->
    phases E self (st :: l) s (Raise (Exception msg))
           (after_call E self st um (Failure msg) s)
| phases_key_error st l s e :
    message_of self (outputs s) st = Raise e ->
    phases E self (st :: l) s (Raise e) (after_banner st s).

(** The generation calls of a trace, each with the keys stored before it. *)
Fixpoint calls_with_stored (stored : list string) (tr : list event)
    : list (stage * list string) :=
  match tr with
  | [] => []
  | EvCreate st _ _ :: tr' => (st, stored) :: calls_with_stored stored tr'
  | EvStore k _ :: tr' => calls_with_stored (stored ++ [k]) tr'
  | _ :: tr' => calls_with_stored stored tr'
  end.

(** The calls of the phases [l] when each is issued after the outputs of the
    phases before it have been stored. *)
Fixpoint in_turn (stored : list string) (l : list stage) : list (stage * list string) :=
  match l with
  | [] => []
  | st :: l' => (st, stored) :: in_turn (stored ++ [key st]) l'
  end.

(** The generation calls of a trace, each with the dictionary as it was when
    the call was issued. *)
Fixpoint calls_with_outputs (stored : dict) (tr : list event)
    : list (stage * request * dict) :=
  match tr with
  | [] => []
  | EvCreate st req _ :: tr' => (st, req, stored) :: calls_with_outputs stored tr'
  | EvStore k v :: tr' => calls_with_outputs (dict_set k v stored) tr'
  | _ :: tr' => calls_with_outputs stored tr'
  end.

(** Every request quotes, verbatim, every output stored before it was issued. *)
Definition quotes_every_prior_output (tr : list event) : Prop :=
  forall st req prior k v,
    In (st, req, prior) (calls_with_outputs [] tr) ->
    In (k, v) prior ->
    contains (request_text req) v.

Definition quotes_every_prior_outputb (tr : list event) : bool :=
  forallb (fun '(_, req, prior) =>
             forallb (fun kv => containsb (request_text req) kv.2) prior)
          (calls_with_outputs [] tr).

(** The text of an exception names a stage. *)
Definition names_stage (e : exn) (st : stage) : Prop :=
  match e with
  | Exception msg => contains msg (key st)
  | SystemExit _ => False
  end.

(** ** The text of the plan file *)

(** What [print_summary] writes to the file, as a function of the workflow,
    the dictionary and the clock reading of the line [Generated:]. *)
Definition document (self : workflow) (o : dict) (generated : datetime) : string :=
  rep "=" 80 +:+ nl +:+
  "CONFERENCE PLANNING - " +:+ upper (conference_name self) +:+ nl +:+
  rep "=" 80 +:+ nl +:+
  "Generated: " +:+ strftime_dashed generated +:+ nl +:+
  "Model: " +:+ model self +:+ nl +:+
  "Type: " +:+ conference_type self +:+ nl +:+
  "Duration: " +:+ duration self +:+ nl +:+ nl +:+
  foldr (fun '(title, k) rest =>
           nl +:+ rep "-" 80 +:+ nl +:+
           title +:+ nl +:+
           rep "-" 80 +:+ nl +:+
           default EmptyString (dict_get k o) +:+ nl +:+ rest)
        EmptyString sections.

(** The name [print_summary] gives the file for a clock reading. *)
Definition output_file (t : datetime) : string :=
  "conference_plan_" +:+ strftime_compact t +:+ ".txt".

(** ** Stubs *)

Definition stub_config : Config :=
  {| API_KEY := "key"; API_BASE := "https://api.example.test/v1";
     OPENAI_MODEL := "stub-model"; AGENT_TEMPERATURE := 0.5%float;
     AGENT_MAX_TOKENS := 500; validate_setup := true |}.

(** A clock that starts on 3 November 2026 at noon and advances by one second
    from one reading to the next. *)
Definition ticking (n : nat) : datetime :=
  {| year := 2026; month := 11; day := 3; hour := 12; minute := 0; second := n;
     microsecond := 0 |}.

(** A world in which imports, configuration and files are in order. *)
Definition stub_env (service : nat -> request -> outcome) : env :=
  {| config := stub_config; openai_installed := true; create := service;
     clock := ticking; open_error := fun _ => None |}.

(** A service that fails on its [n]-th call, from 0, and echoes otherwise. *)
Definition fails_at (n : nat) (msg : string) (i : nat) (r : request) : outcome :=
  if i =? n then Failure msg else echo i r.


(** The same world with a clock whose fifth reading is nine seconds past
    noon. *)
Definition shifted_env : env :=
  {| config := stub_config; openai_installed := true; create := echo;
     clock := fun n => ticking (if n =? 4 then 9 else n);
     open_error := fun _ => None |}.

(** A world whose directory cannot be written: every [open(file, 'w')] raises
    [PermissionError]. *)
Definition read_only_env : env :=
  {| config := stub_config; openai_installed := true; create := echo; clock := ticking;
     open_error := fun file => Some ("[Errno 13] Permission denied: '" +:+ file +:+ "'") |}.

(** A world whose configuration does not validate. *)
Definition unconfigured_env : env :=
  {| config := {| API_KEY := EmptyString; API_BASE := "https://api.example.test/v1";
                  OPENAI_MODEL := "stub-model"; AGENT_TEMPERATURE := 0.5%float;
                  AGENT_MAX_TOKENS := 500; validate_setup := false |};
     openai_installed := true; create := echo; clock := ticking;
     open_error := fun _ => None |}.

(** The run of the script's own conference with a service that echoes. *)
Definition echo_run : result unit * state :=
  plan (stub_env echo) CONFERENCE_NAME CONFERENCE_TYPE DURATION ∅.

(** The same run with a service whose second call fails, and with one whose
    first call fails. *)
Definition failing_run : result unit * state :=
  plan (stub_env (fails_at 1 "rate limit exceeded"))
       CONFERENCE_NAME CONFERENCE_TYPE DURATION ∅.

Definition failing_first_run : result unit * state :=
  plan (stub_env (fails_at 0 "rate limit exceeded"))
       CONFERENCE_NAME CONFERENCE_TYPE DURATION ∅.


(** The script run with that service, and the script run with arguments on
    its command line. *)
Definition failing_process : result unit * state :=
  process (stub_env (fails_at 1 "rate limit exceeded")) ["autogen_conference_demo.py"] ∅.

Definition process_with_arguments : result unit * state :=
  process (stub_env echo) ["autogen_conference_demo.py"; "PyCon 2027"; "Python"; "2 days"] ∅.

(** A generation call that returned a text, and the calls of a run all of
    whose phases returned: one for each stage of the pipeline, each with a
    text. *)
Definition returned (res : outcome) : bool :=
  match res with
  | Text _ => true
  | Failure _ => false
  end.

Definition all_returned (cs : list (stage * request * outcome)) : bool :=
  (length cs =? length pipeline) && forallb (fun c => returned c.2) cs.

(** [complete o]: all five outputs are in the dictionary. *)
Definition complete (o : dict) : Prop :=
  forall st, is_Some (dict_get (key st) o).

(** [blind g]: the reading [g] of a trace does not see the quiet events. *)
Definition blind {B} (g : list event -> B) : Prop :=
  forall tr ev, quiet ev = true -> g (tr ++ [ev]) = g tr.

(** The assignments of a trace, applied to a dictionary in their order. *)
Definition assign (o : dict) (kvs : list (string * string)) : dict :=
  foldl (fun o kv => dict_set kv.1 kv.2 o) o kvs.

(** The summary printed a second time, after the run [echo_run], and the
    summary printed for the same state in the world of [shifted_env]. *)
Definition rendered_again : result unit * state :=
  print_summary (stub_env echo)
    (workflow_of (stub_env echo) CONFERENCE_NAME CONFERENCE_TYPE DURATION)
    (snd echo_run).

Definition rendered_elsewhere : result unit * state :=
  print_summary shifted_env
    (workflow_of (stub_env echo) CONFERENCE_NAME CONFERENCE_TYPE DURATION)
    (snd echo_run).

End Conference.

(** * The travel-planning crew ([crewai_demo.py]) *)

Module Travel.

(** The settings of the [shared_config] module, which the script imports: the
    values it reads from [Config] and the outcome of [validate_config()]. *)
Record Config := {
  API_KEY : string;
  API_BASE : string;
  USE_GROQ : bool;
  OPENAI_MODEL : string;
  validate_config : bool
}.

(** The functions decorated with [@tool], as the agents hold them. *)
Inductive tool : Type :=
| Tool_search_flight_prices
| Tool_search_hotel_options
| Tool_search_attractions_activities
| Tool_search_travel_costs.

(** The keyword arguments the script gives to [Agent], [Task] and [Crew]. *)
Record Agent := {
  role : string;
  goal : string;
  backstory : string;
  tools : list tool;
  verbose : bool;
  allow_delegation : bool
}.

Record Task := {
  description : string;
  agent : Agent;
  expected_output : string;
  (** [None] when the keyword [context] is not given *)
  context : option (list string)
}.

Record Crew := {
  agents : list Agent;
  tasks : list Task;
  crew_verbose : bool;
  process : string
}.

(** The [inputs] of [crew.kickoff]. *)
Record inputs := {
  in_trip_destination : string;
  in_trip_duration : string;
  in_trip_dates : string;
  in_departure_city : string;
  in_travelers : Z;
  in_budget_preference : string
}.

(** What [crew.kickoff] does: it returns a result whose [str] is the text, or
    it raises an [Exception]. *)
Inductive outcome : Type :=
| Text (content : string)
| Failure (msg : string).

(** What the process does, in the order it does it.  [EvConfigSummary] is the
    call [Config.print_summary()], whose text is that module's affair. *)
Inductive event : Type :=
| EvPrint (text : string)
| EvConfigSummary
| EvNow (t : datetime)
| EvKickoff (crew : Crew) (i : inputs) (res : outcome)
| EvOpen (file : string)
| EvWrite (file text : string)
| EvTraceback (msg : string).

Record state := {
  environ : gmap string string;
  fs : gmap string string;
  trace : list event;
  (** the number of clock readings taken so far *)
  readings : nat
}.

(** The world around the process. *)
Record env := {
  config : Config;
  (** the crew library and the services behind it *)
  kickoff : Crew -> inputs -> outcome;
  (** the clock: the [n]-th reading of the process, from 0 *)
  clock : nat -> datetime;
  (** [open(file, "w")]: [None] when it succeeds, [Some msg] for an [OSError] *)
  open_error : string -> option string;
  (** [Path(__file__).parent / name]: the path [open] is given for the file
      [name] beside the script *)
  beside_script : string -> string;
  (** the methods [str.lower] and [str.upper] of the interpreter, on any text *)
  lower_ : string -> string;
  upper_ : string -> string;
  (** the builtin [int] on a command-line argument: [None] when it raises
      [ValueError] *)
  int_ : string -> option Z
}.

Definition emit (ev : event) (s : state) : state :=
  {| environ := environ s; fs := fs s; trace := trace s ++ [ev];
     readings := readings s |}.

Definition print_ (text : string) : M state unit :=
  fun s => (Ok tt, emit (EvPrint text) s).

(** [os.environ[k] = v] *)
Definition setenv (k v : string) : M state unit :=
  fun s =>
    (Ok tt, {| environ := <[k := v]> (environ s); fs := fs s; trace := trace s;
               readings := readings s |}).

(** [f.write(text)] on the file opened under the name [file]: the text is
    added at the end of the file. *)
Definition fwrite (file text : string) : M state unit :=
  fun s =>
    (Ok tt, {| environ := environ s;
               fs := alter (fun body => body +:+ text) file (fs s);
               trace := trace s ++ [EvWrite file text];
               readings := readings s |}).

(** [traceback.print_exc()] *)
Definition print_exc (msg : string) : M state unit :=
  fun s => (Ok tt, emit (EvTraceback msg) s).

(** [Config.print_summary()] *)
Definition config_print_summary : M state unit :=
  fun s => (Ok tt, emit EvConfigSummary s).

Open Scope py_scope.

(** ** The tools *)

Definition search_flight_prices (destination departure_city : string) : M state string :=
  let search_query := "flights from " +:+ departure_city +:+ " to " +:+ destination +:+ " prices 2026 best options" in
  ret ("
    Research task: Find flights from " +:+ departure_city +:+ " to " +:+ destination +:+ ".

    Please research and provide:
    1. Current flight options with prices (check Kayak, Skyscanner, Google Flights)
    2. Airlines operating these routes
    3. Flight durations and layover information
    4. Best booking times and price trends
    5. Seasonal pricing variations

    Focus on realistic, current pricing for January 2026 travel.
    ").

(** The default of [departure_city] in [search_flight_prices]. *)
Definition search_flight_prices_departure_city : string := "New York".

Definition search_hotel_options (location check_in_date : string) : M state string :=
  let search_query := "hotels in " +:+ location +:+ " " +:+ check_in_date +:+ " reviews ratings prices 2026" in
  ret ("
    Research task: Find hotels in " +:+ location +:+ " for check-in " +:+ check_in_date +:+ ".

    Please research and provide:
    1. Top-rated hotels with guest reviews (check Booking.com, TripAdvisor, Google Hotels)
    2. Current pricing for 5-night stays
    3. Hotel amenities and facilities
    4. Location details and proximity to attractions
    5. Guest ratings and recommendation reasons

    Include budget, mid-range, and luxury options.
    Focus on hotels with high ratings and realistic current prices.
    ").

Definition search_attractions_activities (destination : string) : M state string :=
  let search_query := destination +:+ " attractions activities tours things to do 2026" in
  ret ("
    Research task: Find attractions and activities in " +:+ destination +:+ ".

    Please research and provide:
    1. Top-rated attractions and their estimated visit times
    2. Popular day tours and multi-day excursions
    3. Outdoor activities (hiking, water sports, wildlife viewing)
    4. Cultural sites and local experiences
    5. Typical costs for tours and entrance fees
    6. Best time to visit each location
    7. Transportation options between sites

    Include hidden gems and less-known but highly-rated activities.
    Focus on realistic itineraries that can be completed in 5 days.
    ").

Definition search_travel_costs (destination : string) : M state string :=
  let search_query := destination +:+ " travel costs budget prices meals transport 2025" in
  ret ("
    Research task: Find cost information for a trip to " +:+ destination +:+ ".

    Please research and provide:
    1. Average meal costs (budget, mid-range, restaurants)
    2. Public transportation costs and rental car prices
    3. Tour and activity pricing
    4. Entrance fees for attractions
    5. Estimated daily costs for different budget levels
    6. Money-saving tips and best budget periods
    7. Currency exchange rates and payment methods

    Provide realistic, current pricing information for 2025.
    Focus on actual costs travelers can expect.
    ").

(** ** Agents and tasks *)

Definition create_flight_agent (destination : string) (trip_dates : string) : Agent :=
  {| role := "Senior Aviation Travel Consultant";
     goal :=
       "Research and recommend the best flight options for the " +:+ destination +:+ " trip (" +:+ trip_dates +:+ "), considering dates, airlines, prices, and flight durations. Use real data from flight booking sites to provide accurate, current pricing.";
     backstory :=
       "You are a world-renowned aviation expert with over 15 years of experience in the travel industry. Having worked with major airlines and booking platforms, you possess insider knowledge of pricing algorithms, seasonal trends, and route optimization. You've personally flown over 2 million miles and have mastered the art of finding hidden deals and optimal connections. Your clients trust you to balance cost-efficiency with comfort and convenience. You pride yourself on staying updated with real-time flight data and industry changes.";
     tools := [Tool_search_flight_prices];
     verbose := true;
     allow_delegation := false |}.

Definition create_hotel_agent (destination : string) (trip_dates : string) : Agent :=
  let hotel_location := destination in
  let hotel_location :=
    if String.eqb (lower destination) "iceland" then "Reykjavik"
    else if String.eqb (lower destination) "france" then "Paris"
    else if String.eqb (lower destination) "japan" then "Tokyo"
    else hotel_location in
  {| role := "Elite Hospitality Concierge";
     goal :=
       "Suggest top-rated hotels in " +:+ hotel_location +:+ " for the " +:+ destination +:+ " trip (" +:+ trip_dates +:+ "), considering amenities, location, and value for money. Use real hotel data from booking sites with current prices and reviews.";
     backstory :=
       "You are a distinguished hospitality concierge with an impeccable reputation in luxury and boutique hotel curation. Having visited over 500 properties worldwide and maintained relationships with hotel managers globally, you understand the nuances that make a stay exceptional. Your expertise spans from budget-friendly gems to five-star resorts. You're known for reading between the lines of reviews, identifying authentic feedback, and matching travelers with their perfect accommodation. Your recommendations have earned you features in top travel magazines and a loyal following of satisfied clients who trust your meticulous research and insider knowledge.";
     tools := [Tool_search_hotel_options];
     verbose := true;
     allow_delegation := false |}.

Definition create_itinerary_agent (destination : string) (trip_duration : string) : Agent :=
  {| role := "Master Travel Experience Designer";
     goal :=
       "Create a detailed day-by-day travel plan with activities and attractions that maximize the " +:+ destination +:+ " experience in " +:+ trip_duration +:+ ". Use real current information about attractions, opening hours, and accessibility.";
     backstory :=
       "You are an award-winning travel designer with a deep cultural connection to " +:+ destination +:+ ". After living there for several years and leading hundreds of tours, you've developed an intimate understanding of the destination's soul - from iconic landmarks to secret local spots that tourists rarely discover. Your itineraries are legendary for their perfect pacing, mixing popular attractions with authentic experiences. You consider everything: seasonal weather patterns, crowd levels, optimal visiting times, and the cultural significance of each location. Travel bloggers often cite your recommendations, and your clients describe your itineraries as 'life-changing journeys' rather than simple vacation plans.";
     tools := [Tool_search_attractions_activities];
     verbose := true;
     allow_delegation := false |}.

Definition create_budget_agent (destination : string) : Agent :=
  {| role := "Travel Finance Optimization Expert";
     goal :=
       "Calculate total trip costs for " +:+ destination +:+ " and identify cost-saving opportunities while maintaining quality. Use real current pricing data for all expenses.";
     backstory :=
       "You are a certified financial planner who specializes exclusively in travel economics. With an MBA in Hospitality Management and a background in international finance, you've mastered the art of maximizing travel value. You've personally audited travel expenses for Fortune 500 executives and budget backpackers alike, always finding innovative ways to stretch every dollar without sacrificing experience quality. Your proprietary budgeting framework accounts for seasonal pricing variations, currency fluctuations, and local economic factors. You're known for uncovering hidden fees before they surprise travelers and for identifying legitimate discount opportunities that others miss. Financial publications regularly feature your cost-optimization strategies, and travelers credit you with making their dream trips financially achievable.";
     tools := [Tool_search_travel_costs];
     verbose := true;
     allow_delegation := false |}.

Definition create_marketing_agent (destination : string) : Agent :=
  {| role := "Travel Marketing Strategist";
     goal :=
       "Create a compelling marketing summary for the " +:+ destination +:+ " trip package that highlights unique selling points and appeals to target travelers.";
     backstory :=
       "You are a creative marketing strategist specializing in travel and tourism with 15 years of experience crafting compelling travel narratives. You've worked with major travel brands and boutique tour operators, creating campaigns that convert browsers into bookers. Your talent lies in identifying the emotional triggers that make people want to travel - the promise of adventure, relaxation, cultural immersion, or personal transformation. You understand how to highlight unique value propositions, create urgency, and build trust through authentic storytelling. Your marketing copy has consistently achieved high conversion rates by balancing aspirational imagery with practical details that help travelers envision their perfect trip.";
     tools := [];
     verbose := true;
     allow_delegation := false |}.

Definition create_flight_task (flight_agent : Agent) (destination : string) (trip_dates : string) (departure_city : string) : Task :=
  {| description :=
       "Research and compile a list of REAL flight options from " +:+ departure_city +:+ " to " +:+ destination +:+ " for the trip (" +:+ trip_dates +:+ "). Use actual current flight data from booking sites like Skyscanner, Kayak, Google Flights, or Expedia. Find at least 2-3 different flight options from major airlines, including details about departure times, arrival times, duration, and current realistic prices. Provide recommendations on which flight offers the best value considering both price and convenience.";
     agent := flight_agent;
     expected_output :=
       "A detailed report with 2-3 REAL flight options from " +:+ departure_city +:+ " to " +:+ destination +:+ " including airlines, times, duration, current prices, and a recommendation with reasoning based on actual data from flight booking sites";
     context := None |}.

Definition create_hotel_task (hotel_agent : Agent) (destination : string) (trip_dates : string) : Task :=
  let hotel_location := destination in
  let hotel_location :=
    if String.eqb (lower destination) "iceland" then "Reykjavik"
    else if String.eqb (lower destination) "france" then "Paris"
    else if String.eqb (lower destination) "japan" then "Tokyo"
    else hotel_location in
  {| description :=
       "Based on the trip dates (" +:+ trip_dates +:+ "), find and recommend the top 3-4 REAL hotels in " +:+ hotel_location +:+ ". Research actual hotels on Booking.com, TripAdvisor, Google Hotels, and Expedia. For each hotel, provide the actual name, current guest ratings, real prices per night, confirmed amenities, and explain why it suits this trip. Include a mix of budget, mid-range, and luxury options with honest reviews.";
     agent := hotel_agent;
     expected_output :=
       "A curated list of 3-4 REAL hotel recommendations in " +:+ hotel_location +:+ " with actual details about each hotel, confirmed amenities, real guest ratings, current prices, and personalized recommendations based on actual guest reviews";
     context := None |}.

Definition create_itinerary_task (itinerary_agent : Agent) (destination : string) (trip_duration : string) (trip_dates : string) : Task :=
  {| description :=
       "Create a detailed " +:+ trip_duration +:+ " itinerary for " +:+ destination +:+ " (" +:+ trip_dates +:+ ") based on REAL current information. Research actual attractions, their opening hours, accessibility, and entry fees. Plan day-by-day activities including visits to real attractions and verified sites. Include realistic estimated travel times between locations, activity durations, and recommended visit times. Consider actual weather patterns for this time period in " +:+ destination +:+ " and make the itinerary realistic and well-paced.";
     agent := itinerary_agent;
     expected_output :=
       "A detailed day-by-day itinerary for " +:+ destination +:+ " with REAL activities based on verified attractions, realistic travel times, accurate estimated durations, current entry fees, and practical tips for " +:+ trip_duration +:+ " trip to " +:+ destination;
     context := None |}.

Definition create_budget_task (budget_agent : Agent) (destination : string) (trip_duration : string) : Task :=
  {| description :=
       "Based on the REAL flight options, hotel recommendations, and itinerary created by the other agents, calculate a comprehensive budget for the " +:+ trip_duration +:+ " " +:+ destination +:+ " trip using current pricing. Research and include actual costs for flights, accommodation, meals (use real restaurant prices in the destination), activities/tours (verified prices), transportation within " +:+ destination +:+ ", and miscellaneous expenses. Provide total cost estimates for budget, mid-range, and luxury options based on real prices. Suggest genuine cost-saving tips based on current market conditions.";
     agent := budget_agent;
     expected_output :=
       "A comprehensive budget report with itemized REAL costs for flights, accommodation, meals, activities with actual entry fees, transportation, and total realistic estimates at different budget levels, plus evidence-based cost-saving recommendations for a " +:+ trip_duration +:+ " trip to " +:+ destination;
     context := None |}.

Definition create_marketing_task (marketing_agent : Agent) (destination : string) (trip_duration : string) : Task :=
  {| description :=
       "Create a compelling marketing summary for the " +:+ trip_duration +:+ " " +:+ destination +:+ " trip package based on all the information gathered by other agents (flights, hotels, itinerary, budget). Your summary should: 1) Highlight 3-5 unique selling points that make this package special 2) Create an engaging headline and opening paragraph 3) Include key package details in an appealing way 4) Address potential traveler concerns (value, safety, experience quality) 5) End with a strong call-to-action Write in an enthusiastic but authentic tone that inspires booking decisions. Keep it concise (250-300 words) but impactful.";
     agent := marketing_agent;
     expected_output :=
       "A polished marketing summary with headline, engaging body copy highlighting unique value propositions, key package details, and persuasive call-to-action for the " +:+ destination +:+ " trip";
     context := Some [] |}.
(** ** The crew *)

Section Main.

Variable E : env.

(** [datetime.now()] *)
Definition datetime_now : M state datetime :=
  fun s =>
    let t := clock E (readings s) in
    (Ok t, {| environ := environ s; fs := fs s; trace := trace s ++ [EvNow t];
              readings := S (readings s) |}).

(** [open(file, "w")]: the file is created or truncated. *)
Definition open_w (file : string) : M state unit :=
  fun s =>
    match open_error E file with
    | Some msg => (Raise (Exception msg), s)
    | None =>
        (Ok tt, {| environ := environ s; fs := <[file := EmptyString]> (fs s);
                   trace := trace s ++ [EvOpen file];
                   readings := readings s |})
    end.

(** [crew.kickoff(inputs=...)] *)
Definition crew_kickoff (crew : Crew) (i : inputs) : M state string :=
  fun s =>
    let res := kickoff E crew i in
    let s' := emit (EvKickoff crew i res) s in
    match res with
    | Text c => (Ok c, s')
    | Failure msg => (Raise (Exception msg), s')
    end.

(** [Path(__file__).parent / output_filename] *)
Definition path_of (output_filename : string) : string :=
  beside_script E output_filename.

Definition main (destination trip_duration trip_dates departure_city : string)
    (travelers : Z) (budget_preference : string) : M state unit :=
  print_ (rep "=" 80) ;;
  print_ "CrewAI Multi-Agent Travel Planning System (REAL API VERSION)" ;;
  print_ ("Planning a " +:+ trip_duration +:+ " Trip to " +:+ destination) ;;
  print_ (rep "=" 80) ;;
  print_ "" ;;
  print_ ("ðŸ“ Destination: " +:+ destination) ;;
  print_ ("ðŸ“… Dates: " +:+ trip_dates) ;;
  print_ ("âœˆï¸  Departure from: " +:+ departure_city) ;;
  print_ ("ðŸ‘¥ Travelers: " +:+ pretty travelers) ;;
  print_ ("ðŸ’° Budget: " +:+ budget_preference) ;;
  print_ "" ;;
  print_ "ðŸ” Validating configuration..." ;;
  (if validate_config (config E) then ret tt
   else
     print_ "âŒ Configuration validation failed. Please set up your .env file." ;;
     raise (SystemExit 1)) ;;
  setenv "OPENAI_API_KEY" (API_KEY (config E)) ;;
  setenv "OPENAI_API_BASE" (API_BASE (config E)) ;;
  (if USE_GROQ (config E) then setenv "OPENAI_MODEL_NAME" (OPENAI_MODEL (config E))
   else ret tt) ;;
  print_ "âœ… Configuration validated successfully!" ;;
  print_ "" ;;
  config_print_summary ;;
  print_ "" ;;
  print_ "âš ï¸  IMPORTANT: This version uses REAL OpenAI API calls and web search" ;;
  print_ "    Agents will research actual current prices and real information" ;;
  print_ "" ;;
  print_ "Tip: Check your API usage at https://platform.openai.com/account/usage" ;;
  print_ "" ;;
  print_ "[1/5] Creating Flight Specialist Agent (researches real flights)..." ;;
  let flight_agent := create_flight_agent destination trip_dates in
  print_ "[2/5] Creating Accommodation Specialist Agent (researches real hotels)..." ;;
  let hotel_agent := create_hotel_agent destination trip_dates in
  print_ "[3/5] Creating Travel Planner Agent (researches real attractions)..." ;;
  let itinerary_agent := create_itinerary_agent destination trip_duration in
  print_ "[4/5] Creating Financial Advisor Agent (analyzes real costs)..." ;;
  let budget_agent := create_budget_agent destination in
  print_ "[5/5] Creating Marketing Strategist Agent (creates compelling summary)... [NEW - Exercise 3]" ;;
  let marketing_agent := create_marketing_agent destination in
  print_ "
âœ… All agents created successfully!" ;;
  print_ "" ;;
  print_ "Creating tasks for the crew..." ;;
  let flight_task := create_flight_task flight_agent destination trip_dates departure_city in
  let hotel_task := create_hotel_task hotel_agent destination trip_dates in
  let itinerary_task := create_itinerary_task itinerary_agent destination trip_duration trip_dates in
  let budget_task := create_budget_task budget_agent destination trip_duration in
  let marketing_task := create_marketing_task marketing_agent destination trip_duration in
  print_ "Tasks created successfully!" ;;
  print_ "" ;;
  print_ "Forming the Travel Planning Crew..." ;;
  print_ "Task Sequence: FlightAgent â†’ HotelAgent â†’ ItineraryAgent â†’ BudgetAgent â†’ MarketingAgent [NEW]" ;;
  print_ "" ;;
  let crew :=
    {| agents := [flight_agent; hotel_agent; itinerary_agent; budget_agent; marketing_agent];
       tasks := [flight_task; hotel_task; itinerary_task; budget_task; marketing_task];
       crew_verbose := true;
       process := "sequential" |} in
  print_ (rep "=" 80) ;;
  print_ "Starting Crew Execution with REAL API Calls..." ;;
  print_ ("Planning " +:+ trip_duration +:+ " trip to " +:+ destination +:+ " (" +:+ trip_dates +:+ ")") ;;
  print_ (rep "=" 80) ;;
  print_ "" ;;
  try_except
    (result <- crew_kickoff crew
       {| in_trip_destination := destination;
          in_trip_duration := trip_duration;
          in_trip_dates := trip_dates;
          in_departure_city := departure_city;
          in_travelers := travelers;
          in_budget_preference := budget_preference |} ;;
     print_ "" ;;
     print_ (rep "=" 80) ;;
     print_ "âœ… Crew Execution Completed Successfully!" ;;
     print_ (rep "=" 80) ;;
     print_ "" ;;
     print_ ("FINAL TRAVEL PLAN REPORT FOR " +:+ upper_ E destination +:+ " (Based on Real API Data):") ;;
     print_ (rep "-" 80) ;;
     print_ result ;;
     print_ (rep "-" 80) ;;
     let output_filename := "crewai_output_" +:+ lower_ E destination +:+ ".txt" in
     let output_path := path_of output_filename in
     open_w output_path ;;
     fwrite output_path (rep "=" 80 +:+ nl) ;;
     fwrite output_path ("CrewAI Multi-Agent Travel Planning System - Real API Execution Report" +:+ nl) ;;
     fwrite output_path ("Planning a " +:+ trip_duration +:+ " Trip to " +:+ destination +:+ nl) ;;
     fwrite output_path (rep "=" 80 +:+ nl +:+ nl) ;;
     fwrite output_path ("Trip Details:" +:+ nl) ;;
     fwrite output_path ("  Destination: " +:+ destination +:+ nl) ;;
     fwrite output_path ("  Duration: " +:+ trip_duration +:+ nl) ;;
     fwrite output_path ("  Dates: " +:+ trip_dates +:+ nl) ;;
     fwrite output_path ("  Departure: " +:+ departure_city +:+ nl) ;;
     fwrite output_path ("  Travelers: " +:+ pretty travelers +:+ nl) ;;
     fwrite output_path ("  Budget Preference: " +:+ budget_preference +:+ nl +:+ nl) ;;
     now <- datetime_now ;;
     fwrite output_path ("Execution Time: " +:+ str_datetime now +:+ nl) ;;
     fwrite output_path ("API Version: REAL API CALLS (OpenAI GPT-4)" +:+ nl) ;;
     fwrite output_path ("Data Source: Web research via OpenAI" +:+ nl +:+ nl) ;;
     fwrite output_path ("IMPORTANT NOTES:" +:+ nl) ;;
     fwrite output_path ("- All flight prices, hotel costs, and attraction information is based on real data" +:+ nl) ;;
     fwrite output_path ("- Prices are current as of the date this was run" +:+ nl) ;;
     fwrite output_path ("- Hotel availability and prices may vary by booking date" +:+ nl) ;;
     fwrite output_path ("- Weather conditions and attraction hours should be verified before travel" +:+ nl +:+ nl) ;;
     fwrite output_path ("FINAL TRAVEL PLAN REPORT:" +:+ nl) ;;
     fwrite output_path (rep "-" 80 +:+ nl) ;;
     fwrite output_path result ;;
     fwrite output_path (nl +:+ rep "-" 80 +:+ nl) ;;
     print_ ("
âœ… Output saved to " +:+ output_filename) ;;
     print_ "â„¹ï¸  Note: All data in this report is based on REAL API calls to OpenAI" ;;
     print_ "    and research of current travel information sources.")
    (fun e =>
       print_ ("
âŒ Error during crew execution: " +:+ e) ;;
       print_ "
ðŸ” Troubleshooting:" ;;
       print_ "   1. Verify OPENAI_API_KEY is set: export OPENAI_API_KEY='sk-...'" ;;
       print_ "   2. Check API key is valid and has sufficient credits" ;;
       print_ "   3. Verify internet connection for web research" ;;
       print_ "   4. Check OpenAI API status at https://status.openai.com" ;;
       print_ "" ;;
       print_exc e).

(** The dictionary [kwargs] of the [if __name__ == "__main__":] block. *)
Record kwargs := {
  destination : string;
  trip_duration : string;
  trip_dates : string;
  departure_city : string;
  travelers : Z;
  budget_preference : string
}.

Definition default_kwargs : kwargs :=
  {| destination := "Iceland";
     trip_duration := "5 days";
     trip_dates := "January 15-20, 2026";
     departure_city := "New York";
     travelers := 2;
     budget_preference := "mid-range" |}.

(** [str(ValueError)] of [int(a)], for an argument without quotes or escapes *)
Definition value_error (a : string) : exn :=
  Exception ("invalid literal for int() with base 10: '" +:+ a +:+ "'").

(** [kwargs[name] = value], one definition for each key. *)
Definition set_destination (a : string) (k : kwargs) : kwargs :=
  {| destination := a; trip_duration := trip_duration k;
     trip_dates := trip_dates k; departure_city := departure_city k;
     travelers := travelers k; budget_preference := budget_preference k |}.

Definition set_trip_duration (a : string) (k : kwargs) : kwargs :=
  {| destination := destination k; trip_duration := a;
     trip_dates := trip_dates k; departure_city := departure_city k;
     travelers := travelers k; budget_preference := budget_preference k |}.

Definition set_trip_dates (a : string) (k : kwargs) : kwargs :=
  {| destination := destination k; trip_duration := trip_duration k;
     trip_dates := a; departure_city := departure_city k;
     travelers := travelers k; budget_preference := budget_preference k |}.

Definition set_departure_city (a : string) (k : kwargs) : kwargs :=
  {| destination := destination k; trip_duration := trip_duration k;
     trip_dates := trip_dates k; departure_city := a;
     travelers := travelers k; budget_preference := budget_preference k |}.

Definition set_travelers (n : Z) (k : kwargs) : kwargs :=
  {| destination := destination k; trip_duration := trip_duration k;
     trip_dates := trip_dates k; departure_city := departure_city k;
     travelers := n; budget_preference := budget_preference k |}.

Definition set_budget_preference (a : string) (k : kwargs) : kwargs :=
  {| destination := destination k; trip_duration := trip_duration k;
     trip_dates := trip_dates k; departure_city := departure_city k;
     travelers := travelers k; budget_preference := a |}.

(** The overrides [if len(sys.argv) > i: kwargs[...] = sys.argv[i]], in the
    order the script makes them; [argv !! i] is [Some] exactly when
    [len(sys.argv) > i]. *)
Definition parse_argv (argv : list string) : M state kwargs :=
  let k := default_kwargs in
  let k := match argv !! 1 with Some a => set_destination a k | None => k end in
  let k := match argv !! 2 with Some a => set_trip_duration a k | None => k end in
  let k := match argv !! 3 with Some a => set_departure_city a k | None => k end in
  let k := match argv !! 4 with Some a => set_trip_dates a k | None => k end in
  k <- match argv !! 5 with
       | Some a =>
           match int_ E a with
           | Some n => ret (set_travelers n k)
           | None => raise (value_error a)
           end
       | None => ret k
       end ;;
  let k := match argv !! 6 with Some a => set_budget_preference a k | None => k end in
  ret k.

(** The [if __name__ == "__main__":] block; [argv] is [sys.argv]. *)
Definition script (argv : list string) : M state unit :=
  k <- parse_argv argv ;;
  main (destination k) (trip_duration k) (trip_dates k) (departure_city k)
       (travelers k) (budget_preference k).

End Main.

(** A process starts with nothing printed, the environment variables it
    inherits, and the files that earlier processes left. *)
Definition start (vars files : gmap string string) : state :=
  {| environ := vars; fs := files; trace := []; readings := 0 |}.

Definition run_process (E : env) (argv : list string) (vars files : gmap string string)
    : result unit * state :=
  script E argv (start vars files).

Definition printed (tr : list event) : list string :=
  omap (fun ev => match ev with EvPrint t => Some t | _ => None end) tr.

Definition kickoffs (tr : list event) : list (Crew * inputs * outcome) :=
  omap (fun ev => match ev with EvKickoff c i o => Some (c, i, o) | _ => None end) tr.

Definition opened (tr : list event) : list string :=
  omap (fun ev => match ev with EvOpen f => Some f | _ => None end) tr.


(** ** The text of the report file *)

(** What [main] writes to the file, as a function of its arguments, the text
    of the crew's result and the clock reading of the line [Execution Time:]. *)
Definition report (destination trip_duration trip_dates departure_city : string)
    (travelers : Z) (budget_preference : string) (result : string) (now : datetime)
    : string :=
  rep "=" 80 +:+ nl +:+
  "CrewAI Multi-Agent Travel Planning System - Real API Execution Report" +:+ nl +:+
  "Planning a " +:+ trip_duration +:+ " Trip to " +:+ destination +:+ nl +:+
  rep "=" 80 +:+ nl +:+ nl +:+
  "Trip Details:" +:+ nl +:+
  "  Destination: " +:+ destination +:+ nl +:+
  "  Duration: " +:+ trip_duration +:+ nl +:+
  "  Dates: " +:+ trip_dates +:+ nl +:+
  "  Departure: " +:+ departure_city +:+ nl +:+
  "  Travelers: " +:+ pretty travelers +:+ nl +:+
  "  Budget Preference: " +:+ budget_preference +:+ nl +:+ nl +:+
  "Execution Time: " +:+ str_datetime now +:+ nl +:+
  "API Version: REAL API CALLS (OpenAI GPT-4)" +:+ nl +:+
  "Data Source: Web research via OpenAI" +:+ nl +:+ nl +:+
  "IMPORTANT NOTES:" +:+ nl +:+
  "- All flight prices, hotel costs, and attraction information is based on real data" +:+ nl +:+
  "- Prices are current as of the date this was run" +:+ nl +:+
  "- Hotel availability and prices may vary by booking date" +:+ nl +:+
  "- Weather conditions and attraction hours should be verified before travel" +:+ nl +:+ nl +:+
  "FINAL TRAVEL PLAN REPORT:" +:+ nl +:+
  rep "-" 80 +:+ nl +:+
  result +:+
  nl +:+ rep "-" 80 +:+ nl.

(** The file [main] writes for a destination. *)
Definition output_path (E : env) (destination : string) : string :=
  path_of E ("crewai_output_" +:+ lower_ E destination +:+ ".txt").

(** The inputs [main] hands to the crew. *)
Definition inputs_of (destination trip_duration trip_dates departure_city : string)
    (travelers : Z) (budget_preference : string) : inputs :=
  {| in_trip_destination := destination;
     in_trip_duration := trip_duration;
     in_trip_dates := trip_dates;
     in_departure_city := departure_city;
     in_travelers := travelers;
     in_budget_preference := budget_preference |}.

(** The crew [main] forms. *)
Definition crew_of (destination trip_duration trip_dates departure_city : string) : Crew :=
  let flight_agent := create_flight_agent destination trip_dates in
  let hotel_agent := create_hotel_agent destination trip_dates in
  let itinerary_agent := create_itinerary_agent destination trip_duration in
  let budget_agent := create_budget_agent destination in
  let marketing_agent := create_marketing_agent destination in
  {| agents := [flight_agent; hotel_agent; itinerary_agent; budget_agent; marketing_agent];
     tasks := [ create_flight_task flight_agent destination trip_dates departure_city;
                create_hotel_task hotel_agent destination trip_dates;
                create_itinerary_task itinerary_agent destination trip_duration trip_dates;
                create_budget_task budget_agent destination trip_duration;
                create_marketing_task marketing_agent destination trip_duration ];
     crew_verbose := true;
     process := "sequential" |}.

(** ** The command line and the hotel location, in words *)

(** The arguments of [main] for a command line: each positional argument that
    is present takes the place of the default; [n] is the number of
    travelers. *)
Definition kwargs_of (argv : list string) (n : Z) : kwargs :=
  {| destination := default "Iceland" (argv !! 1);
     trip_duration := default "5 days" (argv !! 2);
     trip_dates := default "January 15-20, 2026" (argv !! 4);
     departure_city := default "New York" (argv !! 3);
     travelers := n;
     budget_preference := default "mid-range" (argv !! 6) |}.

(** The city hotels are searched in, as a mapping of its own: the capital for
    the three countries the script knows, the destination itself otherwise.
    [create_hotel_agent] and [create_hotel_task] each compute it in place;
    they are compared with this definition below.  The three names are ASCII
    words without the letter k, so the comparison of [lower destination] with
    them gives what Python's [str.lower] gives on any text. *)
Definition hotel_location (destination : string) : string :=
  if String.eqb (lower destination) "iceland" then "Reykjavik"
  else if String.eqb (lower destination) "france" then "Paris"
  else if String.eqb (lower destination) "japan" then "Tokyo"
  else destination.

(** ** Stubs *)

Definition stub_config : Config :=
  {| API_KEY := "key"; API_BASE := "https://api.example.test/v1"; USE_GROQ := false;
     OPENAI_MODEL := "stub-model"; validate_config := true |}.

(** A clock that starts on 3 November 2026 at noon and advances by one second
    from one reading to the next. *)
Definition ticking (n : nat) : datetime :=
  {| year := 2026; month := 11; day := 3; hour := 12; minute := 0; second := n;
     microsecond := 0 |}.

(** [int] on the decimal numerals without sign. *)
Fixpoint digits (s : string) (acc : Z) : option Z :=
  match s with
  | EmptyString => Some acc
  | String c s' =>
      let n := nat_of_ascii c in
      if (48 <=? n) && (n <=? 57) then digits s' (10 * acc + Z.of_nat (n - 48))%Z
      else None
  end.

Definition stub_int (s : string) : option Z :=
  match s with
  | EmptyString => None
  | _ => digits s 0
  end.

(** A world in which configuration and files are in order; the script lies
    in [/demo/crewai], and the destinations of the runs below are ASCII
    texts, on which [str.lower] and [str.upper] are [lower] and [upper]. *)
Definition stub_env (crew_result : Crew -> inputs -> outcome) : env :=
  {| config := stub_config; kickoff := crew_result; clock := ticking;
     open_error := fun _ => None;
     beside_script := fun name => "/demo/crewai/" +:+ name;
     lower_ := lower; upper_ := upper; int_ := stub_int |}.

(** A first run for the default destination, and a second run, after it and
    over the files it left, whose crew returns another text. *)
Definition first_run : result unit * state :=
  run_process (stub_env (fun _ _ => Text "Plan A")) ["crewai_demo.py"] ∅ ∅.

Definition second_run : result unit * state :=
  run_process (stub_env (fun _ _ => Text "Plan B")) ["crewai_demo.py"] ∅
              (fs (snd first_run)).

(** A run whose crew fails. *)
Definition failed_run : result unit * state :=
  run_process (stub_env (fun _ _ => Failure "connection refused")) ["crewai_demo.py"] ∅ ∅.

End Travel.

(** * Properties *)

(** ** Text *)

Section Text.

Lemma append_cons (c : ascii) (s t : string) : String c s +:+ t = String c (s +:+ t).
Proof. reflexivity. Qed.

Lemma append_nil_l (s : string) : EmptyString +:+ s = s.
Proof. reflexivity. Qed.

Lemma append_nil_r (s : string) : s +:+ EmptyString = s.
Proof. induction s as [|c s IH]; [reflexivity | now rewrite append_cons, IH]. Qed.

Lemma append_assoc (a b c : string) : (a +:+ b) +:+ c = a +:+ (b +:+ c).
Proof. induction a as [|x a IH]; [reflexivity | now rewrite !append_cons, IH]. Qed.

Lemma contains_refl (s : string) : contains s s.
Proof. exists EmptyString, EmptyString. now rewrite append_nil_l, append_nil_r. Qed.

Lemma contains_app_r (a b t : string) : contains b t -> contains (a +:+ b) t.
Proof.
  intros (pre & post & ->). exists (a +:+ pre), post. now rewrite append_assoc.
Qed.

Lemma contains_app_l (a b t : string) : contains a t -> contains (a +:+ b) t.
Proof.
  intros (pre & post & ->). exists pre, (post +:+ b).
  now rewrite !append_assoc.
Qed.

Lemma contains_trans (s t u : string) : contains s t -> contains t u -> contains s u.
Proof.
  intros (p1 & q1 & ->) (p2 & q2 & ->).
  exists (p1 +:+ p2), (q2 +:+ q1). now rewrite !append_assoc.
Qed.

Lemma starts_with_spec (t s : string) :
  starts_with t s = true <-> exists post, s = t +:+ post.
Proof.
  revert s. induction t as [|a t IH]; intros s; simpl.
  - split; [intros _; now exists s | reflexivity].
  - destruct s as [|b s].
    + split; [discriminate | intros (post & H); discriminate].
    + destruct (Ascii.eqb_spec a b) as [->|Hne].
      * rewrite IH. split; intros (post & H); exists post; [now rewrite H | now injection H].
      * split; [discriminate | intros (post & H); injection H; intros; congruence].
Qed.

Lemma containsb_spec (s t : string) : containsb s t = true <-> contains s t.
Proof.
  induction s as [|c s IH].
  - simpl. rewrite orb_false_r, starts_with_spec. split.
    + intros (post & H). exists EmptyString, post. exact H.
    + intros (pre & post & H). destruct pre; [now exists post | discriminate].
  - cbn [containsb]. rewrite orb_true_iff, IH, starts_with_spec. split.
    + intros [(post & H) | (pre & post & H)].
      * exists EmptyString, post. exact H.
      * exists (String c pre), post. simpl. now rewrite H.
    + intros (pre & post & H). destruct pre as [|c' pre].
      * left. now exists post.
      * right. simpl in H. injection H as _ H. now exists pre, post.
Qed.

Lemma not_contains (s t : string) : containsb s t = false -> ~ contains s t.
Proof. intros H Hc. apply containsb_spec in Hc. congruence. Qed.

End Text.

Create HintDb quoted.
#[local] Hint Resolve contains_refl contains_app_l contains_app_r : quoted.

(** ** Effects *)

Section Effects.

Context {S : Type}.

Lemma no_exit_ret {A} (a : A) : no_exit (ret (S := S) a).
Proof. intros s code. discriminate. Qed.

Lemma no_exit_raise {A} (msg : string) : no_exit (raise (S := S) (A := A) (Exception msg)).
Proof. intros s code. discriminate. Qed.

Lemma no_exit_bind {A B} (m : M S A) (k : A -> M S B) :
  no_exit m -> (forall a, no_exit (k a)) -> no_exit (bind m k).
Proof.
  intros Hm Hk s code. unfold bind. specialize (Hm s code).
  destruct (m s) as [[a|e] s1]; [apply Hk |].
  simpl in *. intros [= ->]. now apply Hm.
Qed.

Lemma no_exit_for_each {A} (l : list A) (body : A -> M S unit) :
  (forall x, no_exit (body x)) -> no_exit (for_each l body).
Proof.
  intros Hb. induction l as [|x l IH]; [apply no_exit_ret |].
  apply no_exit_bind; auto.
Qed.

Lemma no_exit_try_except {A} (body : M S A) (handler : string -> M S A) :
  no_exit body -> (forall msg, no_exit (handler msg)) -> no_exit (try_except body handler).
Proof.
  intros Hb Hh s code. unfold try_except. specialize (Hb s).
  destruct (body s) as [[a|[msg|c]] s1]; [discriminate | apply Hh |].
  simpl in *. intros [= ->]. now apply (Hb code).
Qed.

Lemma keeps_ret {A B} (f : S -> B) (a : A) : keeps f (ret a).
Proof. intros s. reflexivity. Qed.

Lemma keeps_raise {A B} (f : S -> B) (e : exn) : keeps f (raise (A := A) e).
Proof. intros s. reflexivity. Qed.

Lemma keeps_bind {A B C} (f : S -> C) (m : M S A) (k : A -> M S B) :
  keeps f m -> (forall a, keeps f (k a)) -> keeps f (bind m k).
Proof.
  intros Hm Hk s. unfold bind. specialize (Hm s).
  destruct (m s) as [[a|e] s1]; simpl in *; [now rewrite Hk | exact Hm].
Qed.

Lemma keeps_for_each {A B} (f : S -> B) (l : list A) (body : A -> M S unit) :
  (forall x, keeps f (body x)) -> keeps f (for_each l body).
Proof.
  intros Hb. induction l as [|x l IH]; [apply keeps_ret |].
  apply keeps_bind; auto.
Qed.

Lemma keeps_try_except {A B} (f : S -> B) (body : M S A) (handler : string -> M S A) :
  keeps f body -> (forall msg, keeps f (handler msg)) -> keeps f (try_except body handler).
Proof.
  intros Hb Hh s. unfold try_except. specialize (Hb s).
  destruct (body s) as [[a|[msg|c]] s1]; simpl in *; [exact Hb | now rewrite Hh | exact Hb].
Qed.

(** What is caught is handled: with a handler that returns, a guarded block
    that never exits returns. *)
Lemma try_except_returns {A} (body : M S A) (handler : string -> M S A) (s : S) :
  no_exit body ->
  (forall msg s1, exists a, fst (handler msg s1) = Ok a) ->
  exists a, fst (try_except body handler s) = Ok a.
Proof.
  intros Hb Hh. unfold try_except. specialize (Hb s).
  destruct (body s) as [[a|[msg|c]] s1]; simpl in *.
  - now exists a.
  - apply Hh.
  - now destruct (Hb c).
Qed.

End Effects.

(** ** The conference workflow, phase by phase *)

Section ConferenceRun.

Import Conference.

Variable E : env.
Variable self : workflow.

Lemma dict_get_set (k v : string) (o : dict) : dict_get k (dict_set k v o) = Some v.
Proof.
  induction o as [|[k' v'] o IH]; simpl.
  - now rewrite String.eqb_refl.
  - destruct (String.eqb k k') eqn:Hk; simpl; rewrite ?String.eqb_refl, ?Hk; auto.
Qed.

Lemma user_message_eq (st : stage) (s : state) :
  user_message self st s = (message_of self (outputs s) st, s).
Proof.
  destruct st; cbv [user_message message_of item bind ret getitem];
    repeat match goal with
           | |- context [dict_get ?k ?o] => destruct (dict_get k o)
           end; reflexivity.
Qed.

Ltac exec :=
  repeat (progress (
    cbv beta iota zeta delta
        [bind ret raise try_except modify gets for_each
         print_ emit getitem setitem fwrite datetime_now chat_completions_create open_w];
    cbn [fst snd outputs fs trace readings requests])).

Lemma phase_eq (st : stage) (s : state) :
  phase E self st s =
  match message_of self (outputs s) st with
  | Raise e => (Raise e, after_banner st s)
  | Ok um =>
      let res := create E (requests s) (stage_request E self st um) in
      (match res with Text _ => Ok tt | Failure msg => Raise (Exception msg) end,
       after_call E self st um res s)
  end.
Proof.
  unfold phase, bind at 1 2 3 4 5.
  cbv [print_ emit]. cbn [trace outputs fs readings requests].
  rewrite !user_message_eq. cbn [outputs].
  unfold after_call, after_banner, call_events, banner_events, stage_request.
  destruct (message_of self (outputs s) st) as [um|e]; cbn [fst snd].
  - exec. match goal with |- context [create E ?n ?r] => destruct (create E n r) as [c|msg] end.
    + exec. rewrite dict_get_set. exec. repeat rewrite <- app_assoc. reflexivity.
    + exec. repeat rewrite <- app_assoc. reflexivity.
  - repeat rewrite <- app_assoc. reflexivity.
Qed.

Lemma phases_for_each (l : list stage) (s : state) :
  phases E self l s (fst (for_each l (phase E self) s)) (snd (for_each l (phase E self) s)).
Proof.
  revert s. induction l as [|st l IH]; intros s.
  - constructor.
  - cbn [for_each]. unfold bind. rewrite phase_eq.
    destruct (message_of self (outputs s) st) as [um|e] eqn:Hm.
    + cbv zeta. destruct (create E (requests s) (stage_request E self st um)) as [c|msg] eqn:Hc.
      * eapply phases_text; eauto.
      * eapply phases_failure; eauto.
    + now apply phases_key_error.
Qed.

(** [run] is its header, the five phases in the order of [pipeline], and the
    summary when none of them raised. *)
Lemma run_eq (s : state) :
  run E self s =
  match for_each pipeline (phase E self) (after_header E self s) with
  | (Ok _, s1) => print_summary E self s1
  | (Raise e, s1) => (Raise e, s1)
  end.
Proof.
  unfold run, phase_theme, phase_speakers, phase_schedule, phase_logistics,
    phase_marketing, pipeline.
  unfold bind at 1 2 3 4 5 6 7 8.
  cbv [print_ emit datetime_now]. cbn [fst snd outputs fs trace readings requests].
  repeat rewrite <- app_assoc. cbn [app].
  unfold after_header, header_events.
  match goal with |- context [for_each _ _ ?x] => generalize x; intros s0 end.
  cbn [for_each]. unfold bind, ret.
  destruct (phase E self Theme s0) as [[[]|e] s1]; [|reflexivity].
  destruct (phase E self Speakers s1) as [[[]|e] s2]; [|reflexivity].
  destruct (phase E self Schedule s2) as [[[]|e] s3]; [|reflexivity].
  destruct (phase E self Logistics s3) as [[[]|e] s4]; [|reflexivity].
  destruct (phase E self Marketing s4) as [[[]|e] s5]; reflexivity.
Qed.

End ConferenceRun.

(** ** What the phases and the summary leave untouched *)

Section ConferenceFrames.

Import Conference.

Variable E : env.
Variable self : workflow.

Lemma blind_app {B} (g : list event -> B) (tr evs : list event) :
  blind g -> forallb quiet evs = true -> g (tr ++ evs) = g tr.
Proof.
  intros Hg. revert tr. induction evs as [|ev evs IH]; intros tr Hq.
  - now rewrite app_nil_r.
  - cbn [forallb] in Hq. apply andb_true_iff in Hq as [Hev Hq].
    change (ev :: evs) with ([ev] ++ evs). rewrite app_assoc, IH by exact Hq.
    now apply Hg.
Qed.

Lemma calls_with_stored_app (acc : list string) (a b : list event) :
  calls_with_stored acc (a ++ b) =
  calls_with_stored acc a ++ calls_with_stored (acc ++ map fst (stores a)) b.
Proof.
  revert acc. induction a as [|ev a IH]; intros acc.
  - cbn. now rewrite app_nil_r.
  - destruct ev; cbn [app calls_with_stored]; rewrite IH; try reflexivity.
    cbn. now rewrite <- app_assoc.
Qed.

Lemma blind_calls : blind calls.
Proof. intros tr ev Hq. unfold calls. rewrite omap_app. destruct ev; try discriminate; cbn; apply app_nil_r. Qed.

Lemma blind_stores : blind stores.
Proof. intros tr ev Hq. unfold stores. rewrite omap_app. destruct ev; try discriminate; cbn; apply app_nil_r. Qed.

Lemma blind_calls_with_stored (acc : list string) : blind (calls_with_stored acc).
Proof.
  intros tr ev Hq. rewrite calls_with_stored_app.
  destruct ev; try discriminate; cbn; apply app_nil_r.
Qed.

Section Blind.

Context {B : Type} (g : list event -> B) (Hg : blind g).

Let view (s : state) : B := g (trace s).

Lemma keeps_print (t : string) : keeps view (print_ t).
Proof. intros s. now apply Hg. Qed.

Lemma keeps_now : keeps view (datetime_now E).
Proof. intros s. now apply Hg. Qed.

Lemma keeps_open (file : string) : keeps view (open_w E file).
Proof. intros s. unfold open_w. destruct (open_error E file); [reflexivity | now apply Hg]. Qed.

Lemma keeps_fwrite (file text : string) : keeps view (fwrite file text).
Proof. intros s. now apply Hg. Qed.

Lemma keeps_getitem (k : string) : keeps view (getitem k).
Proof. intros s. unfold getitem. now destruct (dict_get k (outputs s)). Qed.

Lemma summary_blind : keeps view (print_summary E self).
Proof.
  unfold print_summary.
  repeat lazymatch goal with
    | |- keeps _ (bind _ _) => apply keeps_bind; [|intros ?]
    | |- keeps _ (for_each _ _) => apply keeps_for_each; intros [? ?]
    | |- keeps _ (print_ _) => apply keeps_print
    | |- keeps _ (datetime_now _) => apply keeps_now
    | |- keeps _ (open_w _ _) => apply keeps_open
    | |- keeps _ (fwrite _ _) => apply keeps_fwrite
    | |- keeps _ (getitem _) => apply keeps_getitem
    | |- _ => progress cbv zeta
    end.
Qed.

End Blind.

Lemma keeps_outputs_print (t : string) : keeps outputs (print_ t).
Proof. intros s. reflexivity. Qed.

Lemma keeps_outputs_now : keeps outputs (datetime_now E).
Proof. intros s. reflexivity. Qed.

Lemma keeps_outputs_open (file : string) : keeps outputs (open_w E file).
Proof. intros s. unfold open_w. now destruct (open_error E file). Qed.

Lemma keeps_outputs_fwrite (file text : string) : keeps outputs (fwrite file text).
Proof. intros s. reflexivity. Qed.

Lemma keeps_outputs_getitem (k : string) : keeps outputs (getitem k).
Proof. intros s. unfold getitem. now destruct (dict_get k (outputs s)). Qed.

Lemma summary_outputs : keeps outputs (print_summary E self).
Proof.
  unfold print_summary.
  repeat lazymatch goal with
    | |- keeps _ (bind _ _) => apply keeps_bind; [|intros ?]
    | |- keeps _ (for_each _ _) => apply keeps_for_each; intros [? ?]
    | |- keeps _ (print_ _) => apply keeps_outputs_print
    | |- keeps _ (datetime_now _) => apply keeps_outputs_now
    | |- keeps _ (open_w _ _) => apply keeps_outputs_open
    | |- keeps _ (fwrite _ _) => apply keeps_outputs_fwrite
    | |- keeps _ (getitem _) => apply keeps_outputs_getitem
    | |- _ => progress cbv zeta
    end.
Qed.

Lemma no_exit_print (t : string) : no_exit (print_ t).
Proof. intros s code. discriminate. Qed.

Lemma no_exit_now : no_exit (datetime_now E).
Proof. intros s code. discriminate. Qed.

Lemma no_exit_open (file : string) : no_exit (open_w E file).
Proof. intros s code. unfold open_w. destruct (open_error E file); discriminate. Qed.

Lemma no_exit_fwrite (file text : string) : no_exit (fwrite file text).
Proof. intros s code. discriminate. Qed.

Lemma no_exit_getitem (k : string) : no_exit (getitem k).
Proof. intros s code. unfold getitem. destruct (dict_get k (outputs s)); discriminate. Qed.

Lemma no_exit_setitem (k v : string) : no_exit (setitem k v).
Proof. intros s code. discriminate. Qed.

Lemma no_exit_create (st : stage) (req : request) : no_exit (chat_completions_create E st req).
Proof.
  intros s code. unfold chat_completions_create.
  destruct (create E (requests s) req); discriminate.
Qed.

Ltac no_exit_prim :=
  lazymatch goal with
  | |- no_exit (bind _ _) => apply no_exit_bind; [|intros ?]
  | |- no_exit (for_each _ _) => apply no_exit_for_each; intros [? ?]
  | |- no_exit (try_except _ _) => apply no_exit_try_except; [|intros ?]
  | |- no_exit (ret _) => apply no_exit_ret
  | |- no_exit (raise (Exception _)) => apply no_exit_raise
  | |- no_exit (print_ _) => apply no_exit_print
  | |- no_exit (datetime_now _) => apply no_exit_now
  | |- no_exit (open_w _ _) => apply no_exit_open
  | |- no_exit (fwrite _ _) => apply no_exit_fwrite
  | |- no_exit (getitem _) => apply no_exit_getitem
  | |- no_exit (setitem _ _) => apply no_exit_setitem
  | |- no_exit (chat_completions_create _ _ _) => apply no_exit_create
  | |- _ => progress cbv zeta
  end.

Lemma no_exit_summary : no_exit (print_summary E self).
Proof. unfold print_summary. repeat no_exit_prim. Qed.

Lemma no_exit_phase (st : stage) : no_exit (phase E self st).
Proof. unfold phase. destruct st; cbv [user_message]; repeat no_exit_prim. Qed.

Ltac no_exit_step :=
  lazymatch goal with
  | |- no_exit (bind _ _) => apply no_exit_bind; [|intros ?]
  | |- no_exit (for_each _ _) => apply no_exit_for_each; intros [? ?]
  | |- no_exit (try_except _ _) => apply no_exit_try_except; [|intros ?]
  | |- no_exit (ret _) => apply no_exit_ret
  | |- no_exit (raise (Exception _)) => apply no_exit_raise
  | |- no_exit (print_ _) => apply no_exit_print
  | |- no_exit (datetime_now _) => apply no_exit_now
  | |- no_exit (open_w _ _) => apply no_exit_open
  | |- no_exit (fwrite _ _) => apply no_exit_fwrite
  | |- no_exit (getitem _) => apply no_exit_getitem
  | |- no_exit (setitem _ _) => apply no_exit_setitem
  | |- no_exit (chat_completions_create _ _ _) => apply no_exit_create
  | |- no_exit (phase _ _ _) => apply no_exit_phase
  | |- no_exit (print_summary _ _) => apply no_exit_summary
  | |- _ => progress cbv zeta
  end.

Lemma no_exit_run : no_exit (run E self).
Proof.
  unfold run, phase_theme, phase_speakers, phase_schedule, phase_logistics, phase_marketing.
  repeat no_exit_step.
Qed.

End ConferenceFrames.

Section ConferenceProcess.

Import Conference.

Variable E : env.

Lemma no_exit_modify (f : state -> state) : no_exit (modify f).
Proof. intros s code. discriminate. Qed.

Lemma bind_ret_eq {A B} (a : A) (k : A -> M state B) (s : state) :
  bind (ret a) k s = k a s.
Proof. reflexivity. Qed.

Lemma bind_print_eq {B} (t : string) (k : unit -> M state B) (s : state) :
  bind (print_ t) k s = k tt (emit (EvPrint t) s).
Proof. reflexivity. Qed.

(** The script exits with status 1 when the import or the configuration
    fails, and with status 0 otherwise: what the workflow raises is caught and
    reported by the [except] clause of the script. *)
Lemma process_exit_status (argv : list string) (files : gmap string string) :
  exit_status (fst (process E argv files)) =
  (if openai_installed E && validate_setup (config E) then 0 else 1)%Z.
Proof.
  unfold process, script.
  destruct (openai_installed E); [| reflexivity].
  rewrite bind_ret_eq. repeat (rewrite bind_print_eq; cbv beta).
  cbn [andb].
  match goal with |- context [try_except ?b ?h ?s] =>
    set (body := b); set (handler := h); set (s0 := s) end.
  destruct (validate_setup (config E)) eqn:Hv.
  - destruct (try_except_returns body handler s0) as [a Ha].
    + subst body. unfold init. rewrite Hv.
      repeat lazymatch goal with
        | |- no_exit (bind _ _) => apply no_exit_bind; [|intros ?]
        | |- no_exit (if true then _ else _) => apply no_exit_ret
        | |- no_exit (ret _) => apply no_exit_ret
        | |- no_exit (modify _) => apply no_exit_modify
        | |- no_exit (print_ _) => apply no_exit_print
        | |- no_exit (run _ _) => apply no_exit_run
        end.
    + intros msg s1. eexists. reflexivity.
    + now rewrite Ha.
  - subst body. unfold try_except, bind at 1, init, bind at 1. now rewrite Hv.
Qed.

End ConferenceProcess.

(** ** The shape of a run of phases *)

Section ConferencePhases.

Import Conference.

Variable E : env.
Variable self : workflow.

Lemma calls_app (a b : list event) : calls (a ++ b) = calls a ++ calls b.
Proof. apply omap_app. Qed.

Lemma stores_app (a b : list event) : stores (a ++ b) = stores a ++ stores b.
Proof. apply omap_app. Qed.

Lemma printed_app (a b : list event) : printed (a ++ b) = printed a ++ printed b.
Proof. apply omap_app. Qed.

Lemma opened_app (a b : list event) : opened (a ++ b) = opened a ++ opened b.
Proof. apply omap_app. Qed.

(** The events of one phase, read. *)
Lemma phase_calls (st : stage) (um : string) (res : outcome) :
  calls (banner_events st ++ call_events E self st um res) =
  [(st, stage_request E self st um, res)].
Proof. destruct res; reflexivity. Qed.

Lemma phase_stores (st : stage) (um : string) (res : outcome) :
  stores (banner_events st ++ call_events E self st um res) =
  match res with Text c => [(key st, c)] | Failure _ => [] end.
Proof. destruct res; reflexivity. Qed.

Lemma phase_opened (st : stage) (um : string) (res : outcome) :
  opened (banner_events st ++ call_events E self st um res) = [].
Proof. destruct res; reflexivity. Qed.

Lemma phase_calls_with_stored (acc : list string) (st : stage) (um : string) (res : outcome) :
  calls_with_stored acc (banner_events st ++ call_events E self st um res) = [(st, acc)].
Proof. destruct res; reflexivity. Qed.

Lemma phase_printed_last (st : stage) (um : string) (res : outcome) (tl : list string) :
  last (printed (banner_events st ++ call_events E self st um res) ++ tl) =
  match last tl with
  | Some t => Some t
  | None => Some match res with Text c => c | Failure msg => "❌ Error: " +:+ msg end
  end.
Proof.
  destruct res; cbn [banner_events call_events app printed omap list_omap];
    cbn [app]; rewrite !last_cons; now destruct (last tl).
Qed.

Lemma key_inj (st st' : stage) : key st = key st' -> st = st'.
Proof. destruct st, st'; intros H; (reflexivity || discriminate H). Qed.

Lemma dict_set_fresh (k v : string) (o : dict) :
  k ∉ map fst o -> dict_set k v o = o ++ [(k, v)].
Proof.
  induction o as [|[k' v'] o IH]; intros Hk; [reflexivity |].
  cbn [dict_set map fst] in *. apply not_elem_of_cons in Hk as [Hne Hk].
  destruct (String.eqb_spec k k') as [->|_]; [congruence |].
  cbn. now rewrite IH.
Qed.

Lemma assign_fresh (o : dict) (kvs : list (string * string)) :
  NoDup (map fst o ++ map fst kvs) -> assign o kvs = o ++ kvs.
Proof.
  revert o. induction kvs as [|[k v] kvs IH]; intros o Hnd.
  - cbn. now rewrite app_nil_r.
  - cbn [assign foldl fst snd]. fold (assign (dict_set k v o) kvs).
    cbn [map fst] in Hnd.
    assert (Hk : k ∉ map fst o).
    { apply NoDup_app in Hnd as (_ & Hdis & _). intros Hin.
      apply (Hdis k Hin). left. }
    rewrite dict_set_fresh by exact Hk. rewrite IH.
    + now rewrite <- app_assoc.
    + rewrite map_app. cbn. rewrite <- app_assoc. exact Hnd.
Qed.

Lemma pipeline_split (done rest : list stage) (st : stage) :
  pipeline = done ++ st :: rest -> done = take (number st - 1) pipeline.
Proof.
  unfold pipeline.
  destruct done as [|a [|b [|c [|d [|e done]]]]]; cbn; intros [= <-]; subst; try reflexivity.
  destruct done; discriminate.
Qed.

(** What a run of phases adds to the state it starts from. *)
Lemma phases_spec (l : list stage) (s : state) (r : result unit) (s' : state) :
  phases E self l s r s' ->
  exists evs,
    trace s' = trace s ++ evs /\
    fs s' = fs s /\ readings s' = readings s /\
    opened evs = [] /\
    outputs s' = assign (outputs s) (stores evs) /\
    map fst (stores evs) `prefix_of` map key l /\
    (forall acc, calls_with_stored acc evs `prefix_of` in_turn acc l) /\
    (r = Ok tt -> forall acc, calls_with_stored acc evs = in_turn acc l) /\
    (forall st req msg,
       In (st, req, Failure msg) (calls evs) ->
       r = Raise (Exception msg) /\
       last (printed evs) = Some ("❌ Error: " +:+ msg) /\
       exists done rest,
         l = done ++ st :: rest /\
         map fst (stores evs) = map key done /\
         map (fun c => c.1.1) (calls evs) = done ++ [st]).
Proof.
  induction 1 as [s | st l s um c r s' Hm Hc _ IH | st l s um msg Hm Hc | st l s e Hm].
  - exists []. rewrite app_nil_r.
    do 5 (split; [reflexivity |]).
    split; [apply prefix_nil |]. split; [intros acc; apply prefix_nil |].
    split; [reflexivity |]. intros st req msg [].
  - destruct IH as (evs & Htr & Hfs & Hrd & Hop & Hout & Hst & Hcs & Hok & Hfail).
    exists ((banner_events st ++ call_events E self st um (Text c)) ++ evs).
    cbn [after_call trace fs readings outputs] in *.
    split; [now rewrite Htr, <- !app_assoc |].
    split; [exact Hfs |]. split; [exact Hrd |].
    split; [now rewrite opened_app, phase_opened, Hop |].
    rewrite stores_app, phase_stores, calls_app, phase_calls, printed_app.
    split; [exact Hout |].
    split; [cbn; now apply prefix_cons |].
    split; [intros acc; rewrite calls_with_stored_app, phase_calls_with_stored, phase_stores;
            cbn; apply prefix_cons, Hcs |].
    split; [intros Hr acc; rewrite calls_with_stored_app, phase_calls_with_stored, phase_stores;
            cbn; f_equal; now apply Hok |].
    intros st0 req msg Hin. cbn in Hin. destruct Hin as [Heq | Hin]; [discriminate Heq |].
    destruct (Hfail st0 req msg Hin) as (Hr & Hlast & done & rest & -> & Hkeys & Hcalls).
    split; [exact Hr |].
    split; [now rewrite phase_printed_last, Hlast |].
    exists (st :: done), rest. cbn. now rewrite Hkeys, Hcalls.
  - exists (banner_events st ++ call_events E self st um (Failure msg)).
    cbn [after_call trace fs readings outputs].
    split; [reflexivity |].
    do 4 (split; [reflexivity |]).
    split; [apply prefix_nil |].
    split; [intros acc; cbn; apply prefix_cons, prefix_nil |].
    split; [discriminate |].
    intros st0 req msg0 Hin. cbn in Hin. destruct Hin as [[= <- _ <-] | []].
    split; [reflexivity |]. split; [reflexivity |]. now exists [], l.
  - exists (banner_events st). cbn [after_banner trace fs readings outputs].
    do 5 (split; [reflexivity |]).
    split; [apply prefix_nil |]. split; [intros acc; apply prefix_nil |].
    split; [discriminate |].
    intros st0 req msg [].
Qed.

End ConferencePhases.

(** ** The run as the caller sees it *)

Section ConferencePlan.

Import Conference.

Variable E : env.
Variables (name type dur : string) (files : gmap string string).

Let self : workflow := workflow_of E name type dur.

Lemma plan_invalid :
  validate_setup (config E) = false ->
  plan E name type dur files =
  (Raise (SystemExit 1),
   emit (EvPrint "ERROR: Configuration validation failed!") (start files)).
Proof. intros Hv. unfold plan, init, bind at 1 2. now rewrite Hv. Qed.

Lemma plan_valid :
  validate_setup (config E) = true ->
  plan E name type dur files = run E self (start files).
Proof. intros Hv. unfold plan, init, bind at 1 2. now rewrite Hv. Qed.

Lemma pipeline_keys_NoDup : NoDup (map key pipeline).
Proof.
  cbv [pipeline map key].
  repeat (apply NoDup_cons_2;
          [rewrite ?elem_of_cons, elem_of_nil; intuition discriminate |]).
  apply NoDup_nil_2.
Qed.

Lemma NoDup_prefix {A} (l1 l2 : list A) : l1 `prefix_of` l2 -> NoDup l2 -> NoDup l1.
Proof. intros [k ->] Hnd. now apply NoDup_app in Hnd as (? & _). Qed.

Lemma header_calls (t : datetime) : calls (header_events self t) = [].
Proof. reflexivity. Qed.

Lemma header_stores (t : datetime) : stores (header_events self t) = [].
Proof. reflexivity. Qed.

Lemma header_opened (t : datetime) : opened (header_events self t) = [].
Proof. reflexivity. Qed.

Lemma header_calls_with_stored (acc : list string) (t : datetime) (evs : list event) :
  calls_with_stored acc (header_events self t ++ evs) = calls_with_stored acc evs.
Proof. reflexivity. Qed.

(** A run with a valid configuration: the header, then the phases, then the
    summary when no phase raised; the summary adds no generation call and no
    assignment, and leaves the dictionary as it is. *)
Lemma plan_spec :
  validate_setup (config E) = true ->
  exists r1 s1,
    phases E self pipeline (after_header E self (start files)) r1 s1 /\
    plan E name type dur files =
      match r1 with
      | Ok _ => print_summary E self s1
      | Raise e => (Raise e, s1)
      end /\
    (forall (B : Type) (g : list event -> B),
       blind g -> g (trace (snd (plan E name type dur files))) = g (trace s1)) /\
    outputs (snd (plan E name type dur files)) = outputs s1.
Proof.
  intros Hv. rewrite plan_valid, run_eq by exact Hv.
  pose proof (phases_for_each E self pipeline (after_header E self (start files))) as Hph.
  destruct (for_each pipeline (phase E self) (after_header E self (start files)))
    as [r1 s1]. cbn [fst snd] in Hph.
  exists r1, s1.
  split; [exact Hph |].
  split; [now destruct r1 as [[]|e] |].
  destruct r1 as [[]|e]; cbn [snd].
  - split; [intros B g Hg; now apply (summary_blind E self g Hg) |].
    apply summary_outputs.
  - split; [reflexivity |]. reflexivity.
Qed.

(** The phases of a run start from an empty dictionary: what they leave in it
    is the list of their assignments, each key once. *)
Lemma phases_outputs (r1 : result unit) (s1 : state) (evs : list event) :
  outputs s1 = assign [] (stores evs) ->
  map fst (stores evs) `prefix_of` map key pipeline ->
  outputs s1 = stores evs /\ NoDup (map fst (stores evs)).
Proof.
  intros Hout Hst.
  assert (Hnd : NoDup (map fst (stores evs)))
    by exact (NoDup_prefix _ _ Hst pipeline_keys_NoDup).
  split; [rewrite Hout; now apply (assign_fresh []) | exact Hnd].
Qed.

End ConferencePlan.

(** ** The summary and the plan file *)

Section ConferenceSummary.

Import Conference.

Variable E : env.
Variable self : workflow.

Ltac exec_all :=
  cbv beta iota zeta delta
      [bind ret raise try_except modify gets for_each sections
       print_ emit getitem setitem fwrite datetime_now chat_completions_create open_w
       fst snd outputs fs trace readings requests].

(** With all five outputs in the dictionary, [print_summary] raises only when
    the file cannot be opened, and otherwise leaves the text [document] in the
    file named after its first clock reading, whatever the file held. *)
Lemma summary_file (s : state) :
  complete (outputs s) ->
  let file := output_file (clock E (readings s)) in
  fst (print_summary E self s) =
    match open_error E file with
    | None => Ok tt
    | Some msg => Raise (Exception msg)
    end /\
  fs (snd (print_summary E self s)) =
    match open_error E file with
    | None => <[file := document self (outputs s) (clock E (S (readings s)))]> (fs s)
    | Some _ => fs s
    end.
Proof.
  destruct s as [o files tr n q]. cbn [outputs fs readings]. intros Hc. cbv zeta.
  destruct (Hc Theme) as [v1 H1], (Hc Speakers) as [v2 H2], (Hc Schedule) as [v3 H3],
    (Hc Logistics) as [v4 H4], (Hc Marketing) as [v5 H5].
  cbn [key] in H1, H2, H3, H4, H5.
  unfold print_summary, output_file in *.
  exec_all. rewrite H1. exec_all. rewrite H2. exec_all. rewrite H3. exec_all.
  rewrite H4. exec_all. rewrite H5. exec_all.
  destruct (open_error E _) as [msg|]; exec_all; [split; reflexivity |].
  rewrite ?H1, ?H2, ?H3, ?H4, ?H5. exec_all.
  split; [reflexivity |].
  rewrite !alter_insert_eq.
  f_equal. unfold document, sections. cbn [foldr]. rewrite H1, H2, H3, H4, H5. cbn [default].
  rewrite !append_assoc. reflexivity.
Qed.

Lemma dict_set_keeps (k k' v : string) (o : dict) :
  is_Some (dict_get k o) -> is_Some (dict_get k (dict_set k' v o)).
Proof.
  induction o as [|[k0 v0] o IH]; cbn [dict_get dict_set]; intros H.
  - now destruct H.
  - destruct (String.eqb_spec k' k0) as [->|Hne]; cbn [dict_get];
      destruct (String.eqb k k0); eauto.
Qed.

Lemma phases_keep_outputs (l : list stage) (s : state) (r : result unit) (s' : state)
    (k : string) :
  phases E self l s r s' ->
  is_Some (dict_get k (outputs s)) -> is_Some (dict_get k (outputs s')).
Proof.
  induction 1 as [s | st l s um c r s' Hm Hc _ IH | st l s um msg Hm Hc | st l s e Hm];
    intros Hk; auto.
  apply IH. cbn [after_call outputs]. now apply dict_set_keeps.
Qed.

(** Phases that all returned have left their outputs in the dictionary. *)
Lemma phases_ok_outputs (l : list stage) (s : state) (r : result unit) (s' : state) :
  phases E self l s r s' -> r = Ok tt ->
  forall st, In st l -> is_Some (dict_get (key st) (outputs s')).
Proof.
  induction 1 as [s | st l s um c r s' Hm Hc Hnext IH | st l s um msg Hm Hc | st l s e Hm];
    intros Hr st0 Hin; try discriminate Hr.
  - destruct Hin.
  - destruct Hin as [<- | Hin]; [| now apply IH].
    apply (phases_keep_outputs _ _ _ _ _ Hnext).
    cbn [after_call outputs]. rewrite dict_get_set. eauto.
Qed.

Lemma document_ext (o1 o2 : dict) (t : datetime) :
  (forall st, dict_get (key st) o2 = dict_get (key st) o1) ->
  document self o2 t = document self o1 t.
Proof.
  intros H. unfold document, sections. cbn [foldr].
  pose proof (H Theme) as H1. pose proof (H Speakers) as H2. pose proof (H Schedule) as H3.
  pose proof (H Logistics) as H4. pose proof (H Marketing) as H5.
  cbn [key] in H1, H2, H3, H4, H5. now rewrite H1, H2, H3, H4, H5.
Qed.

End ConferenceSummary.

(** ** What the user messages quote *)

Section ConferenceQuotes.

Import Conference.

Variable E : env.
Variable self : workflow.

Lemma speakers_quotes_theme (theme : string) :
  contains (speakers_message self theme) theme.
Proof. unfold speakers_message. auto with quoted. Qed.

Lemma schedule_quotes_theme (theme speakers : string) :
  contains (schedule_message self theme speakers) theme.
Proof. unfold schedule_message. auto with quoted. Qed.

Lemma schedule_quotes_speakers (theme speakers : string) :
  contains (schedule_message self theme speakers) speakers.
Proof. unfold schedule_message. auto 6 with quoted. Qed.

Lemma logistics_quotes_schedule (schedule theme : string) :
  contains (logistics_message schedule theme) schedule.
Proof. unfold logistics_message. auto with quoted. Qed.

Lemma logistics_quotes_theme (schedule theme : string) :
  contains (logistics_message schedule theme) theme.
Proof. unfold logistics_message. auto 6 with quoted. Qed.

Lemma marketing_quotes_theme (theme schedule : string) :
  contains (marketing_message theme schedule) theme.
Proof. unfold marketing_message. auto with quoted. Qed.

Lemma marketing_quotes_schedule (theme schedule : string) :
  contains (marketing_message theme schedule) schedule.
Proof. unfold marketing_message. auto 6 with quoted. Qed.

Lemma request_quotes (st : stage) (um v : string) :
  contains um v -> contains (request_text (stage_request E self st um)) v.
Proof.
  intros H. unfold request_text, stage_request, request_of. cbn [req_messages foldr content].
  auto with quoted.
Qed.

Lemma calls_with_outputs_app (o : dict) (a b : list event) :
  calls_with_outputs o (a ++ b) =
  calls_with_outputs o a ++ calls_with_outputs (assign o (stores a)) b.
Proof.
  revert o. induction a as [|ev a IH]; intros o; [reflexivity |].
  destruct ev; cbn [app calls_with_outputs]; rewrite IH; reflexivity.
Qed.

Lemma blind_calls_with_outputs (o : dict) : blind (calls_with_outputs o).
Proof.
  intros tr ev Hq. rewrite calls_with_outputs_app.
  destruct ev; try discriminate; cbn; apply app_nil_r.
Qed.

End ConferenceQuotes.

#[local] Hint Resolve speakers_quotes_theme schedule_quotes_theme schedule_quotes_speakers
  logistics_quotes_schedule logistics_quotes_theme marketing_quotes_theme
  marketing_quotes_schedule : quoted.

(** ** How far a run gets *)

Section ConferenceProgress.

Import Conference.

Variable E : env.
Variables (name type dur : string) (files : gmap string string).

Let self : workflow := workflow_of E name type dur.

Lemma calls_with_stored_stages (acc : list string) (tr : list event) :
  map fst (calls_with_stored acc tr) = map (fun c => c.1.1) (calls tr).
Proof.
  revert acc. induction tr as [|ev tr IH]; intros acc; [reflexivity |].
  destruct ev; cbn [calls_with_stored]; try apply IH.
  cbn. f_equal. apply IH.
Qed.

Lemma in_turn_stages (acc : list string) (l : list stage) : map fst (in_turn acc l) = l.
Proof.
  revert acc. induction l as [|st l IH]; intros acc; [reflexivity |].
  cbn. f_equal. apply IH.
Qed.

Lemma prefix_take {A} (l1 l2 : list A) : l1 `prefix_of` l2 -> l1 = take (length l1) l2.
Proof. intros [k ->]. now rewrite take_app_length. Qed.

Ltac reduce_message H :=
  cbn [after_call after_header start outputs fs trace readings requests
       message_of item dict_get dict_set key String.eqb Ascii.eqb Bool.eqb] in H.

Ltac read_calls :=
  cbn [after_call after_header start trace readings];
  repeat (rewrite calls_app, phase_calls);
  rewrite ?calls_app, (header_calls E name type dur);
  cbn [app length Nat.sub take last fst snd returned all_returned forallb pipeline
       Nat.eqb andb].

Ltac progress_phase H :=
  let um := fresh "um" in let c := fresh "c" in let msg := fresh "msg" in
  let Hm := fresh "Hm" in let Hc := fresh "Hc" in let H' := fresh "H" in
  inversion H as [ | ? ? ? um c ? ? Hm Hc H' | ? ? ? um msg Hm Hc | ? ? ? ? Hm ];
  subst; clear H; reduce_message Hm;
  [ injection Hm as <-; clear Hc; rename H' into H
  | injection Hm as <-; clear Hc; read_calls;
    split; [repeat constructor |];
    right; eexists _, _, _; split; [reflexivity |]; split; reflexivity
  | discriminate Hm ].

(** The phases of a run go on until a generation call fails: either all five
    calls returned, or the last call issued is the one that failed, and it is
    its exception that the phases raise.  A run never lacks an output that a
    phase reads. *)
Lemma phases_progress (r : result unit) (s1 : state) :
  phases E self pipeline (after_header E self (start files)) r s1 ->
  let cs := calls (trace s1) in
  Forall (fun c => returned c.2 = true) (take (length cs - 1) cs) /\
  ((r = Ok tt /\ all_returned cs = true) \/
   (exists st req msg,
      last cs = Some (st, req, Failure msg) /\
      r = Raise (Exception msg) /\ all_returned cs = false)).
Proof.
  intros Hph. cbv zeta. unfold pipeline in Hph.
  do 5 progress_phase Hph.
  inversion Hph; subst; clear Hph. read_calls.
  split; [repeat constructor |]. left. split; reflexivity.
Qed.

End ConferenceProgress.

(** ** Properties of the conference workflow *)

Section ConferenceClaims.

Import Conference.

Lemma pipeline_upto (done rest : list stage) (st : stage) :
  pipeline = done ++ st :: rest -> done ++ [st] = take (number st) pipeline.
Proof.
  unfold pipeline.
  destruct done as [|a [|b [|c [|d [|e done]]]]]; cbn; intros [= <-]; subst; try reflexivity.
  destruct done; discriminate.
Qed.

(** C1 (as amended).  If the generation call of a stage fails during a run,
    the exception reaches the caller as it was raised (its text is the
    text of the failure; nothing is added to it), the last line printed is
    the error line of the phase, exactly the outputs of the stages before it
    are stored, the calls issued are those of the stages up to it, each once
    (no retry, no later stage), and no file is opened or changed. *)
Theorem C1_failed_call_ends_the_run
    (E : env) (name type dur : string) (files : gmap string string)
    (st : stage) (req : request) (msg : string) :
  let r := fst (plan E name type dur files) in
  let s' := snd (plan E name type dur files) in
  In (st, req, Failure msg) (calls (trace s')) ->
  r = Raise (Exception msg) /\
  last (printed (trace s')) = Some ("❌ Error: " +:+ msg) /\
  map fst (outputs s') = map key (take (number st - 1) pipeline) /\
  length (outputs s') = number st - 1 /\
  map (fun c => c.1.1) (calls (trace s')) = take (number st) pipeline /\
  fs s' = files /\
  opened (trace s') = [].
Proof.
  intros r s' Hin. subst r s'.
  destruct (validate_setup (config E)) eqn:Hv;
    [| rewrite plan_invalid in Hin by exact Hv; destruct Hin].
  destruct (plan_spec E name type dur files Hv) as (r1 & s1 & Hph & Hplan & Hblind & _).
  destruct (phases_spec E _ _ _ _ _ Hph)
    as (evs & Htr & Hfs & _ & Hop & Hout & Hst & _ & _ & Hfail).
  destruct (phases_outputs r1 s1 evs Hout Hst) as [Hout' _].
  cbn [after_header start trace fs outputs readings app] in Htr, Hfs.
  rewrite (Hblind _ calls blind_calls), Htr, calls_app, header_calls in Hin.
  cbn [app] in Hin.
  destruct (Hfail st req msg Hin) as (-> & Hlast & done & rest & Hsplit & Hkeys & Hcalls).
  rewrite Hplan. cbn [fst snd].
  rewrite Htr, calls_app, header_calls, printed_app, opened_app, header_opened, Hop, Hout'.
  cbn [app]. rewrite Hkeys, Hcalls.
  rewrite <- (pipeline_split _ _ _ Hsplit), (pipeline_upto _ _ _ Hsplit).
  split; [reflexivity |].
  split; [rewrite last_app, Hlast; reflexivity |].
  split; [reflexivity |].
  split; [rewrite <- (length_map fst), Hkeys, length_map, (pipeline_split _ _ _ Hsplit);
          destruct st; reflexivity |].
  split; [reflexivity |]. split; [exact Hfs | reflexivity].
Qed.

Lemma names_stage_dec_false (msg : string) (st : stage) :
  containsb msg (key st) = false -> ~ names_stage (Exception msg) st.
Proof. intros H. now apply not_contains. Qed.

(** C1, the claim as stated fails: when the second generation call (the one
    of the speakers phase) fails, the caller receives the very exception of
    the service; its text does not name the phase, and it is the same
    exception the caller receives when the first call fails. *)
Lemma C1_stage_name_not_attached :
  fst failing_run = Raise (Exception "rate limit exceeded") /\
  map (fun c => c.1.1) (calls (trace (snd failing_run))) = [Theme; Speakers] /\
  ~ names_stage (Exception "rate limit exceeded") Speakers /\
  fst failing_first_run = fst failing_run.
Proof.
  split; [vm_compute; reflexivity |].
  split; [vm_compute; reflexivity |].
  split; [apply names_stage_dec_false; vm_compute; reflexivity |].
  vm_compute; reflexivity.
Qed.

(** The amended C1 at the run whose second call fails. *)
Lemma C1_failed_call_witness :
  fst failing_run = Raise (Exception "rate limit exceeded") /\
  last (printed (trace (snd failing_run))) = Some ("❌ Error: " +:+ "rate limit exceeded") /\
  map fst (outputs (snd failing_run)) = map key (take (number Speakers - 1) pipeline) /\
  length (outputs (snd failing_run)) = number Speakers - 1 /\
  map (fun c => c.1.1) (calls (trace (snd failing_run))) = take (number Speakers) pipeline /\
  fs (snd failing_run) = ∅ /\
  opened (trace (snd failing_run)) = [].
Proof.
  refine (C1_failed_call_ends_the_run
            (stub_env (fails_at 1 "rate limit exceeded"))
            CONFERENCE_NAME CONFERENCE_TYPE DURATION ∅ Speakers
            (stage_request (stub_env (fails_at 1 "rate limit exceeded"))
               (workflow_of (stub_env (fails_at 1 "rate limit exceeded"))
                  CONFERENCE_NAME CONFERENCE_TYPE DURATION)
               Speakers
               (speakers_message
                  (workflow_of (stub_env (fails_at 1 "rate limit exceeded"))
                     CONFERENCE_NAME CONFERENCE_TYPE DURATION)
                  (theme_message
                     (workflow_of (stub_env (fails_at 1 "rate limit exceeded"))
                        CONFERENCE_NAME CONFERENCE_TYPE DURATION))))
            "rate limit exceeded" _).
  vm_compute. right. left. reflexivity.
Defined.

(** C5.  In every run the generation calls are issued in the order of the
    pipeline, none twice and none skipped, and each one after the outputs of
    all the stages before it have been stored: the calls issued are those of
    the first stages of the pipeline, as many as there are calls, each with
    exactly the keys of the stages before it stored.  The run goes on until a
    call fails: every call but the last returned, and with a valid
    configuration either all five calls were issued and returned, or the last
    call issued is one that failed; a run that returns normally has issued all
    five.  With a configuration that is not valid no call is issued. *)
Theorem C5_stages_run_in_order
    (E : env) (name type dur : string) (files : gmap string string) :
  let r := fst (plan E name type dur files) in
  let s' := snd (plan E name type dur files) in
  let cs := calls (trace s') in
  calls_with_stored [] (trace s') `prefix_of`
    [ (Theme, []);
      (Speakers, ["theme"]);
      (Schedule, ["theme"; "speakers"]);
      (Logistics, ["theme"; "speakers"; "schedule"]);
      (Marketing, ["theme"; "speakers"; "schedule"; "logistics"]) ] /\
  (r = Ok tt ->
   calls_with_stored [] (trace s') =
     [ (Theme, []);
       (Speakers, ["theme"]);
       (Schedule, ["theme"; "speakers"]);
       (Logistics, ["theme"; "speakers"; "schedule"]);
       (Marketing, ["theme"; "speakers"; "schedule"; "logistics"]) ]) /\
  calls_with_stored [] (trace s') = take (length cs) (in_turn [] pipeline) /\
  map (fun c => c.1.1) cs = take (length cs) pipeline /\
  Forall (fun c => returned c.2 = true) (take (length cs - 1) cs) /\
  (if validate_setup (config E)
   then all_returned cs = true \/
        exists st req msg, last cs = Some (st, req, Failure msg)
   else cs = []).
Proof.
  intros r s' cs. subst r s' cs.
  change [ (Theme, []); (Speakers, ["theme"]); (Schedule, ["theme"; "speakers"]);
           (Logistics, ["theme"; "speakers"; "schedule"]);
           (Marketing, ["theme"; "speakers"; "schedule"; "logistics"]) ]
    with (in_turn [] pipeline).
  destruct (validate_setup (config E)) eqn:Hv.
  - destruct (plan_spec E name type dur files Hv) as (r1 & s1 & Hph & Hplan & Hblind & _).
    destruct (phases_spec E _ _ _ _ _ Hph) as (evs & Htr & _ & _ & _ & _ & _ & Hcs & Hok & _).
    destruct (phases_progress E name type dur files r1 s1 Hph) as [Hall Hcase].
    cbn [after_header start trace readings app] in Htr.
    rewrite (Hblind _ _ (blind_calls_with_stored [])), (Hblind _ _ blind_calls).
    assert (Hpre : calls_with_stored [] (trace s1) `prefix_of` in_turn [] pipeline)
      by (rewrite Htr, header_calls_with_stored; apply Hcs).
    assert (Hlen : length (calls_with_stored [] (trace s1)) = length (calls (trace s1)))
      by (rewrite <- (length_map fst), calls_with_stored_stages; apply length_map).
    assert (Htake : calls_with_stored [] (trace s1) =
                    take (length (calls (trace s1))) (in_turn [] pipeline))
      by (rewrite <- Hlen; now apply prefix_take).
    split; [exact Hpre |].
    split.
    { intros Hr. rewrite Htr, header_calls_with_stored. apply Hok. rewrite Hplan in Hr.
      destruct r1 as [[]|e]; [reflexivity | discriminate Hr]. }
    split; [exact Htake |].
    split.
    { rewrite <- (calls_with_stored_stages []), Htake, <- firstn_map, in_turn_stages.
      reflexivity. }
    split; [exact Hall |].
    destruct Hcase as [[_ Hret] | (st & req & msg & Hlast & _)];
      [left; exact Hret | right; now exists st, req, msg].
  - rewrite plan_invalid by exact Hv. cbn.
    split; [apply prefix_nil |]. split; [discriminate |].
    split; [reflexivity |]. split; [reflexivity |]. split; [constructor | reflexivity].
Qed.

(** C6.  The user message of a stage is a function of the outputs of the
    stages before it (and of the fixed parameters); in every run each key of
    the dictionary is assigned at most once, and the dictionary the run leaves
    is the list of these assignments in their order: nothing stored is changed
    afterwards. *)
Theorem C6_outputs_are_read_only
    (E : env) (name type dur : string) (files : gmap string string) :
  let s' := snd (plan E name type dur files) in
  (forall (self : workflow) (st : stage) (s1 s2 : state),
     (forall st0, number st0 < number st ->
                  dict_get (key st0) (outputs s1) = dict_get (key st0) (outputs s2)) ->
     fst (user_message self st s1) = fst (user_message self st s2)) /\
  NoDup (map fst (stores (trace s'))) /\
  outputs s' = stores (trace s').
Proof.
  intros s'. subst s'. split.
  - intros self st s1 s2 Hsame. rewrite !user_message_eq. cbn [fst].
    assert (Hitem : forall st0, number st0 < number st ->
                                item (outputs s1) (key st0) = item (outputs s2) (key st0))
      by (intros st0 Hlt; unfold item; now rewrite (Hsame st0 Hlt)).
    pose proof (Hitem Theme) as HT. pose proof (Hitem Speakers) as HS.
    pose proof (Hitem Schedule) as HC. cbn [key] in HT, HS, HC.
    destruct st; cbn [message_of number] in *; try reflexivity;
      rewrite ?HT, ?HS, ?HC by lia; reflexivity.
  - destruct (validate_setup (config E)) eqn:Hv.
    + destruct (plan_spec E name type dur files Hv) as (r1 & s1 & Hph & _ & Hblind & Houts).
      destruct (phases_spec E _ _ _ _ _ Hph) as (evs & Htr & _ & _ & _ & Hout & Hst & _).
      destruct (phases_outputs r1 s1 evs Hout Hst) as [Hout' Hnd].
      cbn [after_header start trace readings app] in Htr.
      rewrite (Hblind _ _ blind_stores), Houts, Htr, stores_app, header_stores.
      cbn [app]. split; [exact Hnd | exact Hout'].
    + rewrite plan_invalid by exact Hv. cbn. split; [constructor | reflexivity].
Qed.

Ltac reduce_in H :=
  cbn [after_call after_header start outputs fs trace readings requests
       message_of item dict_get dict_set key String.eqb Ascii.eqb Bool.eqb] in H.

Ltac echo_phase Hecho H :=
  let um := fresh "um" in let c := fresh "c" in
  let Hm := fresh "Hm" in let Hc := fresh "Hc" in let H' := fresh "H" in
  inversion H as [ | ? ? ? um c ? ? Hm Hc H' | ? ? ? um ? Hm Hc | ? ? ? ? Hm ];
  subst; clear H; reduce_in Hm;
  [ injection Hm as <-; rewrite Hecho in Hc; cbn in Hc; injection Hc as <-; rename H' into H
  | rewrite Hecho in Hc; discriminate Hc
  | discriminate Hm ].

(** C2 (as amended).  With a service that echoes the user message, every run
    stores one output per stage, under the names of the stages in the order of
    the pipeline, after one generation call per stage; the run completes when
    the plan file can be opened; and the text of every request contains,
    verbatim, every output stored before it, except that the request of the
    marketing stage does not quote the output of the logistics stage. *)
Theorem C2_echo_run_quotes_prior_outputs
    (E : env) (name type dur : string) (files : gmap string string) :
  (forall n req, create E n req = echo n req) ->
  validate_setup (config E) = true ->
  let r := fst (plan E name type dur files) in
  let s' := snd (plan E name type dur files) in
  map fst (outputs s') = map key pipeline /\
  map (fun c => c.1.1) (calls (trace s')) = pipeline /\
  (open_error E (output_file (clock E 1)) = None -> r = Ok tt) /\
  (forall st req prior k v,
     In (st, req, prior) (calls_with_outputs [] (trace s')) ->
     In (k, v) prior ->
     (st, k) <> (Marketing, "logistics") ->
     contains (request_text req) v).
Proof.
  intros Hecho Hv r s'. subst r s'.
  destruct (plan_spec E name type dur files Hv) as (r1 & s1 & Hph & Hplan & Hblind & Houts).
  unfold pipeline in Hph.
  do 5 echo_phase Hecho Hph.
  inversion Hph; subst; clear Hph.
  rewrite Houts, (Hblind _ _ blind_calls), (Hblind _ _ (blind_calls_with_outputs [])).
  split; [reflexivity |]. split; [reflexivity |].
  split.
  - intros Hopen. rewrite Hplan.
    match goal with |- context [print_summary E ?w ?s] =>
      destruct (summary_file E w s) as [Hr _] end.
    + intros st. destruct st; cbn; eauto.
    + rewrite Hr. cbn [readings after_call after_header start]. now rewrite Hopen.
  - cbn [trace after_call after_header start app header_events banner_events call_events
         calls_with_outputs dict_set key String.eqb Ascii.eqb Bool.eqb].
    intros st req prior k v Hin Hk Hne.
    cbn [In] in Hin.
    repeat (destruct Hin as [Hin | Hin]; [injection Hin as <- <- <- |]); [.. | destruct Hin];
      cbn [In] in Hk;
      repeat (destruct Hk as [Hk | Hk]; [injection Hk as <- <- |]); try destruct Hk;
      try (exfalso; apply Hne; reflexivity);
      apply request_quotes; eauto 6 using contains_trans with quoted.
Qed.

Lemma quotes_every_prior_outputb_spec (tr : list event) :
  quotes_every_prior_output tr -> quotes_every_prior_outputb tr = true.
Proof.
  intros H. unfold quotes_every_prior_outputb.
  apply forallb_forall. intros [[st req] prior] Hin.
  apply forallb_forall. intros [k v] Hk. apply containsb_spec.
  exact (H st req prior k v Hin Hk).
Qed.

(** C2, the claim as stated fails: in the run of the script's own conference
    with an echoing service, one request does not contain one of the outputs
    stored before it (the request of the marketing stage quotes the theme and
    the schedule, and not the logistics plan). *)
Lemma C2_marketing_request_omits_logistics :
  ~ quotes_every_prior_output (trace (snd echo_run)).
Proof.
  intros H. apply quotes_every_prior_outputb_spec in H.
  vm_compute in H. discriminate H.
Qed.

(** The amended C2 at the script's own conference. *)
Lemma C2_echo_run_witness :
  map fst (outputs (snd echo_run)) = map key pipeline /\
  map (fun c => c.1.1) (calls (trace (snd echo_run))) = pipeline /\
  (open_error (stub_env echo) (output_file (clock (stub_env echo) 1)) = None ->
   fst echo_run = Ok tt) /\
  (forall st req prior k v,
     In (st, req, prior) (calls_with_outputs [] (trace (snd echo_run))) ->
     In (k, v) prior ->
     (st, k) <> (Marketing, "logistics") ->
     contains (request_text req) v).
Proof.
  exact (C2_echo_run_quotes_prior_outputs (stub_env echo)
           CONFERENCE_NAME CONFERENCE_TYPE DURATION ∅
           (fun _ _ => eq_refl) eq_refl).
Defined.

(** C3 (as amended).  The text [print_summary] leaves in the plan file is
    [document]: a function of the parameters of the workflow, of the five
    stored outputs and of the clock reading taken for the line [Generated:].
    Two renderings that agree on these leave byte-identical text, whatever
    else differs between the two states and the two worlds. *)
Theorem C3_plan_text_is_a_function_of_outputs_and_clock
    (E1 E2 : env) (self : workflow) (s1 s2 : state) :
  complete (outputs s1) ->
  (forall st, dict_get (key st) (outputs s2) = dict_get (key st) (outputs s1)) ->
  clock E2 (S (readings s2)) = clock E1 (S (readings s1)) ->
  open_error E1 (output_file (clock E1 (readings s1))) = None ->
  open_error E2 (output_file (clock E2 (readings s2))) = None ->
  fs (snd (print_summary E1 self s1)) !! output_file (clock E1 (readings s1)) =
    Some (document self (outputs s1) (clock E1 (S (readings s1)))) /\
  fs (snd (print_summary E2 self s2)) !! output_file (clock E2 (readings s2)) =
    fs (snd (print_summary E1 self s1)) !! output_file (clock E1 (readings s1)).
Proof.
  intros Hc Hsame Hclock Hopen1 Hopen2.
  assert (Hc2 : complete (outputs s2)) by (intros st; rewrite Hsame; apply Hc).
  destruct (summary_file E1 self s1 Hc) as [_ Hfs1].
  destruct (summary_file E2 self s2 Hc2) as [_ Hfs2].
  rewrite Hopen1 in Hfs1. rewrite Hopen2 in Hfs2.
  rewrite Hfs1, Hfs2, !lookup_insert_eq, Hclock.
  split; [reflexivity |]. f_equal. now apply document_ext.
Qed.

Lemma echo_run_complete : complete (outputs (snd echo_run)).
Proof. intros st. destruct st; vm_compute; eauto. Qed.

(** The amended C3 at the state the run [echo_run] leaves, rendered in two
    worlds whose clocks agree on the reading of the line [Generated:] and on
    nothing else: the two files have different names and the same text. *)
Lemma C3_plan_text_witness :
  fs (snd rendered_again) !! output_file (ticking 4) =
    Some (document (workflow_of (stub_env echo) CONFERENCE_NAME CONFERENCE_TYPE DURATION)
                   (outputs (snd echo_run)) (ticking 5)) /\
  fs (snd rendered_elsewhere) !! output_file (ticking 9) =
    fs (snd rendered_again) !! output_file (ticking 4).
Proof.
  exact (C3_plan_text_is_a_function_of_outputs_and_clock
           (stub_env echo) shifted_env
           (workflow_of (stub_env echo) CONFERENCE_NAME CONFERENCE_TYPE DURATION)
           (snd echo_run) (snd echo_run)
           echo_run_complete (fun _ => eq_refl) eq_refl eq_refl eq_refl).
Defined.

(** C3, the claim as stated fails: printing the summary again for the same
    outputs writes another file, whose text differs from the first (the line
    [Generated:] carries the clock reading of the rendering), and prints to
    the console again. *)
Lemma C3_second_rendering_differs :
  outputs (snd rendered_again) = outputs (snd echo_run) /\
  is_Some (fs (snd echo_run) !! output_file (ticking 1)) /\
  is_Some (fs (snd rendered_again) !! output_file (ticking 4)) /\
  fs (snd rendered_again) !! output_file (ticking 4) <>
    fs (snd echo_run) !! output_file (ticking 1) /\
  length (printed (trace (snd rendered_again))) <>
    length (printed (trace (snd echo_run))).
Proof.
  split; [vm_compute; reflexivity |].
  split; [vm_compute; eauto |].
  split; [vm_compute; eauto |].
  split; [intros H; vm_compute in H; discriminate H |].
  vm_compute. discriminate.
Qed.

End ConferenceClaims.

(** ** The travel crew *)

Section TravelMain.

Import Travel.

Variable E : env.

Ltac exec_all :=
  cbv beta iota zeta delta
      [bind ret raise try_except modify gets for_each
       print_ emit setenv fwrite print_exc config_print_summary
       datetime_now open_w crew_kickoff
       fst snd environ fs trace readings].

(** [main] exits with status 1 when the configuration is not valid, and
    returns otherwise, whatever the crew and the file system do; it changes no
    file but the report of the destination, and that one only when the crew
    returned and the file could be opened. *)
Lemma main_spec (destination trip_duration trip_dates departure_city : string)
    (travelers : Z) (budget_preference : string) (s : state) :
  let m := main E destination trip_duration trip_dates departure_city travelers
                budget_preference s in
  fst m = (if validate_config (config E) then Ok tt else Raise (SystemExit 1)) /\
  fs (snd m) =
    if validate_config (config E) then
      match kickoff E (crew_of destination trip_duration trip_dates departure_city)
                    (inputs_of destination trip_duration trip_dates departure_city
                               travelers budget_preference) with
      | Text result =>
          match open_error E (output_path E destination) with
          | None =>
              <[output_path E destination :=
                  report destination trip_duration trip_dates departure_city travelers
                         budget_preference result (clock E (readings s))]> (fs s)
          | Some _ => fs s
          end
      | Failure _ => fs s
      end
    else fs s.
Proof.
  destruct s as [vars files tr n]. cbv zeta.
  unfold main, crew_of, inputs_of, output_path. exec_all.
  destruct (validate_config (config E)); exec_all; [| split; reflexivity].
  destruct (USE_GROQ (config E)); exec_all;
    (destruct (kickoff E _ _) as [result|msg]; exec_all; [| split; reflexivity];
     destruct (open_error E _) as [msg|]; exec_all; [split; reflexivity |];
     split; [reflexivity |];
     rewrite !alter_insert_eq; f_equal; unfold report;
     rewrite !append_assoc; reflexivity).
Qed.

(** The command line, read. *)
Lemma parse_argv_spec (argv : list string) (s : state) :
  parse_argv E argv s =
  (match argv !! 5 with
   | Some a =>
       match int_ E a with
       | Some n => Ok (kwargs_of argv n)
       | None => Raise (value_error a)
       end
   | None => Ok (kwargs_of argv 2)
   end, s).
Proof.
  unfold parse_argv, kwargs_of.
  destruct (argv !! 1), (argv !! 2), (argv !! 3), (argv !! 4), (argv !! 5) as [a|];
    try destruct (int_ E a); destruct (argv !! 6); reflexivity.
Qed.

Lemma script_spec (argv : list string) (s : state) :
  script E argv s =
  match argv !! 5 with
  | Some a =>
      match int_ E a with
      | Some n =>
          main E (default "Iceland" (argv !! 1)) (default "5 days" (argv !! 2))
               (default "January 15-20, 2026" (argv !! 4)) (default "New York" (argv !! 3))
               n (default "mid-range" (argv !! 6)) s
      | None => (Raise (value_error a), s)
      end
  | None =>
      main E (default "Iceland" (argv !! 1)) (default "5 days" (argv !! 2))
           (default "January 15-20, 2026" (argv !! 4)) (default "New York" (argv !! 3))
           2 (default "mid-range" (argv !! 6)) s
  end.
Proof.
  unfold script, bind at 1. rewrite parse_argv_spec.
  destruct (argv !! 5) as [a|]; [destruct (int_ E a) |]; reflexivity.
Qed.

Lemma run_process_exit_status (argv : list string) (vars files : gmap string string) :
  exit_status (fst (run_process E argv vars files)) =
  match argv !! 5 with
  | Some a =>
      match int_ E a with
      | Some _ => if validate_config (config E) then 0%Z else 1%Z
      | None => 1%Z
      end
  | None => if validate_config (config E) then 0%Z else 1%Z
  end.
Proof.
  unfold run_process. rewrite script_spec.
  destruct (argv !! 5) as [a|]; [destruct (int_ E a); [| reflexivity] |];
    match goal with |- context [main E ?d ?td ?dt ?c ?n ?b ?s] =>
      destruct (main_spec d td dt c n b s) as [-> _] end;
    now destruct (validate_config (config E)).
Qed.

End TravelMain.

(** ** The files of a run *)

Section ConferenceFiles.

Import Conference.

(** A run of the workflow writes one file, the plan, under the name made of
    the clock reading taken for it, when its five generation calls returned
    and the file can be opened; it changes no file otherwise. *)
Lemma plan_written (E : env) (name type dur : string) (files : gmap string string) :
  let s' := snd (plan E name type dur files) in
  fs s' =
    if all_returned (calls (trace s')) then
      match open_error E (output_file (clock E 1)) with
      | None =>
          <[output_file (clock E 1) :=
              document (workflow_of E name type dur) (outputs s') (clock E 2)]> files
      | Some _ => files
      end
    else files.
Proof.
  cbv zeta. destruct (validate_setup (config E)) eqn:Hv;
    [| now rewrite plan_invalid].
  destruct (plan_spec E name type dur files Hv) as (r1 & s1 & Hph & Hplan & Hblind & Houts).
  destruct (phases_spec E _ _ _ _ _ Hph) as (evs & _ & Hfs & Hrd & _).
  destruct (phases_progress E name type dur files r1 s1 Hph) as [_ Hcase].
  cbn [after_header start fs readings] in Hfs, Hrd.
  rewrite (Hblind _ _ blind_calls), Houts.
  destruct Hcase as [[-> ->] | (st & req & msg & _ & -> & ->)].
  - rewrite Hplan.
    destruct (summary_file E (workflow_of E name type dur) s1) as [_ Hsum].
    { intros st. apply (phases_ok_outputs E _ _ _ _ _ Hph eq_refl).
      destruct st; cbn; tauto. }
    cbv zeta in Hsum. rewrite Hrd, Hfs in Hsum. exact Hsum.
  - rewrite Hplan. exact Hfs.
Qed.

End ConferenceFiles.

(** ** Properties of the two scripts *)

Section Claims.

(** C4 (as amended).  Each script ends with exit status 1 when its
    configuration fails (for the conference script: the import of the client
    library or the validation of the settings; for the travel script: the
    number of travelers on the command line or the validation of the
    settings), and with exit status 0 in every other case: an exception of the
    run, a failed generation call included, is caught and reported by the
    script, which then ends normally. *)
Theorem C4_exit_status_of_the_scripts :
  (forall (E : Conference.env) (argv : list string) (files : gmap string string),
     exit_status (fst (Conference.process E argv files)) =
     if Conference.openai_installed E && Conference.validate_setup (Conference.config E)
     then 0%Z else 1%Z) /\
  (forall (E : Travel.env) (argv : list string) (vars files : gmap string string),
     exit_status (fst (Travel.run_process E argv vars files)) =
     match argv !! 5 with
     | Some a =>
         match Travel.int_ E a with
         | Some _ => if Travel.validate_config (Travel.config E) then 0%Z else 1%Z
         | None => 1%Z
         end
     | None => if Travel.validate_config (Travel.config E) then 0%Z else 1%Z
     end).
Proof.
  split.
  - intros E argv files. apply process_exit_status.
  - intros E argv vars files. apply run_process_exit_status.
Qed.

(** C4, the claim as stated fails: the conference script whose second
    generation call fails, and the travel script whose crew fails, both end
    with exit status 0. *)
Lemma C4_failed_runs_exit_with_status_0 :
  last (Conference.calls (Conference.trace (snd Conference.failing_process))) =
    Some (Conference.Speakers,
          Conference.stage_request
            (Conference.stub_env (Conference.fails_at 1 "rate limit exceeded"))
            (Conference.workflow_of
               (Conference.stub_env (Conference.fails_at 1 "rate limit exceeded"))
               Conference.CONFERENCE_NAME Conference.CONFERENCE_TYPE Conference.DURATION)
            Conference.Speakers
            (Conference.speakers_message
               (Conference.workflow_of
                  (Conference.stub_env (Conference.fails_at 1 "rate limit exceeded"))
                  Conference.CONFERENCE_NAME Conference.CONFERENCE_TYPE Conference.DURATION)
               (Conference.theme_message
                  (Conference.workflow_of
                     (Conference.stub_env (Conference.fails_at 1 "rate limit exceeded"))
                     Conference.CONFERENCE_NAME Conference.CONFERENCE_TYPE
                     Conference.DURATION))),
          Conference.Failure "rate limit exceeded") /\
  exit_status (fst Conference.failing_process) = 0%Z /\
  map (fun c => c.2) (Travel.kickoffs (Travel.trace (snd Travel.failed_run))) =
    [Travel.Failure "connection refused"] /\
  exit_status (fst Travel.failed_run) = 0%Z.
Proof.
  split; [vm_compute; reflexivity |].
  split; [vm_compute; reflexivity |].
  split; vm_compute; reflexivity.
Qed.

(** C7 (as amended).  The conference script writes its plan to the file
    [conference_plan_<timestamp>.txt], the timestamp being a clock reading to
    the second; the travel script writes its report to the file
    [crewai_output_<destination in lower case>.txt] beside the script.  The
    conference script writes the plan when its five generation calls returned,
    and the travel script writes the report when the configuration is valid
    and the crew returned, each provided the file can be opened; a run writes
    nothing otherwise.  Either file is opened for writing: a run that writes
    leaves every file of another name as it was and replaces the file of that
    name, whatever it held. *)
Theorem C7_a_run_writes_one_file_by_name :
  (forall t, Conference.output_file t =
             "conference_plan_" +:+ strftime_compact t +:+ ".txt") /\
  (forall E destination,
     Travel.output_path E destination =
     Travel.beside_script E
       ("crewai_output_" +:+ Travel.lower_ E destination +:+ ".txt")) /\
  (forall (E : Conference.env) (name type dur : string) (files : gmap string string),
     let s' := snd (Conference.plan E name type dur files) in
     Conference.fs s' =
       if Conference.all_returned (Conference.calls (Conference.trace s')) then
         match Conference.open_error E (Conference.output_file (Conference.clock E 1)) with
         | None =>
             <[Conference.output_file (Conference.clock E 1) :=
                 Conference.document (Conference.workflow_of E name type dur)
                                     (Conference.outputs s') (Conference.clock E 2)]> files
         | Some _ => files
         end
       else files) /\
  (forall (E : Travel.env)
          (destination trip_duration trip_dates departure_city : string)
          (travelers : Z) (budget_preference : string) (s : Travel.state),
     let s' := snd (Travel.main E destination trip_duration trip_dates departure_city
                                travelers budget_preference s) in
     Travel.fs s' =
       if Travel.validate_config (Travel.config E) then
         match Travel.kickoff E
                 (Travel.crew_of destination trip_duration trip_dates departure_city)
                 (Travel.inputs_of destination trip_duration trip_dates departure_city
                                   travelers budget_preference) with
         | Travel.Text result =>
             match Travel.open_error E (Travel.output_path E destination) with
             | None =>
                 <[Travel.output_path E destination :=
                     Travel.report destination trip_duration trip_dates departure_city
                                   travelers budget_preference result
                                   (Travel.clock E (Travel.readings s))]> (Travel.fs s)
             | Some _ => Travel.fs s
             end
         | Travel.Failure _ => Travel.fs s
         end
       else Travel.fs s).
Proof.
  split; [reflexivity |]. split; [reflexivity |]. split.
  - intros E name type dur files. apply plan_written.
  - intros E d td dt c n b s.
    now destruct (main_spec E d td dt c n b s) as [_ Hfs].
Qed.

(** C7, the claim as stated fails: two runs of the travel script for the same
    destination write the same file, and the report of the first run is gone
    after the second. *)
Lemma C7_second_run_replaces_the_first_report :
  Travel.fs (snd Travel.first_run) !! "/demo/crewai/crewai_output_iceland.txt" =
    Some (Travel.report "Iceland" "5 days" "January 15-20, 2026" "New York" 2 "mid-range"
                        "Plan A" (Travel.ticking 0)) /\
  Travel.fs (snd Travel.second_run) !! "/demo/crewai/crewai_output_iceland.txt" =
    Some (Travel.report "Iceland" "5 days" "January 15-20, 2026" "New York" 2 "mid-range"
                        "Plan B" (Travel.ticking 0)) /\
  Travel.fs (snd Travel.second_run) !! "/demo/crewai/crewai_output_iceland.txt" <>
    Travel.fs (snd Travel.first_run) !! "/demo/crewai/crewai_output_iceland.txt" /\
  dom (Travel.fs (snd Travel.second_run)) = dom (Travel.fs (snd Travel.first_run)).
Proof.
  split; [vm_compute; reflexivity |].
  split; [vm_compute; reflexivity |].
  split; [intros H; vm_compute in H; discriminate H |].
  vm_compute. reflexivity.
Qed.

(** C8.  Each of the four search tools of the travel script returns, whatever
    the state it is called in, a text that its arguments alone determine,
    the research prompt made from them, and leaves the state as it was:
    it prints nothing, reads no clock, opens no file and makes no call. *)
Theorem C8_search_tools_return_templates :
  (forall destination departure_city : string,
     exists text,
       (forall s, Travel.search_flight_prices destination departure_city s = (Ok text, s)) /\
       contains text ("Research task: Find flights from " +:+ departure_city +:+ " to " +:+
                      destination +:+ ".")) /\
  (forall location check_in_date : string,
     exists text,
       (forall s, Travel.search_hotel_options location check_in_date s = (Ok text, s)) /\
       contains text ("Research task: Find hotels in " +:+ location +:+ " for check-in " +:+
                      check_in_date +:+ ".")) /\
  (forall destination : string,
     exists text,
       (forall s, Travel.search_attractions_activities destination s = (Ok text, s)) /\
       contains text ("Research task: Find attractions and activities in " +:+
                      destination +:+ ".")) /\
  (forall destination : string,
     exists text,
       (forall s, Travel.search_travel_costs destination s = (Ok text, s)) /\
       contains text ("Research task: Find cost information for a trip to " +:+
                      destination +:+ ".")).
Proof.
  split; [| split; [| split]]; intros; eexists;
    (split; [intros s; reflexivity |]);
    eexists "
    ", _; rewrite !append_assoc; reflexivity.
Qed.

(** C9 (as amended).  The travel script takes up to six positional arguments
    that replace its default parameters: destination, trip duration, departure
    city, trip dates, number of travelers and budget preference, in this
    order; the number of travelers is read with [int] and the script ends
    with a [ValueError] when that fails.  The conference script never reads
    its command line: its run is the same whatever the arguments. *)
Theorem C9_positional_arguments_of_the_scripts :
  (forall (E : Travel.env) (argv : list string) (s : Travel.state),
     Travel.script E argv s =
     match argv !! 5 with
     | Some a =>
         match Travel.int_ E a with
         | Some n =>
             Travel.main E (default "Iceland" (argv !! 1)) (default "5 days" (argv !! 2))
                         (default "January 15-20, 2026" (argv !! 4))
                         (default "New York" (argv !! 3))
                         n (default "mid-range" (argv !! 6)) s
         | None => (Raise (Travel.value_error a), s)
         end
     | None =>
         Travel.main E (default "Iceland" (argv !! 1)) (default "5 days" (argv !! 2))
                     (default "January 15-20, 2026" (argv !! 4))
                     (default "New York" (argv !! 3))
                     2 (default "mid-range" (argv !! 6)) s
     end) /\
  (forall (E : Conference.env) (argv : list string) (files : gmap string string),
     Conference.process E argv files = Conference.process E [] files).
Proof.
  split.
  - intros E argv s. apply script_spec.
  - intros E argv files. reflexivity.
Qed.

(** C9, the claim as stated fails: the conference script started with the
    arguments [PyCon 2027], [Python] and [2 days] plans the conference of its
    constants: it runs as it does with no argument, its heading names
    AI Horizons 2026, and none of its five requests mentions PyCon 2027. *)
Lemma C9_conference_script_ignores_arguments :
  Conference.process_with_arguments =
    Conference.process (Conference.stub_env Conference.echo)
                       ["autogen_conference_demo.py"] ∅ /\
  Conference.printed (Conference.trace (snd Conference.process_with_arguments)) !! 6 =
    Some "CONFERENCE PLANNING WORKFLOW - AI HORIZONS 2026" /\
  length (Conference.calls (Conference.trace (snd Conference.process_with_arguments))) = 5 /\
  forallb (fun c => negb (containsb (Conference.request_text c.1.2) "PyCon 2027"))
          (Conference.calls (Conference.trace (snd Conference.process_with_arguments))) = true.
Proof.
  split.
  { unfold Conference.process_with_arguments, Conference.process, Conference.script.
    reflexivity. }
  split; [vm_compute; reflexivity |].
  split; vm_compute; reflexivity.
Qed.

Example hotel_location_examples :
  Travel.hotel_location "ICELAND" = "Reykjavik" /\
  Travel.hotel_location "France" = "Paris" /\
  Travel.hotel_location "japan" = "Tokyo" /\
  Travel.hotel_location "New Zealand" = "New Zealand" /\
  Travel.hotel_location "Iceland " = "Iceland ".
Proof. do 4 (split; [reflexivity |]). reflexivity. Qed.

(** C10.  The city in which hotels are searched is Reykjavik, Paris or Tokyo
    when the destination in lower case is iceland, france or japan, and the
    destination itself in every other case; the goal of the hotel agent and
    the description and the expected output of the hotel task are written with
    this city, the same for the same destination. *)
Theorem C10_hotel_location_is_a_fixed_mapping
    (destination trip_dates : string) (hotel_agent : Travel.Agent) :
  (lower destination = "iceland" -> Travel.hotel_location destination = "Reykjavik") /\
  (lower destination = "france" -> Travel.hotel_location destination = "Paris") /\
  (lower destination = "japan" -> Travel.hotel_location destination = "Tokyo") /\
  (lower destination <> "iceland" -> lower destination <> "france" ->
   lower destination <> "japan" -> Travel.hotel_location destination = destination) /\
  Travel.goal (Travel.create_hotel_agent destination trip_dates) =
    "Suggest top-rated hotels in " +:+ Travel.hotel_location destination +:+ " for the " +:+
    destination +:+ " trip (" +:+ trip_dates +:+
    "), considering amenities, location, and value for money. Use real hotel data from booking sites with current prices and reviews." /\
  (exists rest,
     Travel.description (Travel.create_hotel_task hotel_agent destination trip_dates) =
       "Based on the trip dates (" +:+ trip_dates +:+
       "), find and recommend the top 3-4 REAL hotels in " +:+
       Travel.hotel_location destination +:+ rest) /\
  (exists rest,
     Travel.expected_output (Travel.create_hotel_task hotel_agent destination trip_dates) =
       "A curated list of 3-4 REAL hotel recommendations in " +:+
       Travel.hotel_location destination +:+ rest).
Proof.
  unfold Travel.hotel_location.
  split; [intros ->; reflexivity |].
  split; [intros ->; reflexivity |].
  split; [intros ->; reflexivity |].
  split.
  - intros H1 H2 H3.
    destruct (String.eqb_spec (lower destination) "iceland"); [contradiction |].
    destruct (String.eqb_spec (lower destination) "france"); [contradiction |].
    destruct (String.eqb_spec (lower destination) "japan"); [contradiction |].
    reflexivity.
  - split; [reflexivity |]. split; eexists; reflexivity.
Qed.

End Claims.

(** * Further properties of the two scripts *)

(** ** Text and timestamps *)

Section Numerals.

Lemma length_append (a b : string) :
  String.length (a +:+ b) = String.length a + String.length b.
Proof. induction a as [|c a IH]; [reflexivity | rewrite append_cons; cbn; now rewrite IH]. Qed.

Lemma append_inj_length (a a' b b' : string) :
  String.length a = String.length a' -> a +:+ b = a' +:+ b' -> a = a' /\ b = b'.
Proof.
  revert a'. induction a as [|c a IH]; intros [|c' a'] Hlen Heq; try discriminate Hlen.
  - now split.
  - rewrite !append_cons in Heq. injection Heq as -> Heq. injection Hlen as Hlen.
    destruct (IH a' Hlen Heq) as [-> ->]. now split.
Qed.

Lemma append_inv_head (a x y : string) : a +:+ x = a +:+ y -> x = y.
Proof. intros H. now apply (append_inj_length a a x y) in H. Qed.

Lemma decimal_from_app (acc : N) (a b : string) :
  decimal_from acc (a +:+ b) = decimal_from (decimal_from acc a) b.
Proof.
  revert acc. induction a as [|c a IH]; intros acc; [reflexivity |].
  rewrite append_cons. cbn [decimal_from]. apply IH.
Qed.

Lemma decimal_from_zeros (k : nat) : decimal_from 0 (rep "0" k) = 0%N.
Proof.
  induction k as [|k IH]; [reflexivity |].
  cbn [rep]. rewrite decimal_from_app. exact IH.
Qed.

Lemma length_rep_1 (c : ascii) (k : nat) : String.length (rep (String c EmptyString) k) = k.
Proof. induction k as [|k IH]; [reflexivity |]. cbn [rep]. rewrite length_append, IH. reflexivity. Qed.

Lemma pretty_N_char_value (d : N) :
  (d < 10)%N -> (N.of_nat (nat_of_ascii (pretty_N_char d)) - 48 = d)%N.
Proof.
  intros Hd. destruct d as [|p]; [reflexivity |].
  repeat (destruct p as [p|p|]; try reflexivity; try (exfalso; lia)).
Qed.

(** The digits of a number, written by [pretty]: they are as many as the
    number needs, and they are read back as the number. *)
Lemma pretty_N_go_spec (w : nat) (x : N) :
  (x < 10 ^ N.of_nat w)%N ->
  (forall s, pretty_N_go x s = pretty_N_go x EmptyString +:+ s) /\
  String.length (pretty_N_go x EmptyString) <= w /\
  decimal_from 0 (pretty_N_go x EmptyString) = x.
Proof.
  revert x. induction w as [|w IH]; intros x Hx.
  - assert (x = 0%N) as -> by (cbn in Hx; lia).
    rewrite pretty_N_go_0.
    split; [intros s; now rewrite pretty_N_go_0 |]. split; [cbn; lia | reflexivity].
  - destruct (decide (x = 0%N)) as [->|Hne].
    { rewrite pretty_N_go_0.
      split; [intros s; now rewrite pretty_N_go_0 |]. split; [cbn; lia | reflexivity]. }
    assert (Hpos : (0 < x)%N) by lia.
    assert (Hdiv : (x `div` 10 < 10 ^ N.of_nat w)%N).
    { apply N.Div0.div_lt_upper_bound.
      rewrite Nat2N.inj_succ, N.pow_succ_r' in Hx. exact Hx. }
    destruct (IH _ Hdiv) as (Happ & Hlen & Hdec).
    assert (Hgo : pretty_N_go x EmptyString =
                  pretty_N_go (x `div` 10) EmptyString +:+
                  String (pretty_N_char (x `mod` 10)) EmptyString)
      by (rewrite pretty_N_go_step by exact Hpos; apply Happ).
    split; [| split].
    + intros s. rewrite Hgo, pretty_N_go_step by exact Hpos.
      rewrite Happ, append_assoc. reflexivity.
    + rewrite Hgo, length_append. cbn [String.length]. lia.
    + rewrite Hgo, decimal_from_app, Hdec. cbn [decimal_from].
      rewrite pretty_N_char_value by (apply N.mod_lt; lia).
      symmetry. apply N.div_mod'.
Qed.

(** A number below [10 ^ width] fills the width, and is read back from its
    numeral. *)
Lemma zfill_spec (width n : nat) :
  0 < width -> (N.of_nat n < 10 ^ N.of_nat width)%N ->
  String.length (zfill width n) = width /\ decimal (zfill width n) = N.of_nat n.
Proof.
  intros Hw Hn. unfold zfill, decimal.
  assert (Hd : String.length (pretty n) <= width /\ decimal_from 0 (pretty n) = N.of_nat n).
  { unfold pretty, pretty_nat, pretty, pretty_N.
    destruct (decide (N.of_nat n = 0%N)) as [->|Hne]; [split; [cbn; lia | reflexivity] |].
    destruct (pretty_N_go_spec width _ Hn) as (_ & Hlen & Hdec). now split. }
  destruct Hd as [Hlen Hdec].
  rewrite length_append, decimal_from_app, decimal_from_zeros, length_rep_1.
  split; [lia | exact Hdec].
Qed.

Lemma zfill_inj (width n m : nat) :
  0 < width -> (N.of_nat n < 10 ^ N.of_nat width)%N -> (N.of_nat m < 10 ^ N.of_nat width)%N ->
  zfill width n = zfill width m -> n = m.
Proof.
  intros Hw Hn Hm H. apply Nat2N.inj.
  rewrite <- (proj2 (zfill_spec width n Hw Hn)), <- (proj2 (zfill_spec width m Hw Hm)).
  now rewrite H.
Qed.

End Numerals.

Section FileNames.

Import Conference.

Lemma zfill_2_length (n : nat) : n < 100 -> String.length (zfill 2 n) = 2.
Proof. intros Hn. apply zfill_spec; lia. Qed.

Lemma zfill_4_length (n : nat) : n < 100 * 100 -> String.length (zfill 4 n) = 4.
Proof. intros Hn. apply zfill_spec; lia. Qed.

Lemma zfill_field (width n m : nat) (a b : string) :
  0 < width -> (N.of_nat n < 10 ^ N.of_nat width)%N -> (N.of_nat m < 10 ^ N.of_nat width)%N ->
  zfill width n +:+ a = zfill width m +:+ b -> n = m /\ a = b.
Proof.
  intros Hw Hn Hm H. apply append_inj_length in H as [H1 H2].
  - split; [now apply (zfill_inj width) | exact H2].
  - rewrite (proj1 (zfill_spec width n Hw Hn)), (proj1 (zfill_spec width m Hw Hm)).
    reflexivity.
Qed.

(** X1.  Two clock readings give the plan file the same name exactly when
    they agree down to the second: runs whose summaries are written in
    different seconds write different files, and the fraction of the second
    plays no part. *)
Theorem plan_file_name_is_the_second (t1 t2 : datetime) :
  datetime_ok t1 -> datetime_ok t2 ->
  output_file t1 = output_file t2 <->
  year t1 = year t2 /\ month t1 = month t2 /\ day t1 = day t2 /\
  hour t1 = hour t2 /\ minute t1 = minute t2 /\ second t1 = second t2.
Proof.
  intros (Hy1 & Hm1 & Hd1 & Hh1 & Hi1 & Hs1) (Hy2 & Hm2 & Hd2 & Hh2 & Hi2 & Hs2).
  unfold output_file, strftime_compact. split.
  - intros H. apply append_inv_head in H. rewrite !append_assoc in H.
    apply zfill_field in H as [Hy H]; [| lia ..].
    apply zfill_field in H as [Hm H]; [| lia ..].
    apply zfill_field in H as [Hd H]; [| lia ..].
    apply (append_inv_head "_") in H.
    apply zfill_field in H as [Hh H]; [| lia ..].
    apply zfill_field in H as [Hi H]; [| lia ..].
    apply zfill_field in H as [Hs _]; [| lia ..].
    tauto.
  - intros (-> & -> & -> & -> & -> & ->). reflexivity.
Qed.

(** The theorem at two readings of the same second, half a second apart. *)
Lemma plan_file_name_witness :
  output_file (ticking 7) =
    output_file {| year := 2026; month := 11; day := 3; hour := 12; minute := 0;
                   second := 7; microsecond := 500 |} <->
  2026 = 2026 /\ 11 = 11 /\ 3 = 3 /\ 12 = 12 /\ 0 = 0 /\ 7 = 7.
Proof.
  apply (plan_file_name_is_the_second
           (ticking 7)
           {| year := 2026; month := 11; day := 3; hour := 12; minute := 0;
              second := 7; microsecond := 500 |});
    unfold datetime_ok; cbn; lia.
Defined.

End FileNames.

(** ** The generation calls of a run and what is kept of them *)

Section ConferenceCalls.

Import Conference.

Variable E : env.
Variable self : workflow.

Lemma dict_get_In (k v : string) (o : dict) :
  NoDup (map fst o) -> In (k, v) o -> dict_get k o = Some v.
Proof.
  induction o as [|[k' v'] o IH]; intros Hnd Hin; [destruct Hin |].
  cbn [map fst] in Hnd. apply NoDup_cons in Hnd as [Hk Hnd]. cbn [dict_get].
  destruct Hin as [[= -> ->] | Hin]; [now rewrite String.eqb_refl |].
  destruct (String.eqb_spec k k') as [->|_]; [| now apply IH].
  exfalso. apply Hk. apply list_elem_of_In. now apply (in_map fst _ (k', v)).
Qed.

Lemma dict_get_fresh (k : string) (o : dict) : ~ In k (map fst o) -> dict_get k o = None.
Proof.
  induction o as [|[k' v'] o IH]; intros Hk; [reflexivity |].
  cbn [dict_get map fst In] in *.
  destruct (String.eqb_spec k k') as [->|_]; [tauto | apply IH; tauto].
Qed.

Lemma pipeline_before (done rest : list stage) (st : stage) :
  pipeline = done ++ st :: rest -> ~ In st done.
Proof.
  unfold pipeline.
  destruct done as [|a [|b [|c [|d [|e done]]]]]; cbn; intros [= <-]; subst;
    try (intuition discriminate).
  destruct done; discriminate.
Qed.

(** Every request of a run of phases is the request of its phase, and every
    text returned is stored under the key of the phase. *)
Lemma phases_calls (l : list stage) (s : state) (r : result unit) (s' : state) :
  phases E self l s r s' ->
  exists evs,
    trace s' = trace s ++ evs /\
    (forall st req res, In (st, req, res) (calls evs) ->
                        exists um, req = stage_request E self st um) /\
    (forall st req c, In (st, req, Text c) (calls evs) -> In (key st, c) (stores evs)) /\
    requests s' = requests s + length (calls evs) /\
    (r = Ok tt ->
     map (fun c => c.1.1) (calls evs) = l /\
     map fst (stores evs) = map key l /\
     forall st req res, In (st, req, res) (calls evs) -> exists c, res = Text c).
Proof.
  induction 1 as [s | st l s um c r s' Hm Hc _ IH | st l s um msg Hm Hc | st l s e Hm].
  - exists []. rewrite app_nil_r. cbn. split; [reflexivity |].
    split; [intros ? ? ? [] |]. split; [intros ? ? ? [] |]. split; [lia |].
    intros _. split; [reflexivity |]. split; [reflexivity | intros ? ? ? []].
  - destruct IH as (evs & Htr & Hreq & Hst & Hn & Hok).
    exists ((banner_events st ++ call_events E self st um (Text c)) ++ evs).
    cbn [after_call trace requests] in *.
    rewrite calls_app, stores_app, phase_calls, phase_stores.
    split; [now rewrite Htr, <- !app_assoc |].
    split; [| split; [| split]].
    + intros st0 req res [[= <- <- <-] | Hin]; [now exists um | now apply (Hreq _ _ res)].
    + intros st0 req c0 [[= <- <- <-] | Hin]; [now left | right; now apply (Hst _ req)].
    + cbn [app length]. lia.
    + intros Hr. destruct (Hok Hr) as (Hl & Hk & Ht). cbn [app map fst snd].
      split; [now rewrite Hl |]. split; [now rewrite Hk |].
      intros st0 req res [[= <- <- <-] | Hin]; [now exists c | now apply (Ht st0 req)].
  - exists (banner_events st ++ call_events E self st um (Failure msg)).
    cbn [after_call trace requests]. rewrite phase_calls, phase_stores.
    split; [reflexivity |]. split; [| split; [| split]].
    + intros st0 req res [[= <- <- <-] | []]. now exists um.
    + intros st0 req c0 [[=] | []].
    + cbn. lia.
    + discriminate.
  - exists (banner_events st). cbn [after_banner trace requests].
    split; [reflexivity |]. split; [intros ? ? ? [] |]. split; [intros ? ? ? [] |].
    split; [cbn; lia | discriminate].
Qed.

End ConferenceCalls.

Section ConferenceRuns.

Import Conference.

Variable E : env.
Variables (name type dur : string) (files : gmap string string).

Let self : workflow := workflow_of E name type dur.

(** A run with a valid configuration, read as a whole: the phases, what they
    left, and the readings of the trace that the summary does not change. *)
Lemma plan_phases :
  validate_setup (config E) = true ->
  exists r1 s1 evs,
    phases E self pipeline (after_header E self (start files)) r1 s1 /\
    plan E name type dur files =
      match r1 with
      | Ok _ => print_summary E self s1
      | Raise e => (Raise e, s1)
      end /\
    trace s1 = header_events self (clock E 0) ++ evs /\
    fs s1 = files /\ readings s1 = 1 /\
    calls (trace (snd (plan E name type dur files))) = calls evs /\
    stores (trace (snd (plan E name type dur files))) = stores evs /\
    outputs (snd (plan E name type dur files)) = stores evs /\
    outputs s1 = stores evs /\
    NoDup (map fst (stores evs)).
Proof.
  intros Hv.
  destruct (plan_spec E name type dur files Hv) as (r1 & s1 & Hph & Hplan & Hblind & Houts).
  destruct (phases_spec E _ _ _ _ _ Hph) as (evs & Htr & Hfs & Hrd & _ & Hout & Hst & _).
  destruct (phases_outputs r1 s1 evs Hout Hst) as [Hout' Hnd].
  cbn [after_header start trace fs outputs readings app] in Htr, Hfs, Hrd.
  exists r1, s1, evs. fold self in Hblind, Houts, Hplan, Hph.
  split; [exact Hph |]. split; [exact Hplan |]. split; [exact Htr |].
  split; [exact Hfs |]. split; [exact Hrd |].
  split; [now rewrite (Hblind _ calls blind_calls), Htr, calls_app |].
  split; [now rewrite (Hblind _ stores blind_stores), Htr, stores_app |].
  split; [now rewrite Houts |]. split; [exact Hout' | exact Hnd].
Qed.

End ConferenceRuns.

Section ConferenceCallsTheorems.

Import Conference.

(** X2.  In every run, every generation request carries the model, the
    temperature and the token limit of the configuration, and two messages:
    the system prompt of its phase under the role [system], then the user
    message under the role [user]. *)
Theorem every_request_carries_the_configuration
    (E : env) (name type dur : string) (files : gmap string string) :
  let s' := snd (plan E name type dur files) in
  Forall (fun c : stage * request * outcome =>
            req_model c.1.2 = OPENAI_MODEL (config E) /\
            req_temperature c.1.2 = AGENT_TEMPERATURE (config E) /\
            req_max_tokens c.1.2 = AGENT_MAX_TOKENS (config E) /\
            exists um,
              req_messages c.1.2 =
                [ {| role := "system";
                     content := system_prompt (workflow_of E name type dur) c.1.1 |};
                  {| role := "user"; content := um |} ])
         (calls (trace s')).
Proof.
  cbv zeta. destruct (validate_setup (config E)) eqn:Hv;
    [| rewrite plan_invalid by exact Hv; constructor].
  destruct (plan_phases E name type dur files Hv)
    as (r1 & s1 & evs & Hph & _ & Htr & _ & _ & Hcalls & _).
  rewrite Hcalls.
  destruct (phases_calls E _ _ _ _ _ Hph) as (evs' & Htr' & Hreq & _).
  cbn [after_header start trace readings app] in Htr'. rewrite Htr in Htr'.
  apply app_inv_head in Htr' as <-.
  apply Forall_forall. intros [[st req] res] Hin%list_elem_of_In.
  destruct (Hreq st req res Hin) as [um ->]. cbn [fst snd].
  do 3 (split; [reflexivity |]). now exists um.
Qed.

(** X3.  In every run, what [self.outputs] holds for a stage at the end is the
    text its generation call returned, as it was returned; the stage whose
    call failed has no output. *)
Theorem answers_are_stored_as_returned
    (E : env) (name type dur : string) (files : gmap string string) :
  let s' := snd (plan E name type dur files) in
  Forall (fun c : stage * request * outcome =>
            dict_get (key c.1.1) (outputs s') =
            match c.2 with Text t => Some t | Failure _ => None end)
         (calls (trace s')).
Proof.
  cbv zeta. destruct (validate_setup (config E)) eqn:Hv;
    [| rewrite plan_invalid by exact Hv; constructor].
  destruct (plan_phases E name type dur files Hv)
    as (r1 & s1 & evs & Hph & _ & Htr & _ & _ & Hcalls & _ & Houts & _ & Hnd).
  rewrite Hcalls, Houts.
  destruct (phases_calls E _ _ _ _ _ Hph) as (evs' & Htr' & _ & Hst & _).
  destruct (phases_spec E _ _ _ _ _ Hph) as (evs'' & Htr'' & _ & _ & _ & _ & _ & _ & _ & Hfail).
  cbn [after_header start trace readings app] in Htr', Htr''. rewrite Htr in Htr', Htr''.
  apply app_inv_head in Htr' as <-. apply app_inv_head in Htr'' as <-.
  apply Forall_forall. intros [[st req] [t|msg]] Hin%list_elem_of_In; cbn [fst snd].
  - apply dict_get_In; [exact Hnd | now apply (Hst st req)].
  - destruct (Hfail st req msg Hin) as (_ & _ & done & rest & Hsplit & Hkeys & _).
    apply dict_get_fresh. rewrite Hkeys. intros Hk.
    apply in_map_iff in Hk as (st0 & Hkey & Hin0). apply key_inj in Hkey as ->.
    exact (pipeline_before _ _ _ Hsplit Hin0).
Qed.

End ConferenceCallsTheorems.

(** ** Runs that reach the summary *)

Section ConferenceCompletion.

Import Conference.

Variable E : env.
Variables (name type dur : string) (files : gmap string string).

Let self : workflow := workflow_of E name type dur.

Ltac reduce_message H :=
  cbn [after_call after_header start outputs fs trace readings requests
       message_of item dict_get dict_set key String.eqb Ascii.eqb Bool.eqb] in H.

Ltac answered_phase Hans H :=
  let um := fresh "um" in let c := fresh "c" in
  let Hm := fresh "Hm" in let Hc := fresh "Hc" in let H' := fresh "H" in
  inversion H as [ | ? ? ? um c ? ? Hm Hc H' | ? ? ? um ? Hm Hc | ? ? ? ? Hm ];
  subst; clear H; reduce_message Hm;
  [ injection Hm as <-; clear Hc; rename H' into H
  | exfalso; match type of Hc with create E ?n ?req = _ =>
      destruct (Hans n req) as [? Hc'] end; congruence
  | discriminate Hm ].

(** When the service answers every request, no phase raises. *)
Lemma phases_answered (r : result unit) (s1 : state) :
  (forall n req, exists c, create E n req = Text c) ->
  phases E self pipeline (after_header E self (start files)) r s1 ->
  r = Ok tt.
Proof.
  intros Hans Hph. unfold pipeline in Hph.
  do 5 answered_phase Hans Hph.
  inversion Hph. reflexivity.
Qed.

(** Every output of the dictionary stands in the text of the plan. *)
Lemma document_contains (o : dict) (t : datetime) (st : stage) (v : string) :
  dict_get (key st) o = Some v -> contains (document self o t) v.
Proof.
  intros H. unfold document, sections. cbn [foldr].
  destruct st; cbn [key] in H; rewrite H;
    change (default EmptyString (Some v)) with v;
    repeat lazymatch goal with
      | |- contains (v +:+ _) v => apply contains_app_l, contains_refl
      | |- contains (_ +:+ _) v => apply contains_app_r
      end.
Qed.


(** The outcome of a run with a valid configuration, by the outcome of its
    phases: when they all returned, the summary decides, and it raises only
    when the plan file cannot be opened. *)
Lemma plan_outcome :
  validate_setup (config E) = true ->
  exists r1 s1 evs,
    phases E self pipeline (after_header E self (start files)) r1 s1 /\
    trace s1 = header_events self (clock E 0) ++ evs /\
    calls (trace (snd (plan E name type dur files))) = calls evs /\
    outputs (snd (plan E name type dur files)) = stores evs /\
    NoDup (map fst (stores evs)) /\
    (r1 = Ok tt ->
     fst (plan E name type dur files) =
       match open_error E (output_file (clock E 1)) with
       | None => Ok tt
       | Some msg => Raise (Exception msg)
       end /\
     fs (snd (plan E name type dur files)) =
       match open_error E (output_file (clock E 1)) with
       | None =>
           <[output_file (clock E 1) :=
               document self (outputs (snd (plan E name type dur files))) (clock E 2)]> files
       | Some _ => files
       end) /\
    (forall e, r1 = Raise e ->
               fst (plan E name type dur files) = Raise e /\
               fs (snd (plan E name type dur files)) = files).
Proof.
  intros Hv.
  destruct (plan_phases E name type dur files Hv)
    as (r1 & s1 & evs & Hph & Hplan & Htr & Hfs & Hrd & Hcalls & _ & Houts & Houts1 & Hnd).
  fold self in Hph, Hplan, Htr.
  exists r1, s1, evs.
  split; [exact Hph |]. split; [exact Htr |]. split; [exact Hcalls |].
  split; [exact Houts |]. split; [exact Hnd |].
  split.
  - intros ->. rewrite Houts, <- Houts1, Hplan.
    destruct (summary_file E self s1) as [Hr Hf].
    { intros st. apply (phases_ok_outputs E _ _ _ _ _ Hph eq_refl).
      destruct st; cbn; tauto. }
    cbv zeta in Hr, Hf. rewrite Hrd, Hfs in *. split; [exact Hr | exact Hf].
  - intros e ->. rewrite Hplan. split; [reflexivity | exact Hfs].
Qed.

End ConferenceCompletion.

Section ConferenceCompletionTheorems.

Import Conference.

(** X4.  When the configuration is valid, the service answers every request and
    the plan file can be opened, the run returns normally: it has issued the
    five calls in the order of the pipeline, it holds the five outputs under
    the keys of the stages in that order, and it has left the plan in the file
    named after its second clock reading, with the third reading on the line
    [Generated:]. *)
Theorem answered_run_completes
    (E : env) (name type dur : string) (files : gmap string string) :
  validate_setup (config E) = true ->
  (forall n req, exists c, create E n req = Text c) ->
  open_error E (output_file (clock E 1)) = None ->
  let r := fst (plan E name type dur files) in
  let s' := snd (plan E name type dur files) in
  r = Ok tt /\
  map (fun c => c.1.1) (calls (trace s')) = pipeline /\
  map fst (outputs s') = map key pipeline /\
  fs s' = <[output_file (clock E 1) :=
              document (workflow_of E name type dur) (outputs s') (clock E 2)]> files.
Proof.
  intros Hv Hans Hopen. cbv zeta.
  destruct (plan_outcome E name type dur files Hv)
    as (r1 & s1 & evs & Hph & Htr & Hcalls & Houts & _ & Hok & _).
  pose proof (phases_answered E name type dur files r1 s1 Hans Hph) as ->.
  destruct (Hok eq_refl) as [Hr Hf]. rewrite Hopen in Hr, Hf.
  destruct (phases_calls E _ _ _ _ _ Hph) as (evs' & Htr' & _ & _ & _ & Hall).
  cbn [after_header start trace readings app] in Htr'. rewrite Htr in Htr'.
  apply app_inv_head in Htr' as <-.
  destruct (Hall eq_refl) as (Hl & Hk & _).
  rewrite Hcalls. split; [exact Hr |]. split; [exact Hl |].
  split; [now rewrite Houts |]. exact Hf.
Qed.

(** The run of the script's own conference with an echoing service. *)
Lemma answered_run_witness :
  fst echo_run = Ok tt /\
  map (fun c => c.1.1) (calls (trace (snd echo_run))) = pipeline /\
  map fst (outputs (snd echo_run)) = map key pipeline /\
  fs (snd echo_run) =
    <[output_file (ticking 1) :=
        document (workflow_of (stub_env echo) CONFERENCE_NAME CONFERENCE_TYPE DURATION)
                 (outputs (snd echo_run)) (ticking 2)]> ∅.
Proof.
  exact (answered_run_completes (stub_env echo) CONFERENCE_NAME CONFERENCE_TYPE DURATION ∅
           eq_refl (fun n req => ex_intro _ _ eq_refl) eq_refl).
Defined.

(** X5.  A run that returns normally has issued exactly the five calls of the
    pipeline, each of which returned a text, and has left a plan file whose
    text contains every one of these texts verbatim. *)
Theorem completed_run_persists_every_answer
    (E : env) (name type dur : string) (files : gmap string string) :
  let r := fst (plan E name type dur files) in
  let s' := snd (plan E name type dur files) in
  r = Ok tt ->
  map (fun c => c.1.1) (calls (trace s')) = pipeline /\
  exists body,
    fs s' !! output_file (clock E 1) = Some body /\
    Forall (fun c : stage * request * outcome =>
              exists t, c.2 = Text t /\ contains body t)
           (calls (trace s')).
Proof.
  cbv zeta. intros Hr.
  destruct (validate_setup (config E)) eqn:Hv;
    [| rewrite plan_invalid in Hr by exact Hv; discriminate Hr].
  destruct (plan_outcome E name type dur files Hv)
    as (r1 & s1 & evs & Hph & Htr & Hcalls & Houts & Hnd & Hok & Hraise).
  destruct r1 as [[]|e]; [| destruct (Hraise e eq_refl) as [Hr' _]; congruence].
  destruct (Hok eq_refl) as [Hr' Hf]. rewrite Hr in Hr'.
  destruct (open_error E (output_file (clock E 1))) as [msg|]; [discriminate Hr' |].
  destruct (phases_calls E _ _ _ _ _ Hph) as (evs' & Htr' & _ & Hst & _ & Hall).
  cbn [after_header start trace readings app] in Htr'. rewrite Htr in Htr'.
  apply app_inv_head in Htr' as <-.
  destruct (Hall eq_refl) as (Hl & _ & Htext).
  rewrite Hcalls. split; [exact Hl |].
  eexists. split; [rewrite Hf; apply lookup_insert_eq |].
  apply Forall_forall. intros [[st req] res] Hin%list_elem_of_In. cbn [snd].
  destruct (Htext st req res Hin) as [t ->]. exists t. split; [reflexivity |].
  apply (document_contains E name type dur _ _ st). rewrite Houts.
  apply dict_get_In; [exact Hnd | now apply (Hst st req)].
Qed.

(** The run of the script's own conference with an echoing service. *)
Lemma completed_run_witness :
  map (fun c => c.1.1) (calls (trace (snd echo_run))) = pipeline /\
  exists body,
    fs (snd echo_run) !! output_file (ticking 1) = Some body /\
    Forall (fun c : stage * request * outcome =>
              exists t, c.2 = Text t /\ contains body t)
           (calls (trace (snd echo_run))).
Proof.
  apply (completed_run_persists_every_answer
           (stub_env echo) CONFERENCE_NAME CONFERENCE_TYPE DURATION ∅).
  vm_compute. reflexivity.
Defined.

(** X6.  When the five phases have run and the plan file cannot be opened, the
    run raises the error of [open] to its caller: the five outputs are in
    [self.outputs], and no file has been written. *)
Theorem unwritable_plan_file_fails_the_run
    (E : env) (name type dur : string) (files : gmap string string) (msg : string) :
  validate_setup (config E) = true ->
  (forall n req, exists c, create E n req = Text c) ->
  open_error E (output_file (clock E 1)) = Some msg ->
  let r := fst (plan E name type dur files) in
  let s' := snd (plan E name type dur files) in
  r = Raise (Exception msg) /\
  map (fun c => c.1.1) (calls (trace s')) = pipeline /\
  map fst (outputs s') = map key pipeline /\
  fs s' = files.
Proof.
  intros Hv Hans Hopen. cbv zeta.
  destruct (plan_outcome E name type dur files Hv)
    as (r1 & s1 & evs & Hph & Htr & Hcalls & Houts & _ & Hok & _).
  pose proof (phases_answered E name type dur files r1 s1 Hans Hph) as ->.
  destruct (Hok eq_refl) as [Hr Hf]. rewrite Hopen in Hr, Hf.
  destruct (phases_calls E _ _ _ _ _ Hph) as (evs' & Htr' & _ & _ & _ & Hall).
  cbn [after_header start trace readings app] in Htr'. rewrite Htr in Htr'.
  apply app_inv_head in Htr' as <-.
  destruct (Hall eq_refl) as (Hl & Hk & _).
  rewrite Hcalls. split; [exact Hr |]. split; [exact Hl |].
  split; [now rewrite Houts |]. exact Hf.
Qed.

(** The run of the script's own conference in a directory that cannot be
    written. *)
Lemma unwritable_plan_file_witness :
  fst (plan read_only_env CONFERENCE_NAME CONFERENCE_TYPE DURATION ∅) =
    Raise (Exception "[Errno 13] Permission denied: 'conference_plan_20261103_120001.txt'") /\
  map (fun c => c.1.1)
      (calls (trace (snd (plan read_only_env CONFERENCE_NAME CONFERENCE_TYPE DURATION ∅)))) =
    pipeline /\
  map fst (outputs (snd (plan read_only_env CONFERENCE_NAME CONFERENCE_TYPE DURATION ∅))) =
    map key pipeline /\
  fs (snd (plan read_only_env CONFERENCE_NAME CONFERENCE_TYPE DURATION ∅)) = ∅.
Proof.
  exact (unwritable_plan_file_fails_the_run
           read_only_env CONFERENCE_NAME CONFERENCE_TYPE DURATION ∅ _
           eq_refl (fun n req => ex_intro _ _ eq_refl) eq_refl).
Defined.

End ConferenceCompletionTheorems.

(** ** Outputs that are missing *)

Section ConferenceMissing.

Import Conference.

Variable E : env.
Variable self : workflow.

Ltac exec_all :=
  cbv beta iota zeta delta
      [bind ret raise try_except modify gets for_each sections
       print_ emit getitem setitem fwrite datetime_now chat_completions_create open_w
       fst snd outputs fs trace readings requests].

(** X7.  [print_summary] on a workflow that lacks the output of a stage raises
    [KeyError] for the first such stage in the order of the report: it has
    read no clock and touched no file, and the dictionary is as it was. *)
Theorem summary_without_an_output (s : state) (st : stage) :
  dict_get (key st) (outputs s) = None ->
  (forall st0, number st0 < number st -> is_Some (dict_get (key st0) (outputs s))) ->
  let m := print_summary E self s in
  fst m = Raise (key_error (key st)) /\
  fs (snd m) = fs s /\ readings (snd m) = readings s /\ outputs (snd m) = outputs s.
Proof.
  destruct s as [o files tr n q]. cbn [outputs fs readings]. intros Hnone Hprev. cbv zeta.
  pose proof (Hprev Theme) as H1. pose proof (Hprev Speakers) as H2.
  pose proof (Hprev Schedule) as H3. pose proof (Hprev Logistics) as H4. clear Hprev.
  destruct st; cbn [number key] in *;
    repeat match goal with
           | H : ?a < ?b -> is_Some _ |- _ =>
               first [ assert (a < b) as Hlt by lia; destruct (H Hlt) as [? ?]; clear H Hlt
                     | clear H ]
           end;
    unfold print_summary; exec_all;
    repeat (match goal with H : dict_get _ o = _ |- _ => rewrite H end; exec_all);
    repeat split; reflexivity.
Qed.

(** X8.  A phase other than the first, run on a workflow that lacks the
    output [theme], raises [KeyError] while it builds its user message, which
    is before its [try]: it prints its banner and nothing else, not even the
    error line, it issues no generation call and it stores nothing.  The key
    of the error is the first one the message reads: [schedule] for the
    logistics phase when that output is missing as well, [theme] otherwise. *)
Theorem phase_without_the_theme (st : stage) (s : state) :
  st <> Theme ->
  dict_get "theme" (outputs s) = None ->
  let m := phase E self st s in
  fst m = Raise (key_error match st, dict_get "schedule" (outputs s) with
                           | Logistics, None => "schedule"
                           | _, _ => "theme"
                           end) /\
  printed (trace (snd m)) =
    printed (trace s) ++ [nl +:+ rep "=" 80; banner st; rep "=" 80; working st] /\
  calls (trace (snd m)) = calls (trace s) /\
  outputs (snd m) = outputs s.
Proof.
  intros Hst Hnone. cbv zeta. rewrite phase_eq.
  assert (Hm : message_of self (outputs s) st =
               Raise (key_error match st, dict_get "schedule" (outputs s) with
                                | Logistics, None => "schedule"
                                | _, _ => "theme"
                                end)).
  { destruct st; [contradiction | ..]; cbn [message_of]; unfold item; rewrite ?Hnone;
      try reflexivity.
    destruct (dict_get "schedule" (outputs s)); reflexivity. }
  rewrite Hm. cbn [fst snd after_banner trace outputs].
  rewrite printed_app, calls_app. cbn. rewrite app_nil_r.
  repeat split; reflexivity.
Qed.

End ConferenceMissing.

Section ConferenceMissingInstances.

Import Conference.

(** The summary asked of a workflow that has run no phase. *)
Lemma summary_without_an_output_witness :
  let m := print_summary (stub_env echo)
             (workflow_of (stub_env echo) CONFERENCE_NAME CONFERENCE_TYPE DURATION)
             (start ∅) in
  fst m = Raise (key_error "theme") /\
  fs (snd m) = ∅ /\ readings (snd m) = 0 /\ outputs (snd m) = [].
Proof.
  apply (summary_without_an_output (stub_env echo)
           (workflow_of (stub_env echo) CONFERENCE_NAME CONFERENCE_TYPE DURATION)
           (start ∅) Theme).
  - reflexivity.
  - intros st0 H. destruct st0; cbn in H; lia.
Defined.

(** The speakers phase run before the theme phase. *)
Lemma phase_without_the_theme_witness :
  let m := phase (stub_env echo)
             (workflow_of (stub_env echo) CONFERENCE_NAME CONFERENCE_TYPE DURATION)
             Speakers (start ∅) in
  fst m = Raise (key_error "theme") /\
  printed (trace (snd m)) =
    [] ++ [nl +:+ rep "=" 80; banner Speakers; rep "=" 80; working Speakers] /\
  calls (trace (snd m)) = [] /\
  outputs (snd m) = [].
Proof.
  apply (phase_without_the_theme (stub_env echo)
           (workflow_of (stub_env echo) CONFERENCE_NAME CONFERENCE_TYPE DURATION)
           Speakers (start ∅)).
  - discriminate.
  - reflexivity.
Defined.

End ConferenceMissingInstances.

(** ** The script around the workflow *)

Section ConferenceScript.

Import Conference.

Variable E : env.
Variables (argv : list string) (files : gmap string string).

Let self : workflow := workflow_of E CONFERENCE_NAME CONFERENCE_TYPE DURATION.

(** The state in which the script creates the workflow: its five opening
    lines are printed. *)
Let s0 : state :=
  {| outputs := []; fs := files;
     trace := [ EvPrint "
🎯 EXERCISE 4: CUSTOM PROBLEM - CONFERENCE PLANNING";
                EvPrint (rep "=" 80);
                EvPrint "This demo shows how to adapt AutoGen for different problem domains.";
                EvPrint "We're planning a multi-day tech conference using 5 specialized agents.";
                EvPrint (rep "=" 80) ];
     readings := 0; requests := 0 |}.

(** The script with the library installed and a valid configuration: the
    workflow is run, and what it raises is reported. *)
Lemma process_eq :
  openai_installed E = true ->
  validate_setup (config E) = true ->
  process E argv files =
  match run E self s0 with
  | (Ok _, s1) =>
      (Ok tt,
       emit (EvPrint "    variables in this file to plan different types of conferences!")
         (emit (EvPrint "
💡 TIP: Edit the CONFERENCE_NAME, CONFERENCE_TYPE, and DURATION")
            (emit (EvPrint "
✅ Conference planning workflow completed successfully!") s1)))
  | (Raise (Exception msg), s1) =>
      (Ok tt,
       emit (EvPrint "3. Verify internet connection")
         (emit (EvPrint "2. Check your API key has sufficient credits")
            (emit (EvPrint "1. Verify your API key is set in .env")
               (emit (EvPrint "
Troubleshooting:")
                  (emit (EvPrint ("
❌ Error during workflow execution: " +:+ msg)) s1)))))
  | (Raise (SystemExit code), s1) => (Raise (SystemExit code), s1)
  end.
Proof.
  intros Hi Hv. unfold process, script. rewrite Hi.
  rewrite bind_ret_eq. repeat (rewrite bind_print_eq; cbv beta).
  cbv [try_except bind init ret modify]. rewrite Hv. cbv beta iota.
  lazymatch goal with
  | |- ?L = _ =>
      match L with
      | context [run E ?w ?s] => change (run E w s) with (run E self s0)
      end
  end.
  unfold bind. destruct (run E self s0) as [[[]|[msg|code]] s1]; reflexivity.
Qed.


(** The script whose client library is missing or whose configuration is not
    valid. *)
Lemma process_unconfigured :
  openai_installed E && validate_setup (config E) = false ->
  process E argv files =
  (Raise (SystemExit 1),
   {| outputs := []; fs := files;
      trace :=
        if openai_installed E then
          trace s0 ++ [EvPrint "ERROR: Configuration validation failed!"]
        else
          [ EvPrint "ERROR: OpenAI client is not installed!";
            EvPrint "Please run: pip install -r ../requirements.txt" ];
      readings := 0; requests := 0 |}).
Proof.
  intros H. unfold process, script.
  destruct (openai_installed E); [| reflexivity].
  cbn [andb] in H.
  cbv [try_except bind init ret modify raise print_]. rewrite H. reflexivity.
Qed.

End ConferenceScript.

Section ConferenceScriptTheorems.

Import Conference.

(** X9.  When the client library cannot be imported or the configuration is
    not valid, the script ends with [SystemExit(1)] after its error line: it
    has issued no generation call, read no clock and opened no file, and the
    troubleshooting lines of its [except] clause are not printed, a
    [SystemExit] being no [Exception]. *)
Theorem unconfigured_script_stops_at_once
    (E : env) (argv : list string) (files : gmap string string) :
  openai_installed E && validate_setup (config E) = false ->
  let m := process E argv files in
  fst m = Raise (SystemExit 1) /\
  last (printed (trace (snd m))) =
    Some (if openai_installed E then "ERROR: Configuration validation failed!"
          else "Please run: pip install -r ../requirements.txt") /\
  length (printed (trace (snd m))) = (if openai_installed E then 6 else 2) /\
  calls (trace (snd m)) = [] /\
  opened (trace (snd m)) = [] /\
  readings (snd m) = 0 /\
  fs (snd m) = files.
Proof.
  intros H. cbv zeta. rewrite (process_unconfigured E argv files H). cbn [fst snd trace].
  destruct (openai_installed E); repeat split; reflexivity.
Qed.

(** The script in a world whose configuration does not validate. *)
Lemma unconfigured_script_witness :
  let m := process unconfigured_env ["autogen_conference_demo.py"] ∅ in
  fst m = Raise (SystemExit 1) /\
  last (printed (trace (snd m))) = Some "ERROR: Configuration validation failed!" /\
  length (printed (trace (snd m))) = 6 /\
  calls (trace (snd m)) = [] /\
  opened (trace (snd m)) = [] /\
  readings (snd m) = 0 /\
  fs (snd m) = ∅.
Proof.
  exact (unconfigured_script_stops_at_once
           unconfigured_env ["autogen_conference_demo.py"] ∅ eq_refl).
Defined.

(** X10.  When a generation call fails, the script reports it and ends
    normally: the last five lines it prints are the error line of its
    [except] clause, with the text of the failure, and the four troubleshooting
    lines. *)
Theorem failed_call_is_reported_by_the_script
    (E : env) (argv : list string) (files : gmap string string)
    (st : stage) (req : request) (msg : string) :
  let m := process E argv files in
  In (st, req, Failure msg) (calls (trace (snd m))) ->
  fst m = Ok tt /\
  [ "
❌ Error during workflow execution: " +:+ msg;
    "
Troubleshooting:";
    "1. Verify your API key is set in .env";
    "2. Check your API key has sufficient credits";
    "3. Verify internet connection" ] `suffix_of` printed (trace (snd m)).
Proof.
  cbv zeta. intros Hin.
  destruct (openai_installed E && validate_setup (config E)) eqn:Hok.
  2:{ rewrite (process_unconfigured E argv files Hok) in Hin. cbn [snd trace] in Hin.
      destruct (openai_installed E); destruct Hin. }
  apply andb_prop in Hok as [Hi Hv].
  rewrite (process_eq E argv files Hi Hv) in *.
  rewrite run_eq in *.
  match type of Hin with context [for_each pipeline ?f ?s] =>
    pose proof (phases_for_each E (workflow_of E CONFERENCE_NAME CONFERENCE_TYPE DURATION)
                  pipeline s) as Hph;
    destruct (for_each pipeline f s) as [r1 s1] end.
  cbn [fst snd] in Hph.
  destruct (phases_spec E _ _ _ _ _ Hph) as (evs & Htr & _ & _ & _ & _ & _ & _ & _ & Hfail).
  cbn [after_header trace readings] in Htr.
  assert (Hcalls : calls (trace s1) = calls evs).
  { rewrite Htr, !calls_app. reflexivity. }
  assert (Hr1 : In (st, req, Failure msg) (calls (trace s1)) -> r1 = Raise (Exception msg)).
  { rewrite Hcalls. intros H. now destruct (Hfail st req msg H). }
  destruct r1 as [[]|[m|code]].
  - exfalso.
    assert (Hs : calls (trace (snd (print_summary E
                  (workflow_of E CONFERENCE_NAME CONFERENCE_TYPE DURATION) s1))) =
                 calls (trace s1))
      by apply (summary_blind E _ calls blind_calls).
    destruct (print_summary E _ s1) as [[[]|[m|code]] s2]; cbn [fst snd] in *;
      cbv [emit] in Hin; cbn [trace] in Hin;
      rewrite ?calls_app in Hin; cbn [calls omap list_omap app] in Hin;
      rewrite ?app_nil_r, ?Hs in Hin; discriminate (Hr1 Hin).
  - cbv [emit] in Hin |- *. cbn [fst snd trace] in Hin |- *.
    rewrite !calls_app in Hin. cbn [calls omap list_omap app] in Hin.
    rewrite !app_nil_r in Hin. injection (Hr1 Hin) as ->.
    split; [reflexivity |].
    exists (printed (trace s1)). rewrite <- !app_assoc, !printed_app. reflexivity.
  - cbn [fst snd] in Hin. discriminate (Hr1 Hin).
Qed.

(** The script with a service whose second call fails. *)
Lemma failed_call_is_reported_witness :
  fst failing_process = Ok tt /\
  [ "
❌ Error during workflow execution: " +:+ "rate limit exceeded";
    "
Troubleshooting:";
    "1. Verify your API key is set in .env";
    "2. Check your API key has sufficient credits";
    "3. Verify internet connection" ] `suffix_of` printed (trace (snd failing_process)).
Proof.
  refine (failed_call_is_reported_by_the_script
            (stub_env (fails_at 1 "rate limit exceeded")) ["autogen_conference_demo.py"] ∅
            Speakers
            (stage_request (stub_env (fails_at 1 "rate limit exceeded"))
               (workflow_of (stub_env (fails_at 1 "rate limit exceeded"))
                  CONFERENCE_NAME CONFERENCE_TYPE DURATION)
               Speakers
               (speakers_message
                  (workflow_of (stub_env (fails_at 1 "rate limit exceeded"))
                     CONFERENCE_NAME CONFERENCE_TYPE DURATION)
                  (theme_message
                     (workflow_of (stub_env (fails_at 1 "rate limit exceeded"))
                        CONFERENCE_NAME CONFERENCE_TYPE DURATION))))
            "rate limit exceeded" _).
  vm_compute. right. left. reflexivity.
Defined.

End ConferenceScriptTheorems.

(** ** The travel crew: what a run of [main] leaves *)

Section TravelRun.

Import Travel.

Variable E : env.

Ltac exec_all :=
  cbv beta iota zeta delta
      [bind ret raise try_except modify gets for_each
       print_ emit setenv fwrite print_exc config_print_summary
       datetime_now open_w crew_kickoff
       fst snd environ fs trace readings].

Lemma kickoffs_snoc (tr : list event) (ev : event) :
  kickoffs (tr ++ [ev]) =
  kickoffs tr ++ match ev with EvKickoff c i o => [(c, i, o)] | _ => [] end.
Proof. unfold kickoffs. rewrite omap_app. now destruct ev. Qed.

(** [main] with a valid configuration: the variables it exports, its one
    call of the crew, and its last act when the crew or [open] fails. *)
Lemma main_run (destination trip_duration trip_dates departure_city : string)
    (travelers : Z) (budget_preference : string) (s : state) :
  validate_config (config E) = true ->
  let m := main E destination trip_duration trip_dates departure_city travelers
                budget_preference s in
  let crew := crew_of destination trip_duration trip_dates departure_city in
  let i := inputs_of destination trip_duration trip_dates departure_city travelers
                     budget_preference in
  environ (snd m) =
    (if USE_GROQ (config E)
     then <["OPENAI_MODEL_NAME" := OPENAI_MODEL (config E)]>
     else fun vars => vars)
      (<["OPENAI_API_BASE" := API_BASE (config E)]>
         (<["OPENAI_API_KEY" := API_KEY (config E)]> (environ s))) /\
  kickoffs (trace (snd m)) = kickoffs (trace s) ++ [(crew, i, kickoff E crew i)] /\
  (forall msg,
     kickoff E crew i = Failure msg \/
     (exists result, kickoff E crew i = Text result /\
                     open_error E (output_path E destination) = Some msg) ->
     last (trace (snd m)) = Some (EvTraceback msg)).
Proof.
  destruct s as [vars files tr n]. intros Hv. cbv zeta.
  unfold main, crew_of, inputs_of, output_path. exec_all. rewrite Hv. exec_all.
  destruct (USE_GROQ (config E)); exec_all;
    (destruct (kickoff E _ _) as [result|msg0]; exec_all;
     [destruct (open_error E _) as [msg0|]; exec_all |];
     (split; [reflexivity |]);
     (split; [rewrite !kickoffs_snoc; cbv beta iota; rewrite !app_nil_r; reflexivity |]);
     intros msg [Hf | (r & Hr & Ho)]; try discriminate;
     try (injection Hf as ->); try (injection Ho as ->); apply last_snoc).
Qed.

Lemma main_invalid (destination trip_duration trip_dates departure_city : string)
    (travelers : Z) (budget_preference : string) (s : state) :
  validate_config (config E) = false ->
  let m := main E destination trip_duration trip_dates departure_city travelers
                budget_preference s in
  fst m = Raise (SystemExit 1) /\
  environ (snd m) = environ s /\ fs (snd m) = fs s /\ readings (snd m) = readings s /\
  kickoffs (trace (snd m)) = kickoffs (trace s) /\
  last (trace (snd m)) =
    Some (EvPrint "âŒ Configuration validation failed. Please set up your .env file.").
Proof.
  destruct s as [vars files tr n]. intros Hv. cbv zeta.
  unfold main. exec_all. rewrite Hv. exec_all.
  do 4 (split; [reflexivity |]).
  split; [rewrite !kickoffs_snoc; cbv beta iota; rewrite !app_nil_r; reflexivity |].
  apply last_snoc.
Qed.

End TravelRun.

Section TravelRunTheorems.

Import Travel.

(** X11.  [main] starts the crew exactly once when the configuration is valid,
    and never otherwise: the crew is the one formed of the five agents and
    their five tasks for its parameters, and the inputs are its six parameters
    as they were given. *)
Theorem crew_is_started_once_with_the_parameters
    (E : env) (destination trip_duration trip_dates departure_city : string)
    (travelers : Z) (budget_preference : string) (s : state) :
  let m := main E destination trip_duration trip_dates departure_city travelers
                budget_preference s in
  let crew := crew_of destination trip_duration trip_dates departure_city in
  let i := {| in_trip_destination := destination;
              in_trip_duration := trip_duration;
              in_trip_dates := trip_dates;
              in_departure_city := departure_city;
              in_travelers := travelers;
              in_budget_preference := budget_preference |} in
  kickoffs (trace (snd m)) =
    kickoffs (trace s) ++
    (if validate_config (config E) then [(crew, i, kickoff E crew i)] else []).
Proof.
  cbv zeta. destruct (validate_config (config E)) eqn:Hv.
  - now destruct (main_run E destination trip_duration trip_dates departure_city travelers
                    budget_preference s Hv) as (_ & Hk & _).
  - destruct (main_invalid E destination trip_duration trip_dates departure_city travelers
                budget_preference s Hv) as (_ & _ & _ & _ & Hk & _).
    now rewrite app_nil_r.
Qed.

(** X12.  With a valid configuration [main] returns normally even when the crew
    raises or the report file cannot be opened: the exception is caught, its
    traceback is the last thing [main] prints, and no file is changed. *)
Theorem crew_failure_is_caught_by_main
    (E : env) (destination trip_duration trip_dates departure_city : string)
    (travelers : Z) (budget_preference : string) (s : state) (msg : string) :
  let m := main E destination trip_duration trip_dates departure_city travelers
                budget_preference s in
  let crew := crew_of destination trip_duration trip_dates departure_city in
  let i := inputs_of destination trip_duration trip_dates departure_city travelers
                     budget_preference in
  validate_config (config E) = true ->
  kickoff E crew i = Failure msg \/
  (exists result, kickoff E crew i = Text result /\
                  open_error E (output_path E destination) = Some msg) ->
  fst m = Ok tt /\
  fs (snd m) = fs s /\
  last (trace (snd m)) = Some (EvTraceback msg).
Proof.
  cbv zeta. intros Hv Hfail.
  destruct (main_spec E destination trip_duration trip_dates departure_city travelers
              budget_preference s) as [Hr Hfs].
  destruct (main_run E destination trip_duration trip_dates departure_city travelers
              budget_preference s Hv) as (_ & _ & Hlast).
  cbv zeta in Hr, Hfs. rewrite Hv in Hr, Hfs.
  split; [exact Hr |]. split; [| now apply Hlast].
  rewrite Hfs. destruct Hfail as [-> | (result & -> & ->)]; reflexivity.
Qed.

(** A run whose crew fails. *)
Lemma crew_failure_witness :
  let m := main (stub_env (fun _ _ => Failure "connection refused"))
                "Iceland" "5 days" "January 15-20, 2026" "New York" 2 "mid-range"
                (start ∅ ∅) in
  fst m = Ok tt /\
  fs (snd m) = ∅ /\
  last (trace (snd m)) = Some (EvTraceback "connection refused").
Proof.
  apply (crew_failure_is_caught_by_main
           (stub_env (fun _ _ => Failure "connection refused"))
           "Iceland" "5 days" "January 15-20, 2026" "New York" 2 "mid-range"
           (start ∅ ∅) "connection refused").
  - reflexivity.
  - left. reflexivity.
Defined.

(** X13.  With a valid configuration [main] leaves the API key and the API base
    of the configuration in the environment variables [OPENAI_API_KEY] and
    [OPENAI_API_BASE], whatever the crew does afterwards; it sets
    [OPENAI_MODEL_NAME] to the model only when [USE_GROQ] is set, and leaves
    it as inherited otherwise; no other variable changes.  With a
    configuration that is not valid the environment is left as it was. *)
Theorem main_exports_the_configuration
    (E : env) (destination trip_duration trip_dates departure_city : string)
    (travelers : Z) (budget_preference : string) (s : state) :
  let m := main E destination trip_duration trip_dates departure_city travelers
                budget_preference s in
  if validate_config (config E) then
    environ (snd m) !! "OPENAI_API_KEY" = Some (API_KEY (config E)) /\
    environ (snd m) !! "OPENAI_API_BASE" = Some (API_BASE (config E)) /\
    environ (snd m) !! "OPENAI_MODEL_NAME" =
      (if USE_GROQ (config E) then Some (OPENAI_MODEL (config E))
       else environ s !! "OPENAI_MODEL_NAME") /\
    (forall k, k <> "OPENAI_API_KEY" -> k <> "OPENAI_API_BASE" -> k <> "OPENAI_MODEL_NAME" ->
               environ (snd m) !! k = environ s !! k)
  else environ (snd m) = environ s.
Proof.
  cbv zeta. destruct (validate_config (config E)) eqn:Hv.
  - destruct (main_run E destination trip_duration trip_dates departure_city travelers
                budget_preference s Hv) as (Henv & _). rewrite Henv.
    destruct (USE_GROQ (config E)).
    + split; [now rewrite lookup_insert_ne, lookup_insert_ne, lookup_insert_eq |].
      split; [now rewrite lookup_insert_ne, lookup_insert_eq |].
      split; [now rewrite lookup_insert_eq |].
      intros k H1 H2 H3. now rewrite !lookup_insert_ne.
    + split; [now rewrite lookup_insert_ne, lookup_insert_eq |].
      split; [now rewrite lookup_insert_eq |].
      split; [now rewrite !lookup_insert_ne |].
      intros k H1 H2 H3. now rewrite !lookup_insert_ne.
  - now destruct (main_invalid E destination trip_duration trip_dates departure_city travelers
                    budget_preference s Hv) as (_ & Henv & _).
Qed.

End TravelRunTheorems.

Section TravelReport.

Import Travel.

Lemma contains_labelled (a b rest : string) : contains (a +:+ b +:+ rest) (a +:+ b).
Proof. exists EmptyString, rest. now rewrite append_nil_l, append_assoc. Qed.

Ltac find_quoted :=
  repeat lazymatch goal with
    | |- contains (?a +:+ ?b +:+ _) (?a +:+ ?b) => apply contains_labelled
    | |- contains (?v +:+ _) ?v => apply contains_app_l, contains_refl
    | |- contains (_ +:+ _) _ => apply contains_app_r
    end.

(** The text of the report holds the result of the crew and the parameters
    of the run, each under its label. *)
Lemma report_contains (destination trip_duration trip_dates departure_city : string)
    (travelers : Z) (budget_preference result : string) (now : datetime) :
  Forall (contains (report destination trip_duration trip_dates departure_city travelers
                           budget_preference result now))
         [ result;
           "  Destination: " +:+ destination;
           "  Duration: " +:+ trip_duration;
           "  Dates: " +:+ trip_dates;
           "  Departure: " +:+ departure_city;
           "  Travelers: " +:+ pretty travelers;
           "  Budget Preference: " +:+ budget_preference;
           "Execution Time: " +:+ str_datetime now ].
Proof.
  unfold report. repeat (apply Forall_cons_2; [find_quoted |]). apply Forall_nil_2.
Qed.

(** X15.  When the configuration is valid, the crew returns and the report file
    can be opened, [main] leaves a report that holds the text the crew
    returned, verbatim, the six parameters of the run, each under its label,
    and the clock reading taken while the report is written. *)
Theorem report_holds_the_result_and_the_parameters
    (E : env) (destination trip_duration trip_dates departure_city : string)
    (travelers : Z) (budget_preference : string) (s : state) (result : string) :
  let m := main E destination trip_duration trip_dates departure_city travelers
                budget_preference s in
  validate_config (config E) = true ->
  kickoff E (crew_of destination trip_duration trip_dates departure_city)
          (inputs_of destination trip_duration trip_dates departure_city travelers
                     budget_preference) = Text result ->
  open_error E (output_path E destination) = None ->
  exists body,
    fs (snd m) !! output_path E destination = Some body /\
    Forall (contains body)
           [ result;
             "  Destination: " +:+ destination;
             "  Duration: " +:+ trip_duration;
             "  Dates: " +:+ trip_dates;
             "  Departure: " +:+ departure_city;
             "  Travelers: " +:+ pretty travelers;
             "  Budget Preference: " +:+ budget_preference;
             "Execution Time: " +:+ str_datetime (clock E (readings s)) ].
Proof.
  cbv zeta. intros Hv Hk Ho.
  destruct (main_spec E destination trip_duration trip_dates departure_city travelers
              budget_preference s) as [_ Hfs].
  cbv zeta in Hfs. rewrite Hv, Hk, Ho in Hfs.
  eexists. split; [rewrite Hfs; apply lookup_insert_eq |]. apply report_contains.
Qed.

(** A run for the default parameters whose crew returns a text. *)
Lemma report_witness :
  let m := main (stub_env (fun _ _ => Text "Plan A"))
                "Iceland" "5 days" "January 15-20, 2026" "New York" 2 "mid-range"
                (start ∅ ∅) in
  exists body,
    fs (snd m) !! output_path (stub_env (fun _ _ => Text "Plan A")) "Iceland" = Some body /\
    Forall (contains body)
           [ "Plan A";
             "  Destination: " +:+ "Iceland";
             "  Duration: " +:+ "5 days";
             "  Dates: " +:+ "January 15-20, 2026";
             "  Departure: " +:+ "New York";
             "  Travelers: " +:+ pretty 2%Z;
             "  Budget Preference: " +:+ "mid-range";
             "Execution Time: " +:+ str_datetime (ticking 0) ].
Proof.
  exact (report_holds_the_result_and_the_parameters
           (stub_env (fun _ _ => Text "Plan A"))
           "Iceland" "5 days" "January 15-20, 2026" "New York" 2 "mid-range"
           (start ∅ ∅) "Plan A" eq_refl eq_refl eq_refl).
Defined.

End TravelReport.

(** ** What the requests and the crew are made of *)

Section ConferenceRequests.

Import Conference.

Variable E : env.
Variable self : workflow.

(** Every request of a run of phases carries the user message of its phase
    for the dictionary as it is when the call is issued. *)
Lemma phases_requests (l : list stage) (s : state) (r : result unit) (s' : state) :
  phases E self l s r s' ->
  exists evs,
    trace s' = trace s ++ evs /\
    Forall (fun c : stage * request * dict =>
              exists um, message_of self c.2 c.1.1 = Ok um /\
                         c.1.2 = stage_request E self c.1.1 um)
           (calls_with_outputs (outputs s) evs).
Proof.
  induction 1 as [s | st l s um c r s' Hm Hc _ IH | st l s um msg Hm Hc | st l s e Hm].
  - exists []. rewrite app_nil_r. split; [reflexivity | constructor].
  - destruct IH as (evs & Htr & Hall).
    exists ((banner_events st ++ call_events E self st um (Text c)) ++ evs).
    cbn [after_call trace outputs] in *.
    split; [now rewrite Htr, <- !app_assoc |].
    rewrite calls_with_outputs_app, phase_stores.
    apply Forall_app. split; [| exact Hall].
    cbn. apply Forall_cons_2; [now exists um | constructor].
  - exists (banner_events st ++ call_events E self st um (Failure msg)).
    cbn [after_call trace outputs]. split; [reflexivity |].
    cbn. apply Forall_cons_2; [now exists um | constructor].
  - exists (banner_events st). cbn [after_banner trace outputs].
    split; [reflexivity | constructor].
Qed.

End ConferenceRequests.

Section ConferenceRequestsTheorems.

Import Conference.

(** X16.  In every run, the user message of every request is the text its phase
    builds from the dictionary as it is when the call is issued: the outputs
    stored by then, and the parameters of the workflow, are all that enters
    it. *)
Theorem requests_are_built_from_the_stored_outputs
    (E : env) (name type dur : string) (files : gmap string string) :
  let s' := snd (plan E name type dur files) in
  Forall (fun c : stage * request * dict =>
            exists um,
              message_of (workflow_of E name type dur) c.2 c.1.1 = Ok um /\
              content <$> last (req_messages c.1.2) = Some um)
         (calls_with_outputs [] (trace s')).
Proof.
  cbv zeta. destruct (validate_setup (config E)) eqn:Hv;
    [| rewrite plan_invalid by exact Hv; constructor].
  destruct (plan_spec E name type dur files Hv) as (r1 & s1 & Hph & _ & Hblind & _).
  rewrite (Hblind _ _ (blind_calls_with_outputs [])).
  destruct (phases_requests E _ _ _ _ _ Hph) as (evs & Htr & Hall).
  cbn [after_header start trace outputs readings app] in Htr, Hall.
  rewrite Htr. cbn [calls_with_outputs].
  eapply Forall_impl; [exact Hall |].
  intros [[st req] prior] (um & Hm & ->). cbn [fst snd] in *. now exists um.
Qed.

End ConferenceRequestsTheorems.

Section CrewTexts.

Import Travel.

Ltac find_quoted :=
  repeat lazymatch goal with
    | |- contains (?v +:+ _) ?v => apply contains_app_l, contains_refl
    | |- contains ?v ?v => apply contains_refl
    | |- contains (_ +:+ _) _ => apply contains_app_r
    end.

(** X17.  In the crew [main] forms, whatever its parameters, the five tasks are
    assigned to the five agents in their order, one task to each agent; each
    of the four search tools is held by one agent, the first four in their
    order, and the fifth agent holds none.  The goal of every agent names the
    destination, and so does the description of every task but that of the
    hotel task, which names the city hotels are searched in and not the
    destination. *)
Theorem crew_is_five_agents_with_their_tasks
    (destination trip_duration trip_dates departure_city : string) :
  let crew := crew_of destination trip_duration trip_dates departure_city in
  map agent (tasks crew) = agents crew /\
  map tools (agents crew) =
    [ [Tool_search_flight_prices]; [Tool_search_hotel_options];
      [Tool_search_attractions_activities]; [Tool_search_travel_costs]; [] ] /\
  Forall (fun a => contains (goal a) destination) (agents crew) /\
  Forall2 (fun (t : Task) (place : string) => contains (description t) place)
          (tasks crew)
          [ destination; hotel_location destination; destination; destination;
            destination ].
Proof.
  cbv zeta. unfold crew_of, hotel_location. cbn [agents tasks].
  split; [reflexivity |]. split; [reflexivity |]. split.
  - repeat (apply Forall_cons_2;
            [unfold create_flight_agent, create_hotel_agent, create_itinerary_agent,
               create_budget_agent, create_marketing_agent; cbn [goal]; find_quoted |]).
    apply Forall_nil_2.
  - repeat (apply Forall2_cons_2;
            [unfold create_flight_task, create_hotel_task, create_itinerary_task,
               create_budget_task, create_marketing_task; cbn [description];
             find_quoted |]).
    apply Forall2_nil_2.
Qed.

End CrewTexts.
